(** * ctd-tools: the reader module (src/ctd_tools/modules/reader.py)

    A shallow embedding of [AbstractReader] and of the format readers
    built on it, followed by the properties of the readers that the
    specification states and by further properties of the code: its
    error behaviour, what the loops keep, and what each reader puts
    into its dataset.

    Conventions of the embedding.
    - A Python [str] is a [string] whose characters are code points below
      256 (Latin-1, the default encoding of the TOB reader).
    - A numpy [float64] is a primitive [float].
    - A timestamp ([datetime], [pd.Timestamp], [datetime64]) is the number
      of nanoseconds since 1970-01-01T00:00:00, an integer.
    - A Python [dict] whose iteration order the code relies on is an
      association list in insertion order; dictionaries that are only
      looked up ([attrs], the rename dictionary) are [gmap]s.
    - A call that can raise returns a [result]; the exception is a value.
    - What comes out of third-party decoders (pycnv, pandas' [read_csv],
      sqlite, gsw, csv) is an input of the model. *)

From Stdlib Require Import ZArith String Ascii List Floats.
From stdpp Require Import gmap strings list pretty sorting.

Open Scope string_scope.

Set Warnings "-inexact-float,-clear-no-such-hyp".

(** ** Python values, exceptions and built-in operations *)

Module Py.

Inductive exn : Type :=
| ValueError (msg : string)
| KeyError (key : string)
| IndexError
| TypeError
| AttributeError
| UnboundLocalError (name : string)
| OutOfBoundsDatetime
| DatabaseError.

Inductive result (A : Type) : Type :=
| Ok (a : A)
| Raise (e : exn).

Arguments Ok {A} a.
Arguments Raise {A} e.

#[global] Instance result_ret : MRet result := fun A a => Ok a.

#[global] Instance result_bind : MBind result := fun A B f m =>
  match m with
  | Ok a => f a
  | Raise e => Raise e
  end.

(** A [for] loop whose body can raise, threading the loop state. *)
Fixpoint foldM {A B : Type} (f : A → B → result A) (a : A) (l : list B)
  : result A :=
  match l with
  | [] => Ok a
  | b :: l' => a' ← f a b; foldM f a' l'
  end.

Definition is_ok {A : Type} (r : result A) : bool :=
  match r with Ok _ => true | Raise _ => false end.

(** Truth value of a [str] and of an optional [str] ([None] is false). *)
Definition truthy (s : string) : bool := negb (bool_decide (s = "")).

Definition truthy_opt (o : option string) : bool :=
  match o with Some s => truthy s | None => false end.

(** [str.isspace] on one code point below 256. *)
Definition isspace (a : ascii) : bool :=
  let n := nat_of_ascii a in
  (((9 <=? n) && (n <=? 13)) || ((28 <=? n) && (n <=? 32))
   || (n =? 133) || (n =? 160))%nat.

(** [str.lower] on one code point below 256. *)
Definition lower_ascii (a : ascii) : ascii :=
  let n := nat_of_ascii a in
  if (((65 <=? n) && (n <=? 90))
      || ((192 <=? n) && (n <=? 222) && negb (n =? 215)))%nat
  then ascii_of_nat (n + 32) else a.

Fixpoint lower (s : string) : string :=
  match s with
  | "" => ""
  | String a s' => String (lower_ascii a) (lower s')
  end.

Fixpoint lstrip (s : string) : string :=
  match s with
  | "" => ""
  | String a s' => if isspace a then lstrip s' else s
  end.

Definition rstrip (s : string) : string := String.rev (lstrip (String.rev s)).

(** [s.strip()] *)
Definition strip (s : string) : string := rstrip (lstrip s).

(** [s.startswith(p)] *)
Definition startswith (p s : string) : bool := String.prefix p s.

Fixpoint replace_empty (new s : string) : string :=
  match s with
  | "" => new
  | String a s' => new ++ String a (replace_empty new s')
  end.

(** Left-to-right, non-overlapping replacement; [skip] counts the
    characters of a match that are still to be dropped. *)
Fixpoint replace_go (old new : string) (skip : nat) (s : string) : string :=
  match s with
  | "" => ""
  | String a s' =>
      match skip with
      | S k => replace_go old new k s'
      | O =>
          if String.prefix old s
          then new ++ replace_go old new (String.length old - 1) s'
          else String a (replace_go old new 0 s')
      end
  end.

(** [s.replace(old, new)] *)
Definition replace (old new s : string) : string :=
  match old with
  | "" => replace_empty new s
  | _ => replace_go old new 0 s
  end.

Fixpoint split_go (acc : string) (s : string) : list string :=
  match s with
  | "" => match acc with "" => [] | _ => [String.rev acc] end
  | String a s' =>
      if isspace a
      then match acc with
           | "" => split_go "" s'
           | _ => String.rev acc :: split_go "" s'
           end
      else split_go (String a acc) s'
  end.

(** [s.split()]: split on runs of whitespace, no empty fields. *)
Definition split (s : string) : list string := split_go "" s.

(** [s.split('\n')], used for the line structure that [re.MULTILINE]
    gives to [^] and [$]. *)
Fixpoint split_lines_go (acc : string) (s : string) : list string :=
  match s with
  | "" => [String.rev acc]
  | String a s' =>
      if bool_decide (a = "010"%char)
      then String.rev acc :: split_lines_go "" s'
      else split_lines_go (String a acc) s'
  end.

Definition split_lines (s : string) : list string := split_lines_go "" s.

(** [int -> float]; exact below 2^53 in absolute value. *)
Definition float_of_int (z : Z) : float :=
  if (z <? 0)%Z
  then PrimFloat.opp (PrimFloat.of_uint63 (Uint63.of_Z (- z)))
  else PrimFloat.of_uint63 (Uint63.of_Z z).

(** *** Insertion-ordered dictionaries with [str] keys *)

Definition dict (V : Type) : Type := list (string * V).

Fixpoint dict_get {V : Type} (k : string) (d : dict V) : option V :=
  match d with
  | [] => None
  | (k', v) :: d' => if bool_decide (k = k') then Some v else dict_get k d'
  end.

(** [k in d] *)
Definition dict_mem {V : Type} (k : string) (d : dict V) : bool :=
  bool_decide (k ∈ d.*1).

(** [d[k] = v]: an existing key keeps its place, a new key goes last. *)
Fixpoint dict_set {V : Type} (k : string) (v : V) (d : dict V) : dict V :=
  match d with
  | [] => [(k, v)]
  | (k', v') :: d' =>
      if bool_decide (k = k') then (k, v) :: d' else (k', v') :: dict_set k v d'
  end.

(** [d[k]] *)
Definition dict_getitem {V : Type} (k : string) (d : dict V) : result V :=
  match dict_get k d with
  | Some v => Ok v
  | None => Raise (KeyError k)
  end.

(** [l[i]] for a list. *)
Definition list_getitem {A : Type} (i : nat) (l : list A) : result A :=
  match l !! i with
  | Some a => Ok a
  | None => Raise IndexError
  end.

End Py.

Export Py.

(** ** The proleptic Gregorian calendar, for [datetime(y, m, d)] *)

Module Calendar.

Open Scope Z_scope.

Definition ns_per_second : Z := 1000000000.
Definition ns_per_day : Z := 86400 * ns_per_second.

Definition is_leap (y : Z) : bool :=
  ((y mod 4 =? 0) && negb (y mod 100 =? 0)) || (y mod 400 =? 0).

Definition days_in_month (y m : Z) : Z :=
  if m =? 2 then (if is_leap y then 29 else 28)
  else if (m =? 4) || (m =? 6) || (m =? 9) || (m =? 11) then 30
  else 31.

Definition valid_date (y m d : Z) : bool :=
  (1 <=? y) && (y <=? 9999) && (1 <=? m) && (m <=? 12)
  && (1 <=? d) && (d <=? days_in_month y m).

(** Days from 1970-01-01 to the civil date [y]-[m]-[d]. *)
Definition days_from_civil (y m d : Z) : Z :=
  let y' := if m <=? 2 then y - 1 else y in
  let era := y' / 400 in
  let yoe := y' - era * 400 in
  let mp := (m + 9) mod 12 in
  let doy := (153 * mp + 2) / 5 + d - 1 in
  let doe := yoe * 365 + yoe / 4 - yoe / 100 + doy in
  era * 146097 + doe - 719468.

(** The year of the day that is [z] days after 1970-01-01. *)
Definition year_of_days (z : Z) : Z :=
  let z' := z + 719468 in
  let era := z' / 146097 in
  let doe := z' - era * 146097 in
  let yoe := (doe - doe / 1460 + doe / 36524 - doe / 146096) / 365 in
  let doy := doe - (365 * yoe + yoe / 4 - yoe / 100) in
  let mp := (5 * doy + 2) / 153 in
  let m := if mp <? 10 then mp + 3 else mp - 9 in
  let y := yoe + era * 400 in
  if m <=? 2 then y + 1 else y.

(** [datetime(y, m, d)] as a timestamp. *)
Definition datetime (y m d : Z) : Z := days_from_civil y m d * ns_per_day.

(** [t.year] *)
Definition year (t : Z) : Z := year_of_days (t / ns_per_day).

(** Bounds of [datetime64[ns]]; the least int64 is [NaT]. *)
Definition in_bounds (ns : Z) : bool :=
  (- (2 ^ 63 - 1) <=? ns) && (ns <=? 2 ^ 63 - 1).

End Calendar.

(** ** ctd_tools.ctd_parameters

    The module [ctd_parameters] is imported by reader.py as [ctdparams];
    the reader only uses its names.  They are the fields of a class, so
    every statement about a reader holds for every parameter module. *)

Module ctdparams.

Class Params : Type := {
  TIME : string;
  TIME_J : string;
  TIME_Q : string;
  TIME_N : string;
  TIME_S : string;
  PRESSURE : string;
  DEPTH : string;
  LATITUDE : string;
  LONGITUDE : string;
  TEMPERATURE : string;
  SALINITY : string;
  CONDUCTIVITY : string;
  SPEED_OF_SOUND : string;
  POWER_SUPPLY_INPUT_VOLTAGE : string;
  (** canonical key -> aliases, in declaration order *)
  default_mappings : dict (list string);
  (** canonical key -> default attributes *)
  metadata : dict (dict string);
  (** column renames of the RBR and Nortek ASCII readers *)
  rename_list : dict string
}.

(** Modelled from the spec: the canonical keys are the names of section 2
    and of the glossary ([time], [pressure], [depth], [temperature],
    [salinity], ...); ['time'], ['pressure'] and ['depth'] are also
    written as literals in reader.py.  The four time-channel keys, the
    aliases and the default attributes are not in the specification: the
    ones below are Sea-Bird channel names and are used for examples only. *)
Definition example : Params := {|
  TIME := "time";
  TIME_J := "timeJ";
  TIME_Q := "timeQ";
  TIME_N := "timeN";
  TIME_S := "timeS";
  PRESSURE := "pressure";
  DEPTH := "depth";
  LATITUDE := "latitude";
  LONGITUDE := "longitude";
  TEMPERATURE := "temperature";
  SALINITY := "salinity";
  CONDUCTIVITY := "conductivity";
  SPEED_OF_SOUND := "speed_of_sound";
  POWER_SUPPLY_INPUT_VOLTAGE := "power_supply_input_voltage";
  default_mappings := [
    ("temperature", ["t090C"; "tv290C"]);
    ("salinity", ["sal00"]);
    ("conductivity", ["c0mS/cm"]);
    ("pressure", ["prDM"; "prdM"]);
    ("timeJ", ["timeJ"]);
    ("timeQ", ["timeQ"]);
    ("timeN", ["timeN"]);
    ("timeS", ["timeS"]);
    ("latitude", ["latitude"]);
    ("longitude", ["longitude"]);
    ("depth", ["depSM"]);
    ("time", ["time"])
  ];
  metadata := [
    ("temperature", [("long_name", "Temperature"); ("units", "degC")]);
    ("salinity", [("long_name", "Salinity")]);
    ("pressure", [("long_name", "Pressure"); ("units", "dbar")]);
    ("depth", [("long_name", "Depth"); ("units", "m")])
  ];
  rename_list := [
    ("Temp", "temperature");
    ("Pres", "pressure");
    ("Temperature", "temperature");
    ("Pressure", "pressure")
  ]
|}.

End ctdparams.

Export ctdparams.

(** ** Array elements *)

Module xr_scalar.

(** One element of an array or of a data-frame column. *)
Inductive scalar : Type :=
| Float (x : float)
| Int (n : Z)
| Str (s : string)
| Datetime (ns : Z)
| NaT
| NoneV.

(** [x == None] *)
Definition is_none (x : scalar) : bool :=
  match x with NoneV => true | _ => false end.

(** [isinstance(x, str)] *)
Definition is_str (x : scalar) : bool :=
  match x with Str _ => true | _ => false end.

End xr_scalar.

Export xr_scalar.

(** ** Third-party numeric and clock functions

    What reader.py calls in gsw, datetime, pandas and the float parser
    of Python.  Each is a function of its arguments; [now] is the wall
    clock already formatted by [strftime]. *)

Class Externals : Type := {
  (** [datetime.now().strftime("%Y-%m-%dT%H:%M:%S")] *)
  now : string;
  (** [gsw.z_from_p(p, lat)]: an array of floats, or an exception *)
  gsw_z_from_p : list scalar → scalar → result (list float);
  (** [gsw.density.rho(SA, t, p)] *)
  gsw_rho : list float → list float → list float → result (list float);
  (** [gsw.pt0_from_t(SA, t, p)] *)
  gsw_pt0_from_t : list float → list float → list float → result (list float);
  (** [int(x)] of a float *)
  py_int : float → result Z;
  (** [float(s)] of a string *)
  py_float : string → result float;
  (** [timedelta(days=d, seconds=s)], in nanoseconds *)
  timedelta : Z → float → result Z;
  (** [pd.Timedelta(seconds=s)], in nanoseconds *)
  pd_Timedelta : float → result Z;
  (** [datetime.strptime(s, fmt)] *)
  strptime : string → string → result Z;
  (** pandas' parser of one date string without a format; [None] when
      the string is not a date *)
  parse_datetime : string → option Z
}.

(** An instance for the examples.  The statements about the readers hold
    for every instance; an example has to pick one.  Here depth is the
    negated pressure, density and potential temperature repeat the
    pressure and the temperature, a number parses to zero, and a string
    is a date when it starts with a decimal digit. *)
Definition example_externals : Externals := {|
  now := "2024-01-01T00:00:00";
  gsw_z_from_p := fun p _ =>
    Ok ((fun v => match v with
                  | Float x => PrimFloat.opp x
                  | _ => PrimFloat.nan
                  end) <$> p);
  gsw_rho := fun _ _ p => Ok p;
  gsw_pt0_from_t := fun _ t _ => Ok t;
  py_int := fun _ => Ok 0%Z;
  py_float := fun _ => Ok 0%float;
  timedelta := fun _ _ => Ok 0%Z;
  pd_Timedelta := fun _ => Ok 0%Z;
  strptime := fun _ _ => Ok 0%Z;
  parse_datetime := fun s =>
    match s with
    | String a _ =>
        if ((48 <=? nat_of_ascii a) && (nat_of_ascii a <=? 57))%nat
        then Some 0%Z else None
    | "" => None
    end
|}.

(** ** xarray datasets *)

Module xr.

(** A variable of a dataset ([ds[k]]): [coord] tells a coordinate from a data
    variable, [dims] are its dimensions (none for a scalar), [attrs] its
    attribute dictionary. *)
Record DataArray : Type := mkDataArray {
  name : string;
  coord : bool;
  dims : list string;
  values : list scalar;
  attrs : gmap string string
}.

(** [variables] is in the order of [ds.variables]. *)
Record Dataset : Type := mkDataset {
  variables : list DataArray;
  ds_attrs : dict scalar
}.

Definition names (ds : Dataset) : list string := name <$> variables ds.

(** [k in ds], [k in ds.variables] *)
Definition contains (ds : Dataset) (k : string) : bool :=
  bool_decide (k ∈ names ds).

Definition find_var (k : string) (vs : list DataArray) : option DataArray :=
  List.find (fun v => bool_decide (name v = k)) vs.

(** [ds[k]] *)
Definition getitem (ds : Dataset) (k : string) : result DataArray :=
  match find_var k (variables ds) with
  | Some v => Ok v
  | None => Raise (KeyError k)
  end.

(** [list(ds.data_vars.keys())] and [list(ds.coords.keys())] *)
Definition data_vars (ds : Dataset) : list string :=
  name <$> filter (fun v => coord v = false) (variables ds).

Definition coords (ds : Dataset) : list string :=
  name <$> filter (fun v => coord v = true) (variables ds).

Definition all_dims (ds : Dataset) : list string :=
  variables ds ≫= dims.

(** The size of dimension [d] among the variables [vs]. *)
Definition dim_size (d : string) (vs : list DataArray) : option nat :=
  length ∘ values <$> List.find (fun v => bool_decide (d ∈ dims v)) vs.

Definition replace_var (v : DataArray) (vs : list DataArray) : list DataArray :=
  if bool_decide (name v ∈ name <$> vs)
  then (fun w => if bool_decide (name w = name v) then v else w) <$> vs
  else vs ++ [v].

(** [ds[k] = (ds_dims, vals)] and [ds[k] = xr.DataArray(vals, dims=...)]:
    the new array has no attributes; it must agree with the size that
    the other variables give to its dimension; an existing variable is
    replaced in place and stays a coordinate if it was one; a new
    variable named like its dimension is a coordinate. *)
Definition setitem (ds : Dataset) (k : string) (ds_dims : list string)
    (vals : list scalar) : result Dataset :=
  let others := filter (fun v => name v ≠ k) (variables ds) in
  if forallb (fun d =>
       match dim_size d others with
       | Some n => bool_decide (n = length vals)
       | None => true
       end) ds_dims
  then
    let was_coord :=
      match find_var k (variables ds) with
      | Some v => coord v
      | None => false
      end in
    let v := mkDataArray k (was_coord || bool_decide (ds_dims = [k]))
               ds_dims vals ∅ in
    Ok (mkDataset (replace_var v (variables ds)) (ds_attrs ds))
  else Raise (ValueError "conflicting sizes for dimension").

(** [ds[k].attrs = a] *)
Definition set_attrs (ds : Dataset) (k : string) (a : gmap string string)
  : Dataset :=
  mkDataset
    ((fun v => if bool_decide (name v = k)
               then mkDataArray (name v) (coord v) (dims v) (values v) a
               else v) <$> variables ds)
    (ds_attrs ds).

(** [ds[k].attrs[a] = x] *)
Definition setattr (ds : Dataset) (k a x : string) : result Dataset :=
  v ← getitem ds k;
  Ok (set_attrs ds k (<[a := x]> (attrs v))).

Definition rename_name (name_dict : gmap string string) (n : string)
  : string :=
  default n (name_dict !! n).

Definition rename_var (name_dict : gmap string string) (v : DataArray)
  : DataArray :=
  mkDataArray (rename_name name_dict (name v)) (coord v)
    (rename_name name_dict <$> dims v) (values v) (attrs v).

(** The loop of [Dataset._rename_vars]: a new name that is already
    taken by a variable placed before is a conflict. *)
Fixpoint rename_vars (name_dict : gmap string string) (done : list DataArray)
    (vs : list DataArray) : result (list DataArray) :=
  match vs with
  | [] => Ok done
  | v :: vs' =>
      let v' := rename_var name_dict v in
      if bool_decide (name v' ∈ name <$> done)
      then Raise (ValueError "the new name conflicts")
      else rename_vars name_dict (done ++ [v']) vs'
  end.

(** [ds.rename(name_dict)]: every key must be a variable or a dimension
    of the dataset. *)
Definition rename (ds : Dataset) (name_dict : gmap string string)
  : result Dataset :=
  if forallb (fun k => contains ds k || bool_decide (k ∈ all_dims ds))
       (map_to_list name_dict).*1
  then vs ← rename_vars name_dict [] (variables ds);
       Ok (mkDataset vs (ds_attrs ds))
  else Raise (ValueError "cannot rename: not a variable or dimension").

(** *** pandas data frames and [xr.Dataset.from_dataframe] *)

Record DataFrame : Type := mkDataFrame {
  index_name : option string;
  index : list scalar;
  columns : dict (list scalar)
}.

(** [df[c]] *)
Definition column (df : DataFrame) (c : string) : result (list scalar) :=
  dict_getitem c (columns df).

Fixpoint dict_remove {V : Type} (k : string) (d : dict V) : dict V :=
  match d with
  | [] => []
  | (k', v) :: d' =>
      if bool_decide (k = k') then dict_remove k d' else (k', v) :: dict_remove k d'
  end.

(** [df.set_index(c)] *)
Definition set_index (df : DataFrame) (c : string) : result DataFrame :=
  vals ← column df c;
  Ok (mkDataFrame (Some c) vals (dict_remove c (columns df))).

(** [xr.Dataset.from_dataframe(df)]: the index becomes the dimension
    coordinate, then each column is assigned along it. *)
Definition from_dataframe (df : DataFrame) : result Dataset :=
  if bool_decide (NoDup (columns df).*1)
  then
    let d := default "index" (index_name df) in
    foldM (fun ds '(c, vals) => setitem ds c [d] vals)
      (mkDataset [mkDataArray d true [d] (index df) ∅] [])
      (columns df)
  else Raise (ValueError "cannot convert DataFrame with non-unique columns").

End xr.

(** ** class AbstractReader *)

Module AbstractReader.

(** The attributes of a reader instance.  [mapping] is the content of
    [self.mapping] when construction ends; which dictionary object it is
    matters for [CnvReader] only (see its store). *)
Record Reader : Type := mkReader {
  input_file : string;
  data : option xr.Dataset;
  mapping : option (dict string)
}.

(** [get_data] *)
Definition get_data (r : Reader) : option xr.Dataset := data r.

Section methods.
Context {P : Params} {E : Externals}.

(** [_julian_to_gregorian] *)
Definition _julian_to_gregorian (julian_days : float) (start_date : Z)
  : result Z :=
  full_days ← py_int julian_days;
  let seconds :=
    PrimFloat.mul (PrimFloat.mul (PrimFloat.mul
      (PrimFloat.sub julian_days (float_of_int full_days))
      (float_of_int 24)) (float_of_int 60)) (float_of_int 60) in
  delta ← timedelta full_days seconds;
  Ok (start_date + delta)%Z.

(** [_elapsed_seconds_since_jan_1970_to_datetime] *)
Definition _elapsed_seconds_since_jan_1970_to_datetime
    (elapsed_seconds : float) : result Z :=
  let base_date := Calendar.datetime 1970 1 1 in
  time_delta ← timedelta 0 elapsed_seconds;
  Ok (base_date + time_delta)%Z.

(** [_elapsed_seconds_since_jan_2000_to_datetime] *)
Definition _elapsed_seconds_since_jan_2000_to_datetime
    (elapsed_seconds : float) : result Z :=
  let base_date := Calendar.datetime 2000 1 1 in
  time_delta ← timedelta 0 elapsed_seconds;
  Ok (base_date + time_delta)%Z.

(** [_elapsed_seconds_since_offset_to_datetime] *)
Definition _elapsed_seconds_since_offset_to_datetime
    (elapsed_seconds : float) (offset_datetime : Z) : result Z :=
  let base_date := offset_datetime in
  time_delta ← timedelta 0 elapsed_seconds;
  Ok (base_date + time_delta)%Z.

(** [_validate_necessary_parameters(data, longitude, latitude, entity)].
    [data] is only asked [k in data], so it is given by that test.  In
    Python [not a in d] is [not (a in d)] and [not a and not b] is
    [(not a) and (not b)]: the first test is
    [(not TIME) and (not TIME_J) and (not TIME_Q) and (not (TIME_N in data))],
    the second [(not (PRESSURE in data)) and (not DEPTH)]. *)
Definition _validate_necessary_parameters (data : string → bool)
    (entity : string) : result unit :=
  if negb (truthy TIME) && negb (truthy TIME_J) && negb (truthy TIME_Q)
     && negb (data TIME_N)
  then Raise (ValueError ("Parameter '" ++ TIME ++ "' is missing in "
                            ++ entity ++ "."))
  else if negb (data PRESSURE) && negb (truthy DEPTH)
  then Raise (ValueError ("Parameter '" ++ PRESSURE ++ "' is missing in "
                            ++ entity ++ "."))
  else Ok ().

(** [_get_xarray_dataset_template]: the four coordinates [time],
    [depth] (along [TIME]), [latitude], [longitude] and the dataset
    attributes.  [depth_array] is [None] or an array; [xr.Dataset]
    refuses [None] along a dimension, and two sizes for one dimension. *)
Definition _get_xarray_dataset_template (time_array : list scalar)
    (depth_array : option (list scalar)) (latitude longitude : scalar)
  : result xr.Dataset :=
  match depth_array with
  | None => Raise (ValueError "dimensions must match the data dimensions")
  | Some depth_values =>
      if bool_decide (TIME = "time")
         && negb (bool_decide (length depth_values = length time_array))
      then Raise (ValueError "conflicting sizes for dimension")
      else
        Ok (xr.mkDataset
              [xr.mkDataArray "time" true ["time"] time_array ∅;
               xr.mkDataArray "depth" true [TIME] depth_values ∅;
               xr.mkDataArray "latitude" true [] [latitude] ∅;
               xr.mkDataArray "longitude" true [] [longitude] ∅]
              [("latitude", latitude); ("longitude", longitude);
               ("CreateTime", Str now); ("DataType", Str "TimeSeries")])
  end.

(** [_assign_data_for_key_to_xarray_dataset] *)
Definition _assign_data_for_key_to_xarray_dataset (ds : xr.Dataset)
    (key : string) (data : list scalar) : result xr.Dataset :=
  ds' ← xr.setitem ds key [TIME] data;
  Ok (xr.set_attrs ds' key ∅).

(** The loop over [ctdparams.metadata[key].items()]. *)
Definition fill_defaults (md : dict string) (a : gmap string string)
  : gmap string string :=
  foldl (fun a '(attribute, value) =>
           match a !! attribute with
           | Some _ => a
           | None => <[attribute := value]> a
           end) a md.

(** The label that is stored as [long_name]: with a unit, the text
    ["[unit]"] is removed from the label and the result stripped. *)
Definition stored_label (label : string) (unit : option string) : string :=
  match unit with
  | Some u => if truthy u then strip (replace ("[" ++ u ++ "]") "" label)
              else label
  | None => label
  end.

(** [_assign_metadata_for_key_to_xarray_dataset(ds, key, label, unit)] *)
Definition _assign_metadata_for_key_to_xarray_dataset (ds : xr.Dataset)
    (key : string) (label unit : option string) : result xr.Dataset :=
  v ← xr.getitem ds key;
  let a0 := xr.attrs v in
  let a1 :=
    match dict_get key metadata with
    | Some md => fill_defaults md a0
    | None => a0
    end in
  let a2 :=
    match unit with
    | Some u => if truthy u then <["units" := u]> a1 else a1
    | None => a1
    end in
  let a3 :=
    match label with
    | Some l =>
        if truthy l then <["long_name" := stored_label l unit]> a2 else a2
    | None => a2
    end in
  Ok (xr.set_attrs ds key a3).

(** [{var.lower(): var for var in ds.variables}] *)
Definition ds_vars_lower (vars : list string) : gmap string string :=
  foldl (fun m var => <[lower var := var]> m) ∅ vars.

(** The inner loop of [_rename_xarray_parameters]: the first alias that
    passes the test. *)
Definition first_alias (vars : list string) (standard_name : string)
    (aliases : list string) : option string :=
  List.find (fun alias =>
               bool_decide (is_Some (ds_vars_lower vars !! lower alias))
               && negb (bool_decide (standard_name ∈ vars))) aliases.

(** One turn of the outer loop of [_rename_xarray_parameters], for the
    item [(standard_name, aliases)] of the registry. *)
Definition rename_step (vars : list string) (rd : gmap string string)
    (item : string * list string) : gmap string string :=
  let '(standard_name, aliases) := item in
  match first_alias vars standard_name aliases with
  | Some alias =>
      match ds_vars_lower vars !! lower alias with
      | Some var => <[var := standard_name]> rd
      | None => rd
      end
  | None => rd
  end.

(** The outer loop of [_rename_xarray_parameters]. *)
Definition rename_dict (vars : list string) (mappings : dict (list string))
  : gmap string string :=
  foldl (rename_step vars) ∅ mappings.

(** [_rename_xarray_parameters] *)
Definition _rename_xarray_parameters (ds : xr.Dataset) : result xr.Dataset :=
  xr.rename ds (rename_dict (xr.names ds) default_mappings).

(** The loop [for key in data_vars + coords: assign metadata] that ends
    every reader. *)
Definition assign_metadata_for_all (ds : xr.Dataset) : result xr.Dataset :=
  foldM (fun ds key =>
           _assign_metadata_for_key_to_xarray_dataset ds key None None)
    ds (xr.data_vars ds ++ xr.coords ds).

(** The loop [for key, value in self.mapping.items()] of
    [_perform_default_postprocessing]. *)
Definition apply_custom_mapping (m : dict string) (ds : xr.Dataset)
  : result xr.Dataset :=
  foldM (fun ds '(key, value) =>
           if xr.contains ds value
           then xr.rename ds {[value := key]}
           else Ok ds) ds m.

(** [_perform_default_postprocessing]; [mapping] is [self.mapping]. *)
Definition _perform_default_postprocessing (mapping : option (dict string))
    (ds : xr.Dataset) : result xr.Dataset :=
  ds1 ← match mapping with
        | Some m => apply_custom_mapping m ds
        | None => Ok ds
        end;
  ds2 ← _rename_xarray_parameters ds1;
  assign_metadata_for_all ds2.

End methods.

End AbstractReader.

Export AbstractReader.

(** ** class NetCdfReader *)

Module NetCdfReader.
Section reader.
Context {P : Params}.

(** [__read]; [opened] is what [xr.open_dataset(self.input_file)]
    returns.  [self.data] is assigned before the validation. *)
Definition __read (self : Reader) (opened : result xr.Dataset)
  : result Reader :=
  ds ← opened;
  let self := mkReader (input_file self) (Some ds) (mapping self) in
  _ ← _validate_necessary_parameters (xr.contains ds) "netCDF file";
  Ok self.

Definition __init__ (input_file : string) (opened : result xr.Dataset)
  : result Reader :=
  __read (mkReader input_file None None) opened.

End reader.
End NetCdfReader.

(** ** class CsvReader *)

Module CsvReader.
Section reader.
Context {P : Params} {E : Externals}.

(** The [defaultdict(list)] filled row by row; a row is the dictionary
    that [csv.DictReader] yields. *)
Definition columns_of_rows (rows : list (dict string)) : dict (list scalar) :=
  foldl (fun data row =>
           foldl (fun data '(key, value) =>
                    dict_set key (default [] (dict_get key data) ++ [Str value])%list
                      data) data row) [] rows.

(** [datetime.strptime(timestamp, '%Y-%m-%d %H:%M:%S.%f')] *)
Definition parse_time (v : scalar) : result scalar :=
  match v with
  | Str timestamp =>
      t ← strptime timestamp "%Y-%m-%d %H:%M:%S.%f"; Ok (Datetime t)
  | _ => Raise TypeError
  end.

(** [float(value)] *)
Definition to_float (v : scalar) : result scalar :=
  match v with
  | Str value => x ← py_float value; Ok (Float x)
  | Float x => Ok (Float x)
  | Int n => Ok (Float (float_of_int n))
  | _ => Raise TypeError
  end.

(** The first half of [__read]: validation, then the [time] column
    parsed and the registry-known columns turned into floats. *)
Definition convert_columns (rows : list (dict string))
  : result (dict (list scalar)) :=
  let data := columns_of_rows rows in
  _ ← _validate_necessary_parameters (fun k => dict_mem k data) "CSV file";
  timestamps ← dict_getitem TIME data;
  times ← mapM parse_time timestamps;
  let data := dict_set TIME times data in
  foldM (fun data key =>
           if negb (bool_decide (key = TIME))
              && dict_mem key default_mappings
           then col ← dict_getitem key data;
                col' ← mapM to_float col;
                Ok (dict_set key col' data)
           else Ok data) data data.*1.

(** The second half of [__read]: the template from the columns [TIME],
    [DEPTH], [LATITUDE] and [LONGITUDE], then every column assigned. *)
Definition create_dataset (data : dict (list scalar)) : result xr.Dataset :=
  time_array ← dict_getitem TIME data;
  depth_array ← dict_getitem DEPTH data;
  latitudes ← dict_getitem LATITUDE data;
  latitude ← list_getitem 0 latitudes;
  longitudes ← dict_getitem LONGITUDE data;
  longitude ← list_getitem 0 longitudes;
  ds ← _get_xarray_dataset_template time_array (Some depth_array)
         latitude longitude;
  foldM (fun ds key =>
           col ← dict_getitem key data;
           ds ← _assign_data_for_key_to_xarray_dataset ds key col;
           _assign_metadata_for_key_to_xarray_dataset ds key None None)
    ds data.*1.

(** [__read], from the rows of the file. *)
Definition __read (self : Reader) (rows : list (dict string))
  : result Reader :=
  data ← convert_columns rows;
  ds ← create_dataset data;
  Ok (mkReader (input_file self) (Some ds) (mapping self)).

Definition __init__ (input_file : string) (rows : list (dict string))
  : result Reader :=
  __read (mkReader input_file None None) rows.

End reader.
End CsvReader.

(** ** class RbrRskLegacyReader *)

Module RbrRskLegacyReader.

(** A row of the table [channels]. *)
Record Channel : Type := mkChannel {
  channelID : Z;
  shortName : string;
  longName : string;
  units : string
}.

(** The relational store: the table [channels], and the table [data]
    given by its integer column [tstamp] (milliseconds) and its other
    columns by name. *)
Record RskFile : Type := mkRskFile {
  channels : list Channel;
  tstamp : list Z;
  data_table : dict (list scalar)
}.

(** [f"{n:02d}"] *)
Definition format_02d (n : Z) : string :=
  if (n <? 0)%Z then "-" ++ pretty (- n)%Z
  else if (n <? 10)%Z then "0" ++ pretty n
  else pretty n.

(** [pd.to_datetime(ms, unit='ms')] of one integer. *)
Definition to_datetime_ms (ms : Z) : result scalar :=
  let ns := (ms * 1000000)%Z in
  if Calendar.in_bounds ns then Ok (Datetime ns) else Raise OutOfBoundsDatetime.

(** The index built by [df['time'] = pd.to_datetime(df['tstamp'],
    unit='ms')] and [df.set_index('time')]. *)
Definition time_index (tstamps : list Z) : result (list scalar) :=
  mapM to_datetime_ms tstamps.

Definition channel_le (a b : Channel) : Prop :=
  (channelID a ≤ channelID b)%Z.

#[global] Instance channel_le_dec a b : Decision (channel_le a b) :=
  Z.le_dec (channelID a) (channelID b).

(** [SELECT ... FROM channels ORDER BY channelID] *)
Definition channels_df (file : RskFile) : list Channel :=
  merge_sort channel_le (channels file).

(** [SELECT tstamp, channelNN, ... FROM data]: the selected channel
    columns; a column that the table does not have is an error. *)
Definition select_columns (file : RskFile) (chan_cols : list string)
  : result (list (list scalar)) :=
  mapM (fun c => match dict_get c (data_table file) with
                 | Some col => Ok col
                 | None => Raise DatabaseError
                 end) chan_cols.

Section reader.
Context {P : Params}.

(** [__read] *)
Definition __read (self : Reader) (file : RskFile) : result Reader :=
  let channels_df := channels_df file in
  let chan_cols :=
    (fun c => "channel" ++ format_02d (channelID c)) <$> channels_df in
  cols ← select_columns file chan_cols;
  times ← time_index (tstamp file);
  let df :=
    xr.mkDataFrame (Some "time") times
      (zip (longName <$> channels_df) cols) in
  ds ← xr.from_dataframe df;
  ds ← foldM (fun ds c =>
                ds ← xr.setattr ds (longName c) "long_name" (longName c);
                xr.setattr ds (longName c) "units" (units c))
         ds channels_df;
  ds ← _perform_default_postprocessing (mapping self) ds;
  Ok (mkReader (input_file self) (Some ds) (mapping self)).

Definition __init__ (input_file : string) (mapping : option (dict string))
    (file : RskFile) : result Reader :=
  __read (mkReader input_file None mapping) file.

End reader.
End RbrRskLegacyReader.

(** ** class TobReader *)

Module TobReader.

(** The file: its lines, as [readlines] gives them, and the frame that
    [pd.read_csv] returns for [skiprows], [names] and the name of the
    column that [parse_dates] builds from ['IntD'] and ['IntT']. *)
Record TobFile : Type := mkTobFile {
  lines : list string;
  read_csv : nat → list string → string → result xr.DataFrame
}.

Section reader.
Context {P : Params} {E : Externals}.

(** [next((i for i, line in enumerate(lines)
          if line.startswith('; Datasets')), None)] *)
Definition header_line_index (lines : list string) : option nat :=
  fst <$> list_find (fun line => startswith "; Datasets" line = true) lines.

(** [pd.to_datetime(x, errors='coerce')] of one element: what is not a
    date becomes [NaT]. *)
Definition to_datetime_coerce (v : scalar) : scalar :=
  match v with
  | Datetime t => Datetime t
  | Str s =>
      match parse_datetime s with
      | Some t => if Calendar.in_bounds t then Datetime t else NaT
      | None => NaT
      end
  | Int n => if Calendar.in_bounds n then Datetime n else NaT
  | Float x =>
      match py_int x with
      | Ok n => if Calendar.in_bounds n then Datetime n else NaT
      | Raise _ => NaT
      end
  | NaT => NaT
  | NoneV => NaT
  end.

(** The dictionary of [ds.rename({...})]. *)
Definition renames : gmap string string :=
  list_to_map [
    ("SALIN", SALINITY);
    ("Temp", TEMPERATURE);
    ("Cond", CONDUCTIVITY);
    ("Press", PRESSURE);
    ("SOUND", SPEED_OF_SOUND);
    ("Vbatt", POWER_SUPPLY_INPUT_VOLTAGE);
    ("SIGMA", "sigma");
    ("Datasets", "sample")
  ].

(** The loop [for index, name in enumerate(column_names)]. *)
Definition assign_units (column_names : list string)
    (units : list (option string)) (ds : xr.Dataset) : result xr.Dataset :=
  foldM (fun ds '(index, name) =>
           if xr.contains ds name
           then u ← list_getitem index units;
                match u with
                | Some u' => if truthy u' then xr.setattr ds name "units" u'
                             else Ok ds
                | None => Ok ds
                end
           else Ok ds) ds (imap (fun index name => (index, name)) column_names).

(** [__read] *)
Definition __read (self : Reader) (file : TobFile) : result Reader :=
  match header_line_index (lines file) with
  | None => Raise (ValueError "Line with column names not found in the file.")
  | Some header_line_index =>
      header_line ← list_getitem header_line_index (lines file);
      let column_names := tail (split (strip header_line)) in
      units_line ← list_getitem (header_line_index + 1) (lines file);
      let units :=
        None :: (Some <$>
          tail (split (strip (replace "]" "" (replace "[" "" units_line))))) in
      let data_start_index := header_line_index + 3 in
      data ← read_csv file data_start_index column_names TIME;
      df ← xr.set_index data TIME;
      ds ← xr.from_dataframe df;
      ds ← assign_units column_names units ds;
      ds ← xr.rename ds renames;
      pressure ← xr.getitem ds "pressure";
      depth_in_meters ← gsw_z_from_p (xr.values pressure) (Float 53.8187);
      ds ← xr.setitem ds "depth" ["time"]
             (Float <$> (depth_in_meters : list float));
      ds ← xr.setattr ds "depth" "units" "m";
      time ← xr.getitem ds TIME;
      ds ← xr.setitem ds TIME [TIME] (to_datetime_coerce <$> xr.values time);
      ds ← assign_metadata_for_all ds;
      Ok (mkReader (input_file self) (Some ds) (mapping self))
  end.

(** [mapping = {}] is never written by this reader. *)
Definition __init__ (input_file : string) (mapping : dict string)
    (file : TobFile) : result Reader :=
  __read (mkReader input_file None (Some mapping)) file.

End reader.
End TobReader.

(** ** class NortekAsciiReader *)

Module NortekAsciiReader.

(** [pd.to_datetime(df[['Year', 'Month', 'Day', 'Hour', 'Minute',
    'Second']])] on one row, with the default [errors='raise'].  The
    six components are the integers read from the .dat file; year, month
    and day must form a date. *)
Definition assemble (year month day hour minute second : scalar)
  : result scalar :=
  match year, month, day, hour, minute, second with
  | Int y, Int m, Int d, Int h, Int mi, Int s =>
      if Calendar.valid_date y m d then
        let t := (Calendar.datetime y m d
                  + ((h * 60 + mi) * 60 + s) * Calendar.ns_per_second)%Z in
        if Calendar.in_bounds t then Ok (Datetime t)
        else Raise OutOfBoundsDatetime
      else Raise (ValueError "cannot assemble the datetimes")
  | _, _, _, _, _, _ => Raise (ValueError "cannot assemble the datetimes")
  end.

Fixpoint assemble_rows (ys ms ds hs mis ss : list scalar)
  : result (list scalar) :=
  match ys, ms, ds, hs, mis, ss with
  | y :: ys', m :: ms', d :: ds', h :: hs', mi :: mis', s :: ss' =>
      t ← assemble y m d h mi s;
      ts ← assemble_rows ys' ms' ds' hs' mis' ss';
      Ok (t :: ts)
  | _, _, _, _, _, _ => Ok []
  end.

Section reader.
Context {P : Params}.

(** [df.rename(columns=ctdparams.rename_list)] *)
Definition rename_columns (cols : dict (list scalar)) : dict (list scalar) :=
  (fun '(c, vals) => (default c (dict_get c rename_list), vals)) <$> cols.

(** [__create_xarray_dataset(df, headers)]; [headers] are the triples
    (column number, name, unit) of [__read_header]. *)
Definition __create_xarray_dataset (df : xr.DataFrame)
    (headers : list (string * string * string)) : result xr.Dataset :=
  ys ← xr.column df "Year";
  ms ← xr.column df "Month";
  ds ← xr.column df "Day";
  hs ← xr.column df "Hour";
  mis ← xr.column df "Minute";
  ss ← xr.column df "Second";
  times ← assemble_rows ys ms ds hs mis ss;
  let df := xr.mkDataFrame (xr.index_name df) (xr.index df)
              (dict_set "time" times (xr.columns df)) in
  df ← xr.set_index df "time";
  let df := xr.mkDataFrame (xr.index_name df) (xr.index df)
              (rename_columns (xr.columns df)) in
  ds ← xr.from_dataframe df;
  ds ← foldM (fun ds '(_, variable, unit) =>
                let variable := default variable (dict_get variable rename_list) in
                xr.setattr ds variable "unit" unit) ds headers;
  assign_metadata_for_all ds.

(** [__read], from the results of [__read_header] and [__parse_data].
    This class does not call [AbstractReader.__init__]: it has no
    mapping, and its file attribute is [dat_file_path]. *)
Definition __read (dat_file_path : string)
    (headers : list (string * string * string)) (data : xr.DataFrame)
  : result Reader :=
  ds ← __create_xarray_dataset data headers;
  Ok (mkReader dat_file_path (Some ds) None).

End reader.
End NortekAsciiReader.

(** ** class CnvReader *)

Module CnvReader.

(** What [pycnv.pycnv(input_file)] returns, as far as [__read] uses it.
    [channels] holds [d.get('name')] for each channel dictionary. *)
Record Cnv : Type := mkCnv {
  channels : list (option string);
  cnv_data : dict (list float);
  cnv_names : dict string;
  cnv_units : dict string;
  date : option Z;
  lat : scalar;
  lon : scalar;
  header : string
}.

(** The mapping dictionaries that exist while readers are constructed,
    by reference.  [default_mapping] is the one object that the default
    [mapping = {}] of [CnvReader.__init__] denotes in every call. *)
Definition Store : Type := gmap positive (dict string).

Definition default_mapping : positive := 1%positive.

(** The store when the module has been imported. *)
Definition initial_store : Store := {[ default_mapping := [] ]}.

(** [m.group(1)] of [re.search('^' + prefix + '(...)$', string,
    re.MULTILINE)] where the group is one or more characters that
    satisfy [ok]: the rest of the first line that starts with [prefix]
    and continues with such characters only. *)
Definition search_line (prefix : string) (ok : ascii → bool) (s : string)
  : option string :=
  let rest_of line :=
    String.substring (String.length prefix)
      (String.length line - String.length prefix) line in
  rest_of <$>
    List.find (fun line =>
                 startswith prefix line
                 && negb (bool_decide (rest_of line = ""))
                 && forallb ok (list_ascii_of_string (rest_of line)))
      (split_lines s).

Definition is_digit_or_dot (a : ascii) : bool :=
  let n := nat_of_ascii a in
  (((48 <=? n) && (n <=? 57)) || (n =? 46))%nat.

Section reader.
Context {P : Params} {E : Externals}.

(** [__get_scan_interval_in_seconds]: [None], or the float of the
    match; [float] can raise. *)
Definition __get_scan_interval_in_seconds (s : string)
  : result (option float) :=
  match search_line "# interval = seconds: " is_digit_or_dot s with
  | Some g => seconds ← py_float g; Ok (Some seconds)
  | None => Ok None
  end.

(** [__get_bad_flag]: [None], or the matched text, a [str]. *)
Definition __get_bad_flag (s : string) : option string :=
  search_line "# bad_flag = " (fun _ => true) s.

(** The first loop of [__read]: aliases of the registry fill the keys
    that the mapping does not have yet.  The loop writes into
    [self.mapping]. *)
Definition resolve_mapping (channel_names : list string)
    (mapping : dict string) : dict string :=
  foldl (fun mapping '(key, values) =>
           if dict_mem key mapping then mapping
           else match List.find (fun value =>
                        bool_decide (value ∈ channel_names)) values with
                | Some value => dict_set key value mapping
                | None => mapping
                end) mapping default_mappings.

(** The dictionaries built by the loop over [self.mapping.items()]. *)
Record Collected : Type := mkCollected {
  xarray_data : dict (list float);
  xarray_labels : dict string;
  xarray_units : dict string;
  maxCount : option nat
}.

Definition collect (cnv : Cnv) (mapping : dict string) : result Collected :=
  foldM (fun c '(k, v) =>
           d ← dict_getitem v (cnv_data cnv);
           l ← dict_getitem v (cnv_names cnv);
           u ← dict_getitem v (cnv_units cnv);
           Ok (mkCollected (dict_set k d (xarray_data c))
                 (dict_set k l (xarray_labels c))
                 (dict_set k u (xarray_units c))
                 (Some (length d))))
    (mkCollected [] [] [] None) mapping.

(** The time coordinate: the [if]/[elif] chain of [__read].  [None] is
    for the path that leaves [time_coords] unassigned. *)
Definition time_coords (cnv : Cnv) (c : Collected) (offset_datetime : Z)
  : result (option (list scalar)) :=
  let xarray_data := xarray_data c in
  if dict_mem TIME_J xarray_data then
    let year_startdate :=
      Calendar.datetime (Calendar.year offset_datetime) 1 1 in
    jdays ← dict_getitem TIME_J xarray_data;
    ts ← mapM (fun jday => _julian_to_gregorian jday year_startdate) jdays;
    Ok (Some (Datetime <$> ts))
  else if dict_mem TIME_Q xarray_data then
    xs ← dict_getitem TIME_Q xarray_data;
    ts ← mapM _elapsed_seconds_since_jan_2000_to_datetime xs;
    Ok (Some (Datetime <$> ts))
  else if dict_mem TIME_N xarray_data then
    xs ← dict_getitem TIME_Q xarray_data;
    ts ← mapM _elapsed_seconds_since_jan_1970_to_datetime xs;
    Ok (Some (Datetime <$> ts))
  else if dict_mem TIME_S xarray_data then
    xs ← dict_getitem TIME_S xarray_data;
    ts ← mapM (fun elapsed_seconds =>
                 _elapsed_seconds_since_offset_to_datetime elapsed_seconds
                   offset_datetime) xs;
    Ok (Some (Datetime <$> ts))
  else
    timedelta ← __get_scan_interval_in_seconds (header cnv);
    match timedelta with
    | Some timedelta =>
        if negb (PrimFloat.eqb timedelta 0%float) then
          match maxCount c with
          | Some maxCount =>
              ts ← mapM (fun i : nat =>
                           d ← pd_Timedelta
                                 (PrimFloat.mul (float_of_int (Z.of_nat i))
                                    timedelta);
                           Ok (Datetime (offset_datetime + d)%Z))
                     (seq 0 maxCount);
              Ok (Some ts)
          | None => Raise (UnboundLocalError "maxCount")
          end
        else Ok None
    | None => Ok None
    end.

(** The depth: [None] without a pressure channel. *)
Definition depth (cnv : Cnv) (c : Collected)
  : result (option (list scalar)) :=
  match dict_get PRESSURE (xarray_data c) with
  | Some pressure =>
      _ ← (if is_none (lat cnv) && dict_mem LATITUDE (xarray_data c)
           then l ← dict_getitem LATITUDE (xarray_data c);
                _ ← list_getitem 0 l; Ok ()
           else Ok ());
      _ ← (if is_none (lon cnv) && dict_mem LONGITUDE (xarray_data c)
           then l ← dict_getitem LONGITUDE (xarray_data c);
                _ ← list_getitem 0 l; Ok ()
           else Ok ());
      d ← gsw_z_from_p (Float <$> pressure) (lat cnv);
      Ok (Some (Float <$> (d : list float)))
  | None => Ok None
  end.

(** Density and potential temperature, when the three inputs are in
    [xarray_data]. *)
Definition derive (c : Collected) (ds : xr.Dataset) : result xr.Dataset :=
  match dict_get TEMPERATURE (xarray_data c),
        dict_get PRESSURE (xarray_data c),
        dict_get SALINITY (xarray_data c) with
  | Some t, Some p, Some s =>
      rho ← gsw_rho s t p;
      ds ← xr.setitem ds "density" [TIME] (Float <$> (rho : list float));
      pt ← gsw_pt0_from_t s t p;
      xr.setitem ds "potential_temperature" [TIME] (Float <$> (pt : list float))
  | _, _, _ => Ok ds
  end.

(** The loop [for key in self.mapping.keys()]. *)
Definition assign_parameters (c : Collected) (mapping : dict string)
    (ds : xr.Dataset) : result xr.Dataset :=
  foldM (fun ds key =>
           d ← dict_getitem key (xarray_data c);
           ds ← _assign_data_for_key_to_xarray_dataset ds key (Float <$> d);
           l ← dict_getitem key (xarray_labels c);
           u ← dict_getitem key (xarray_units c);
           _assign_metadata_for_key_to_xarray_dataset ds key (Some l) (Some u))
    ds mapping.*1.

(** [x != bad_flag] for an array element [x] and the [str] [bad_flag]:
    a number or a date is never equal to a [str]. *)
Definition ne_str (x : scalar) (bad_flag : string) : bool :=
  match x with
  | Str s => negb (bool_decide (s = bad_flag))
  | _ => true
  end.

(** [a.where(a != bad_flag, np.nan)] *)
Definition where_ne (bad_flag : string) (vals : list scalar) : list scalar :=
  (fun x => if ne_str x bad_flag then x else Float PrimFloat.nan) <$> vals.

(** The loop [for var in ds: ds[var] = ds[var].where(...)], over the
    data variables; [where] keeps the attributes. *)
Definition replace_bad_flag (bad_flag : string) (ds : xr.Dataset)
  : xr.Dataset :=
  xr.mkDataset
    ((fun v => if xr.coord v then v
               else xr.mkDataArray (xr.name v) (xr.coord v) (xr.dims v)
                      (where_ne bad_flag (xr.values v)) (xr.attrs v))
       <$> xr.variables ds)
    (xr.ds_attrs ds).

(** [__read] after the mapping has been resolved, up to the check for
    the bad flag. *)
Definition assemble (cnv : Cnv) (mapping : dict string)
  : result xr.Dataset :=
  _ ← _validate_necessary_parameters (fun k => dict_mem k mapping)
        "mapping data";
  c ← collect cnv mapping;
  offset_datetime ← match date cnv with
                    | Some d => Ok (d / Calendar.ns_per_second
                                    * Calendar.ns_per_second)%Z
                    | None => Raise AttributeError
                    end;
  time_coords ← time_coords cnv c offset_datetime;
  depth ← depth cnv c;
  time_coords ← match time_coords with
                | Some ts => Ok ts
                | None => Raise (UnboundLocalError "time_coords")
                end;
  ds ← _get_xarray_dataset_template time_coords depth (lat cnv) (lon cnv);
  ds ← derive c ds;
  ds ← assign_parameters c mapping ds;
  assign_metadata_for_all ds.

(** [__read] after the mapping has been resolved. *)
Definition build (cnv : Cnv) (mapping : dict string) : result xr.Dataset :=
  ds ← assemble cnv mapping;
  Ok (match __get_bad_flag (header cnv) with
      | Some bad_flag => replace_bad_flag bad_flag ds
      | None => ds
      end).

(** [__read]: the final content of [self.mapping], and the dataset or
    the exception. *)
Definition __read (cnv : Cnv) (mapping : dict string)
  : dict string * result xr.Dataset :=
  let channel_names := omap id (channels cnv) in
  let mapping := resolve_mapping channel_names mapping in
  (mapping, build cnv mapping).

(** [CnvReader(input_file, mapping)]: [mapping] is a reference to the
    caller's dictionary, or absent, and then it is [default_mapping].
    The store afterwards holds what [__read] wrote into the dictionary,
    also when construction raises. *)
Definition __init__ (input_file : string) (cnv : Cnv)
    (mapping : option positive) (σ : Store) : Store * result Reader :=
  let l := default default_mapping mapping in
  let '(m, r) := __read cnv (default [] (σ !! l)) in
  (<[l := m]> σ,
   ds ← r; Ok (mkReader input_file (Some ds) (Some m))).

End reader.
End CnvReader.

(** ** More operations on [str] and [list], used by the ASCII readers *)

Module PyStr.

(** [s.endswith(p)] *)
Definition endswith (p s : string) : bool :=
  String.prefix (String.rev p) (String.rev s).

Fixpoint lstrip_chars (chars : list ascii) (s : string) : string :=
  match s with
  | "" => ""
  | String a s' =>
      if bool_decide (a ∈ chars) then lstrip_chars chars s' else s
  end.

(** [s.strip(chars)] *)
Definition strip_chars (chars s : string) : string :=
  let cs := list_ascii_of_string chars in
  String.rev (lstrip_chars cs (String.rev (lstrip_chars cs s))).

(** [sep.join(l)] *)
Definition join (sep : string) (l : list string) : string :=
  String.concat sep l.

(** [l[1:-1]] *)
Definition inner {A : Type} (l : list A) : list A := removelast (tail l).

(** [l[-1]] *)
Definition list_last {A : Type} (l : list A) : result A :=
  match last l with
  | Some a => Ok a
  | None => Raise IndexError
  end.

(** The scan of [re.split(r'\s{2,}', s)]: [field] holds the current
    field and [ws] the run of whitespace that follows it, both
    reversed.  A run of two or more whitespace characters separates two
    fields; a single one belongs to the field. *)
Fixpoint re_split_go (field ws : string) (s : string) : list string :=
  match s with
  | "" =>
      if (2 <=? String.length ws)%nat then [String.rev field; ""]
      else [String.rev (ws ++ field)]
  | String a s' =>
      if isspace a then re_split_go field (String a ws) s'
      else if (2 <=? String.length ws)%nat
      then String.rev field :: re_split_go (String a "") "" s'
      else re_split_go (String a (ws ++ field)) "" s'
  end.

(** [re.split(r'\s{2,}', s)] *)
Definition re_split_spaces (s : string) : list string := re_split_go "" "" s.

End PyStr.

Export PyStr.

(** ** class RbrAsciiReader *)

Module RbrAsciiReader.

(** The file: its lines, as [readlines] gives them; the frame that
    [pd.read_csv] returns for [names] and [skiprows]; and the result of
    [pd.to_datetime(data['Date'] + ' ' + data['Time'],
    format='%Y/%m/%d %H:%M:%S')] for the two columns. *)
Record RbrFile : Type := mkRbrFile {
  lines : list string;
  read_csv : list string → nat → result xr.DataFrame;
  to_datetime : list scalar → list scalar → result (list scalar)
}.

(** The loop that looks for the first blank line: the index after it,
    or 0 when no line is blank. *)
Definition start_data_index (lines : list string) : nat :=
  match list_find (fun line => strip line = "") lines with
  | Some (i, _) => i + 1
  | None => 0
  end.

(** [__parse_data] *)
Definition __parse_data (file : RbrFile) : result xr.DataFrame :=
  let start_data_index := start_data_index (lines file) in
  header_line ← list_getitem start_data_index (lines file);
  let header := split (strip header_line) in
  data ← read_csv file (["Date"; "Time"] ++ header)%list (start_data_index + 1);
  dates ← xr.column data "Date";
  times ← xr.column data "Time";
  time ← to_datetime file dates times;
  let data := xr.mkDataFrame (xr.index_name data) (xr.index data)
                (dict_set "time" time (xr.columns data)) in
  let data := xr.mkDataFrame (xr.index_name data) (xr.index data)
                (xr.dict_remove "Time" (xr.dict_remove "Date" (xr.columns data))) in
  xr.set_index data "time".

Section reader.
Context {P : Params}.

(** [__create_xarray_dataset(df)] *)
Definition __create_xarray_dataset (df : xr.DataFrame) : result xr.Dataset :=
  df ← (if negb (bool_decide (xr.index_name df = Some "time"))
        then xr.set_index df "time"
        else Ok df);
  let df := xr.mkDataFrame (xr.index_name df) (xr.index df)
              (NortekAsciiReader.rename_columns (xr.columns df)) in
  ds ← xr.from_dataframe df;
  assign_metadata_for_all ds.

(** [__read].  This class does not call [AbstractReader.__init__]: it
    has no mapping, and its file attribute is [dat_file_path]. *)
Definition __read (dat_file_path : string) (file : RbrFile) : result Reader :=
  data ← __parse_data file;
  ds ← __create_xarray_dataset data;
  Ok (mkReader dat_file_path (Some ds) None).

End reader.
End RbrAsciiReader.

(** ** class NortekAsciiReader: the header file and the column names *)

Module NortekAsciiHeader.

(** The body of the loop of [__read_header] for a line that is kept:
    the triple (column number, name, unit). *)
Definition parse_header_line (line : string)
  : result (string * string * string) :=
  let parts := re_split_spaces (strip line) in
  if (2 <=? length parts)%nat then
    col_number ← list_getitem 0 parts;
    last_part ← list_last parts;
    if startswith "(" last_part && endswith ")" last_part
    then Ok (col_number, join " " (inner parts), strip_chars "()" last_part)
    else Ok (col_number, join " " (tail parts), "unknown")
  else
    part ← list_getitem 0 parts;
    col_number ← list_getitem 0 (split part);
    Ok (col_number, join " " (tail (split part)), "unknown").

(** The loop of [__read_header] over the lines of the file; [capture]
    is the flag of the same name. *)
Fixpoint read_header_lines (capture : bool) (lines : list string)
  : result (list (string * string * string)) :=
  match lines with
  | [] => Ok []
  | line :: rest =>
      if bool_decide (strip line = "Data file format")
      then read_header_lines true rest
      else if capture then
        if bool_decide (strip line = "") then Ok []
        else if truthy (strip line) && negb (startswith "---" line)
                && negb (startswith "[" line)
        then header ← parse_header_line line;
             headers ← read_header_lines capture rest;
             Ok (header :: headers)
        else read_header_lines capture rest
      else read_header_lines capture rest
  end.

(** [__read_header], from the lines of the .hdr file. *)
Definition __read_header (lines : list string)
  : result (list (string * string * string)) :=
  read_header_lines false lines.

(** One turn of the loop that makes the column names unique: [seen]
    counts the repetitions of each name. *)
Definition unique_step (st : gmap string nat * list string) (col : string)
  : gmap string nat * list string :=
  let '(seen, unique_columns) := st in
  match seen !! col with
  | Some n =>
      (<[col := S n]> seen,
       (unique_columns ++ [(col ++ "_" ++ pretty (S n))%string])%list)
  | None => (<[col := 0]> seen, (unique_columns ++ [col])%list)
  end.

Definition unique_columns (columns : list string) : list string :=
  (foldl unique_step (∅, []) columns).2.

(** [__parse_data]; [read_csv] is [pd.read_csv(dat_file_path,
    sep='\s+', names=...)] as a function of the names. *)
Definition __parse_data (read_csv : list string → result xr.DataFrame)
    (headers : list (string * string * string)) : result xr.DataFrame :=
  let columns := (fun '(_, name, _) => name) <$> headers in
  read_csv (unique_columns columns).

Section reader.
Context {P : Params}.

(** [NortekAsciiReader(dat_file_path, header_file_path)], from the
    lines of the header file and the parser of the data file. *)
Definition __init__ (dat_file_path : string) (header_lines : list string)
    (read_csv : list string → result xr.DataFrame) : result Reader :=
  headers ← __read_header header_lines;
  data ← __parse_data read_csv headers;
  NortekAsciiReader.__read dat_file_path headers data.

End reader.
End NortekAsciiHeader.

(** ** Predicates on the values of a dataset *)

Module Values.

(** The variables that are not coordinates hold no string. *)
Definition data_numeric (vs : list xr.DataArray) : Prop :=
  Forall (fun v => xr.coord v = false →
                   Forall (fun x => is_str x = false) (xr.values v)) vs.



(** The dataset in which [f] has been applied to the values of the
    first variable (the index coordinate of a dataset that comes from
    a data frame). *)
Definition map_index_values (f : list scalar → list scalar) (v : xr.DataArray)
  : xr.DataArray :=
  xr.mkDataArray (xr.name v) (xr.coord v) (xr.dims v) (f (xr.values v))
    (xr.attrs v).

Definition on_index (f : list scalar → list scalar) (ds : xr.Dataset)
  : xr.Dataset :=
  xr.mkDataset
    match xr.variables ds with
    | v :: rest => map_index_values f v :: rest
    | [] => []
    end
    (xr.ds_attrs ds).

(** The first variable of the dataset is named [n]. *)
Definition index_named (n : string) (ds : xr.Dataset) : Prop :=
  head (xr.names ds) = Some n.

(** The column [c] of a frame with the cell of row [i] replaced. *)
Definition set_cell (c : string) (i : nat) (x : scalar)
    (cols : dict (list scalar)) : dict (list scalar) :=
  (fun '(k, vals) => if bool_decide (k = c) then (k, <[i := x]> vals)
                     else (k, vals)) <$> cols.


End Values.

Export Values.

(** ** Conditions on a registry of aliases *)

Module Registry.

(** No alias is shared, up to case, by two canonical keys. *)
Definition aliases_disjoint (ms : dict (list string)) : Prop :=
  ∀ k1 al1 a1 k2 al2 a2,
    (k1, al1) ∈ ms → a1 ∈ al1 → (k2, al2) ∈ ms → a2 ∈ al2 →
    lower a1 = lower a2 → k1 = k2.

(** No canonical key is, up to case, an alias of another key. *)
Definition keys_not_aliases (ms : dict (list string)) : Prop :=
  ∀ k1 al1 a1 k2,
    (k1, al1) ∈ ms → a1 ∈ al1 → k2 ∈ ms.*1 →
    lower a1 = lower k2 → k1 = k2.

(** The source names of a caller mapping (its values) are neither
    target keys of the mapping nor canonical keys of the registry. *)
Definition sources_fresh (mapping : option (dict string))
    (ms : dict (list string)) : Prop :=
  match mapping with
  | Some m => ∀ value, value ∈ m.*2 → (value ∉ m.*1) ∧ (value ∉ ms.*1)
  | None => True
  end.

End Registry.

Export Registry.

(** ** Example inputs *)

Module Examples.


Definition cnv_header : string :=
  "* Sea-Bird SBE 9 Data File:
# interval = seconds: 0.25
# bad_flag = -9999
*END*".

(** A cast with Julian days, pressure, temperature and salinity; the
    second pressure sample is the bad flag. *)
Definition cnv_a : CnvReader.Cnv :=
  CnvReader.mkCnv
    [Some "timeJ"; Some "prDM"; Some "t090C"; Some "sal00"]
    [("timeJ", [153.5; 153.75]%float); ("prDM", [1; -9999]%float);
     ("t090C", [8.5; 8.25]%float); ("sal00", [35; 35.5]%float)]
    [("timeJ", "Julian Days"); ("prDM", "Pressure, Digiquartz [db]");
     ("t090C", "Temperature [ITS-90, deg C]");
     ("sal00", "Salinity, Practical [PSU]")]
    [("timeJ", "days"); ("prDM", "db"); ("t090C", "ITS-90, deg C");
     ("sal00", "PSU")]
    (Some 1590969600000000000%Z) (Float 54) (Float 8) cnv_header.

(** A cast with Julian days and pressure only. *)
Definition cnv_b : CnvReader.Cnv :=
  CnvReader.mkCnv
    [Some "timeJ"; Some "prDM"]
    [("timeJ", [153.5; 153.75]%float); ("prDM", [1; 2]%float)]
    [("timeJ", "Julian Days"); ("prDM", "Pressure, Digiquartz [db]")]
    [("timeJ", "days"); ("prDM", "db")]
    (Some 1590969600000000000%Z) (Float 54) (Float 8) cnv_header.

(** A cast whose only time channel is seconds since 1970. *)
Definition cnv_n : CnvReader.Cnv :=
  CnvReader.mkCnv
    [Some "timeN"; Some "prDM"]
    [("timeN", [1590969600; 1590969601]%float); ("prDM", [1; 2]%float)]
    [("timeN", "Time, NMEA"); ("prDM", "Pressure, Digiquartz [db]")]
    [("timeN", "seconds"); ("prDM", "db")]
    (Some 1590969600000000000%Z) (Float 54) (Float 8) cnv_header.

Definition nl : string := String "010"%char "".

(** The frame that [pd.read_csv] gives for a TOB file of two rows; the
    second timestamp is not a date. *)
Definition tob_frame (time_name : string) : xr.DataFrame :=
  xr.mkDataFrame None [Int 0; Int 1]
    [(time_name, [Str "2020-06-01 12:00:00"; Str "--.--.---- 12:00:01"]);
     ("Datasets", [Int 1; Int 2]);
     ("Press", [Float 1; Float 2]);
     ("Temp", [Float 8.5; Float 8.25]);
     ("Cond", [Float 30; Float 30.5]);
     ("SALIN", [Float 35; Float 35.5]);
     ("SOUND", [Float 1480; Float 1481]);
     ("Vbatt", [Float 7.5; Float 7.5]);
     ("SIGMA", [Float 27; Float 27.5])].

Definition tob : TobReader.TobFile :=
  TobReader.mkTobFile
    ["; Sea & Sun Technology" ++ nl;
     "; Datasets  IntD  IntT  Press  Temp  Cond  SALIN  SOUND  Vbatt  SIGMA"
       ++ nl;
     ";  [Date]  [Time]  [dbar]  [degC]  [mS/cm]  [PSU]  [m/s]  [V]  [kg/m3]"
       ++ nl;
     ";" ++ nl;
     "1  2020-06-01  12:00:00  1.0  8.5  30.0  35.0  1480  7.5  27.0" ++ nl;
     "2  --.--.----  12:00:01  2.0  8.25  30.5  35.5  1481  7.5  27.5" ++ nl]
    (fun _ _ time_name => Ok (tob_frame time_name)).


Definition nortek_headers : list (string * string * string) :=
  [("1", "Month", "1-12"); ("2", "Day", "1-31"); ("3", "Year", "unknown");
   ("4", "Hour", "0-23"); ("5", "Minute", "0-59"); ("6", "Second", "0-59");
   ("7", "Pressure", "dbar")].

(** A cast with Julian days and a depth channel, without pressure. *)
Definition cnv_depth_only : CnvReader.Cnv :=
  CnvReader.mkCnv
    [Some "timeJ"; Some "depSM"]
    [("timeJ", [153.5; 153.75]%float); ("depSM", [1; 2]%float)]
    [("timeJ", "Julian Days"); ("depSM", "Depth [salt water, m]")]
    [("timeJ", "days"); ("depSM", "salt water, m")]
    (Some 1590969600000000000%Z) (Float 54) (Float 8) cnv_header.

(** A cast with pressure only, and a header without a scan interval. *)
Definition cnv_no_time : CnvReader.Cnv :=
  CnvReader.mkCnv
    [Some "prDM"]
    [("prDM", [1; 2]%float)]
    [("prDM", "Pressure, Digiquartz [db]")]
    [("prDM", "db")]
    (Some 1590969600000000000%Z) (Float 54) (Float 8)
    "* Sea-Bird SBE 9 Data File:
*END*".

(** The lines of a Nortek header file. *)
Definition nortek_hdr : list string :=
  ["Number of measurements               2" ++ nl;
   "Data file format" ++ nl;
   "---------------------------------------------------------------------"
     ++ nl;
   "[C:\data\cast.dat]" ++ nl;
   " 1   Month                            (1-12)" ++ nl;
   " 2   Day                              (1-31)" ++ nl;
   " 3   Year" ++ nl;
   " 4   Hour                             (0-23)" ++ nl;
   " 5   Minute                           (0-59)" ++ nl;
   " 6   Second                           (0-59)" ++ nl;
   " 7   Pressure                         (dbar)" ++ nl;
   nl;
   " 8   Ignored                          (x)" ++ nl].

(** The table of an RBR ASCII file of two rows, and the file: the dates
    are taken as parsed to the epoch. *)
Definition rbr_frame : xr.DataFrame :=
  xr.mkDataFrame None [Int 0; Int 1]
    [("Date", [Str "2020/06/01"; Str "2020/06/01"]);
     ("Time", [Str "12:00:00"; Str "12:00:01"]);
     ("Temp", [Float 8.5; Float 8.25]);
     ("Pres", [Float 1; Float 2])].

Definition rbr : RbrAsciiReader.RbrFile :=
  RbrAsciiReader.mkRbrFile
    ["RBR TR-1060" ++ nl;
     "Logging start 20/06/01 12:00:00" ++ nl;
     nl;
     "  Temp   Pres" ++ nl;
     "2020/06/01 12:00:00   8.5   1.0" ++ nl;
     "2020/06/01 12:00:01   8.25  2.0" ++ nl]
    (fun _ _ => Ok rbr_frame)
    (fun dates _ => Ok ((fun _ => Datetime 0) <$> dates)).

(** A TOB table without the column [SIGMA]. *)
Definition tob_without_sigma : TobReader.TobFile :=
  TobReader.mkTobFile (TobReader.lines tob)
    (fun _ _ time_name =>
       Ok (xr.mkDataFrame None [Int 0]
             [(time_name, [Str "2020-06-01 12:00:00"]);
              ("Datasets", [Int 1]);
              ("Press", [Float 1]);
              ("Temp", [Float 8.5]);
              ("Cond", [Float 30]);
              ("SALIN", [Float 35]);
              ("SOUND", [Float 1480]);
              ("Vbatt", [Float 7.5])])).

(** A Nortek frame of two rows with valid dates. *)
Definition nortek_frame_valid : xr.DataFrame :=
  xr.mkDataFrame None [Int 0; Int 1]
    [("Month", [Int 6; Int 6]); ("Day", [Int 1; Int 1]);
     ("Year", [Int 2020; Int 2020]); ("Hour", [Int 12; Int 12]);
     ("Minute", [Int 0; Int 0]); ("Second", [Int 0; Int 1]);
     ("Pressure", [Float 1; Float 2])].

End Examples.

(** * Properties *)

(** ** The exception monad and the dictionaries *)

Lemma bind_Ok {A B : Type} (m : result A) (f : A → result B) (b : B) :
  (m ≫= f) = Ok b → ∃ a, m = Ok a ∧ f a = Ok b.
Proof. destruct m as [a|e]; [eauto | discriminate]. Qed.

Lemma bind_Raise {A B : Type} (m : result A) (f : A → result B) (e : exn) :
  m = Raise e → (m ≫= f) = Raise e.
Proof. intros ->; reflexivity. Qed.

(** Inversion of a successful sequence of statements. *)
Ltac inv_ok H :=
  repeat match type of H with
  | (_ ≫= _) = Ok _ =>
      let a := fresh "a" in
      let Ha := fresh "Ha" in
      apply bind_Ok in H as (a & Ha & H); cbn beta in H
  end.

Lemma foldM_app {A B : Type} (f : A → B → result A) a l1 l2 :
  foldM f a (l1 ++ l2) = (a' ← foldM f a l1; foldM f a' l2).
Proof.
  revert a; induction l1 as [|b l1 IH]; intros a; [reflexivity|].
  cbn. destruct (f a b) as [a'|e]; cbn; [apply IH | reflexivity].
Qed.

Lemma foldM_cons {A B : Type} (f : A → B → result A) a b l :
  foldM f a (b :: l) = (a' ← f a b; foldM f a' l).
Proof. reflexivity. Qed.

(** An invariant of a loop holds when the loop ends normally. *)
Lemma foldM_invariant {A B : Type} (I : A → Prop) (f : A → B → result A)
    (l : list B) (a a' : A) :
  (∀ x b y, b ∈ l → I x → f x b = Ok y → I y) →
  I a → foldM f a l = Ok a' → I a'.
Proof.
  revert a; induction l as [|b l IH]; intros a Hstep Ha H; cbn in H.
  - by injection H as <-.
  - apply bind_Ok in H as (y & Hy & H).
    eapply IH; [| |exact H].
    + intros x b' z Hb'. apply Hstep. by right.
    + eapply Hstep; [left | exact Ha | exact Hy].
Qed.

Lemma dict_mem_true {V : Type} (k : string) (d : dict V) :
  dict_mem k d = true ↔ k ∈ d.*1.
Proof. unfold dict_mem. by rewrite bool_decide_eq_true. Qed.

Lemma dict_mem_false {V : Type} (k : string) (d : dict V) :
  dict_mem k d = false ↔ k ∉ d.*1.
Proof. unfold dict_mem. by rewrite bool_decide_eq_false. Qed.

Lemma dict_get_Some_mem {V : Type} (k : string) (d : dict V) (v : V) :
  dict_get k d = Some v → k ∈ d.*1.
Proof.
  induction d as [|[k' v'] d IH]; cbn; [discriminate|].
  case_bool_decide as Hk; [subst; intros _; left | intros H; right; auto].
Qed.

Lemma dict_get_None {V : Type} (k : string) (d : dict V) :
  dict_get k d = None ↔ k ∉ d.*1.
Proof.
  induction d as [|[k' v'] d IH]; cbn.
  - split; [intros _; apply not_elem_of_nil | done].
  - case_bool_decide as Hk.
    + subst. split; [discriminate | intros H; exfalso; apply H; left].
    + rewrite IH, not_elem_of_cons. naive_solver.
Qed.

Lemma dict_getitem_missing {V : Type} (k : string) (d : dict V) :
  k ∉ d.*1 → dict_getitem k d = Raise (KeyError k).
Proof. intros H. unfold dict_getitem. by apply dict_get_None in H as ->. Qed.

Lemma dict_getitem_Ok {V : Type} (k : string) (d : dict V) (v : V) :
  dict_getitem k d = Ok v → k ∈ d.*1.
Proof.
  unfold dict_getitem. destruct (dict_get k d) eqn:H; [|discriminate].
  intros _. by eapply dict_get_Some_mem.
Qed.

Lemma mapM_Ok_Forall2 {A B : Type} (f : A → result B) (l : list A)
    (l' : list B) :
  mapM f l = Ok l' ↔ Forall2 (fun a b => f a = Ok b) l l'.
Proof.
  revert l'; induction l as [|a l IH]; intros l'; cbn.
  - split; [intros [= <-]; constructor | by inversion 1].
  - split.
    + intros H. apply bind_Ok in H as (b & Hb & H).
      apply bind_Ok in H as (k & Hk & [= <-]).
      constructor; [done | by apply IH].
    + inversion 1 as [|? b ? k Hb Hk]; subst.
      rewrite Hb. cbn. apply IH in Hk as ->. reflexivity.
Qed.

Lemma mapM_Ok_length {A B : Type} (f : A → result B) (l : list A)
    (l' : list B) :
  mapM f l = Ok l' → length l' = length l.
Proof. intros H%mapM_Ok_Forall2. symmetry. by eapply Forall2_length. Qed.

(** Assigning to an existing key keeps the keys and their order. *)
Lemma dict_set_keys {V : Type} (k : string) (v : V) (d : dict V) :
  k ∈ d.*1 → (dict_set k v d).*1 = d.*1.
Proof.
  induction d as [|[k' v'] d IH]; cbn; intros H.
  - by apply elem_of_nil in H.
  - case_bool_decide as Hk; cbn; [by subst|].
    f_equal. apply IH. apply elem_of_cons in H as [?|?]; [congruence | done].
Qed.

(** ** Validation of the required parameters *)

Section validation.
Context {P : Params}.

(** With non-empty names [TIME] and [DEPTH], neither test of
    [_validate_necessary_parameters] can hold: [not TIME] and
    [not DEPTH] are false whatever [data] contains. *)
Lemma validate_never_raises (data : string → bool) (entity : string) :
  TIME ≠ "" → DEPTH ≠ "" →
  _validate_necessary_parameters data entity = Ok ().
Proof.
  intros HT HD. unfold _validate_necessary_parameters, truthy.
  rewrite (bool_decide_eq_false_2 _ HT), (bool_decide_eq_false_2 _ HD).
  cbn. by rewrite andb_false_r.
Qed.

(** C1, on the code: the NetCDF reader is constructed and exposes the
    dataset it opened, although the dataset has no time channel and
    neither pressure nor depth.  The validation that the claim relies
    on never raises. *)
Theorem netcdf_without_required_parameters_is_exposed
    (input_file : string) (ds : xr.Dataset) :
  TIME ≠ "" → DEPTH ≠ "" →
  xr.contains ds TIME = false →
  xr.contains ds TIME_J = false →
  xr.contains ds TIME_Q = false →
  xr.contains ds TIME_N = false →
  xr.contains ds PRESSURE = false →
  xr.contains ds DEPTH = false →
  ∃ r, NetCdfReader.__init__ input_file (Ok ds) = Ok r
       ∧ get_data r = Some ds.
Proof.
  intros HT HD _ _ _ _ _ _.
  unfold NetCdfReader.__init__, NetCdfReader.__read. cbn.
  rewrite (validate_never_raises _ _ HT HD). cbn. eauto.
Qed.

End validation.

Lemma netcdf_without_required_parameters_witness :
  ∃ r, NetCdfReader.__init__ (P := ctdparams.example) "empty.nc"
         (Ok (xr.mkDataset [] [])) = Ok r
       ∧ get_data r = Some (xr.mkDataset [] []).
Proof.
  apply (netcdf_without_required_parameters_is_exposed
           (P := ctdparams.example));
    solve [ discriminate | reflexivity ].
Defined.

(** ** The columns that the CSV reader needs *)

Section csv.
Context {P : Params} {E : Externals}.

(** The conversions of [convert_columns] keep the column names. *)
Lemma convert_columns_keys (rows : list (dict string))
    (data : dict (list scalar)) :
  CsvReader.convert_columns rows = Ok data →
  TIME ∈ data.*1 ∧ data.*1 = (CsvReader.columns_of_rows rows).*1.
Proof.
  unfold CsvReader.convert_columns. intros H.
  inv_ok H.
  apply dict_getitem_Ok in Ha0.
  set (d0 := dict_set TIME a1 (CsvReader.columns_of_rows rows)) in *.
  assert (Hd0 : d0.*1 = (CsvReader.columns_of_rows rows).*1)
    by by apply dict_set_keys.
  cut (data.*1 = d0.*1); [intros ->; by rewrite Hd0|].
  revert H. generalize (d0.*1) at 1. intros keys H.
  eapply (foldM_invariant (fun d : dict (list scalar) => d.*1 = d0.*1));
    [| reflexivity | exact H].
  intros x key y _ Hx Hy. cbn beta in Hy.
  destruct (negb (bool_decide (key = TIME)) && dict_mem key default_mappings).
  - inv_ok Hy. injection Hy as <-.
    rewrite dict_set_keys; [done|]. by eapply dict_getitem_Ok.
  - by injection Hy as <-.
Qed.

Lemma dict_getitem_present {V : Type} (k : string) (d : dict V) :
  k ∈ d.*1 → ∃ v, dict_getitem k d = Ok v.
Proof.
  intros H. unfold dict_getitem.
  destruct (dict_get k d) eqn:Hg; [eauto|].
  by apply dict_get_None in Hg.
Qed.

Lemma foldl_invariant {A B : Type} (I : A → Prop) (f : A → B → A)
    (l : list B) (a : A) :
  (∀ x b, b ∈ l → I x → I (f x b)) → I a → I (foldl f a l).
Proof.
  revert a; induction l as [|b l IH]; intros a Hstep Ha; cbn; [done|].
  apply IH.
  - intros x b' Hb'. apply Hstep. by right.
  - apply Hstep; [left | done].
Qed.

Lemma dict_set_Forall {V : Type} (Q : V → Prop) (k : string) (v : V)
    (d : dict V) :
  Q v → Forall (fun kv => Q kv.2) d → Forall (fun kv => Q kv.2) (dict_set k v d).
Proof.
  intros Hv. induction 1 as [|[k' v'] d Hkv Hd IH]; cbn.
  - by repeat constructor.
  - case_bool_decide; constructor; auto.
Qed.

Lemma dict_get_Forall {V : Type} (Q : V → Prop) (k : string) (v : V)
    (d : dict V) :
  Forall (fun kv => Q kv.2) d → dict_get k d = Some v → Q v.
Proof.
  induction 1 as [|[k' v'] d Hkv Hd IH]; cbn; [discriminate|].
  case_bool_decide; [by intros [= <-] | done].
Qed.

Lemma dict_getitem_Forall {V : Type} (Q : V → Prop) (k : string) (v : V)
    (d : dict V) :
  Forall (fun kv => Q kv.2) d → dict_getitem k d = Ok v → Q v.
Proof.
  intros Hd. unfold dict_getitem.
  destruct (dict_get k d) eqn:Hg; [|discriminate].
  intros [= <-]. by eapply dict_get_Forall.
Qed.

(** Every column that [csv.DictReader] rows give has a value. *)
Lemma columns_of_rows_nonempty (rows : list (dict string)) :
  Forall (fun kv => kv.2 ≠ []) (CsvReader.columns_of_rows rows).
Proof.
  unfold CsvReader.columns_of_rows.
  apply (foldl_invariant
           (fun d : dict (list scalar) => Forall (fun kv => kv.2 ≠ []) d));
    [|constructor].
  intros d row _ Hd.
  apply (foldl_invariant
           (fun d : dict (list scalar) => Forall (fun kv => kv.2 ≠ []) d));
    [|done].
  intros d' [key value] _ Hd'.
  apply (dict_set_Forall (fun col : list scalar => col ≠ [])); [|done].
  by destruct (default [] (dict_get key d')).
Qed.

Lemma convert_columns_nonempty (rows : list (dict string))
    (data : dict (list scalar)) :
  CsvReader.convert_columns rows = Ok data →
  Forall (fun kv => kv.2 ≠ []) data.
Proof.
  unfold CsvReader.convert_columns. intros H.
  inv_ok H.
  pose proof (columns_of_rows_nonempty rows) as Hne.
  assert (Hlen : ∀ (f : scalar → result scalar) col col',
            col ≠ [] → mapM f col = Ok col' → col' ≠ []).
  { intros f col col' Hcol Hm%mapM_Ok_length.
    destruct col; [done|]. by destruct col'. }
  eapply (foldM_invariant
            (fun d : dict (list scalar) => Forall (fun kv => kv.2 ≠ []) d));
    [| |exact H].
  - intros x key y _ Hx Hy. cbn beta in Hy.
    destruct (negb (bool_decide (key = TIME))
              && dict_mem key default_mappings).
    + inv_ok Hy. injection Hy as <-.
      apply (dict_set_Forall (fun col : list scalar => col ≠ [])); [|done].
      eapply Hlen; [|exact Ha3].
      by eapply (dict_getitem_Forall (fun col : list scalar => col ≠ [])).
    + by injection Hy as <-.
  - apply (dict_set_Forall (fun col : list scalar => col ≠ [])); [|done].
    eapply Hlen; [|exact Ha1].
    by eapply (dict_getitem_Forall (fun col : list scalar => col ≠ [])).
Qed.

(** C10: a CSV file without a [depth], a [latitude] or a [longitude]
    column never yields a reader, although the validation asks for
    none of them; when the columns parse, the exception is the
    [KeyError] of a missing column, raised while the arguments of the
    dataset template are taken from the columns. *)
Theorem csv_requires_depth_latitude_longitude
    (input_file : string) (rows : list (dict string)) :
  let data := CsvReader.columns_of_rows rows in
  _validate_necessary_parameters (fun k => dict_mem k data) "CSV file"
    = Ok () →
  dict_mem DEPTH data = false ∨ dict_mem LATITUDE data = false
  ∨ dict_mem LONGITUDE data = false →
  (∃ e, CsvReader.__init__ input_file rows = Raise e)
  ∧ (∀ converted, CsvReader.convert_columns rows = Ok converted →
       ∃ k, k ∈ [DEPTH; LATITUDE; LONGITUDE]
            ∧ dict_mem k data = false
            ∧ CsvReader.create_dataset converted = Raise (KeyError k)
            ∧ CsvReader.__init__ input_file rows = Raise (KeyError k)).
Proof.
  intros data _ Hmiss.
  assert (Hsecond : ∀ converted,
    CsvReader.convert_columns rows = Ok converted →
    ∃ k, k ∈ [DEPTH; LATITUDE; LONGITUDE]
         ∧ dict_mem k data = false
         ∧ CsvReader.create_dataset converted = Raise (KeyError k)
         ∧ CsvReader.__init__ input_file rows = Raise (KeyError k)).
  { intros converted Hc.
    destruct (convert_columns_keys _ _ Hc) as [Htime Hkeys].
    pose proof (convert_columns_nonempty _ _ Hc) as Hne.
    assert (Hm : ∀ k, dict_mem k data = false →
                      dict_getitem k converted = Raise (KeyError k)).
    { intros k Hk. apply dict_getitem_missing. rewrite Hkeys.
      by apply dict_mem_false. }
    assert (Hp : ∀ k, dict_mem k data = true →
                      ∃ col, dict_getitem k converted = Ok col ∧ col ≠ []).
    { intros k Hk. apply dict_mem_true in Hk. unfold data in Hk.
      rewrite <- Hkeys in Hk.
      destruct (dict_getitem_present _ _ Hk) as [col Hcol].
      exists col. split; [done|].
      by eapply (dict_getitem_Forall (fun col : list scalar => col ≠ [])). }
    cut (∃ k, k ∈ [DEPTH; LATITUDE; LONGITUDE]
              ∧ dict_mem k data = false
              ∧ CsvReader.create_dataset converted = Raise (KeyError k)).
    { intros (k & ? & ? & Hk). exists k. repeat split; try done.
      unfold CsvReader.__init__, CsvReader.__read.
      rewrite Hc. cbn. by rewrite Hk. }
    unfold CsvReader.create_dataset.
    destruct (dict_getitem_present _ _ Htime) as [time_array ->]. cbn.
    destruct (dict_mem DEPTH data) eqn:HD.
    2:{ exists DEPTH. rewrite (Hm _ HD). repeat split; [set_solver|done]. }
    destruct (Hp _ HD) as (depth_array & -> & _). cbn.
    destruct (dict_mem LATITUDE data) eqn:HLa.
    2:{ exists LATITUDE. rewrite (Hm _ HLa). repeat split; [set_solver|done]. }
    destruct (Hp _ HLa) as (latitudes & -> & Hlat). cbn.
    destruct latitudes as [|latitude latitudes]; [done|]. cbn.
    destruct (dict_mem LONGITUDE data) eqn:HLo.
    2:{ exists LONGITUDE. rewrite (Hm _ HLo).
        repeat split; [set_solver|done]. }
    destruct Hmiss as [?|[?|?]]; congruence. }
  split; [|exact Hsecond].
  destruct (CsvReader.convert_columns rows) as [converted|e] eqn:Hc.
  - destruct (Hsecond converted eq_refl) as (k & _ & _ & _ & Hk). eauto.
  - exists e. unfold CsvReader.__init__, CsvReader.__read. by rewrite Hc.
Qed.

End csv.

Lemma csv_requires_depth_latitude_longitude_witness :
  let rows := [[("time", "2020-01-01 00:00:00.0"); ("pressure", "1.0");
                ("depth", "-1.0"); ("temperature", "8.5")]] in
  (∃ e, CsvReader.__init__ (P := ctdparams.example) (E := example_externals)
          "ctd.csv" rows = Raise e)
  ∧ (∀ converted,
       CsvReader.convert_columns (P := ctdparams.example)
         (E := example_externals) rows = Ok converted →
       ∃ k, k ∈ ["depth"; "latitude"; "longitude"]
            ∧ dict_mem k (CsvReader.columns_of_rows rows) = false
            ∧ CsvReader.create_dataset (P := ctdparams.example)
                (E := example_externals) converted = Raise (KeyError k)
            ∧ CsvReader.__init__ (P := ctdparams.example)
                (E := example_externals) "ctd.csv" rows
              = Raise (KeyError k)).
Proof.
  intros rows.
  apply (csv_requires_depth_latitude_longitude
           (P := ctdparams.example) (E := example_externals) "ctd.csv" rows).
  - reflexivity.
  - right; left; reflexivity.
Defined.

(** ** The metadata merge *)

Section metadata_merge.
Context {P : Params}.

(** A registry default is used for an attribute only when the variable
    does not have the attribute yet. *)
Lemma fill_defaults_lookup (md : dict string) (a : gmap string string)
    (x : string) :
  fill_defaults md a !! x
  = match a !! x with
    | Some v => Some v
    | None => dict_get x md
    end.
Proof.
  unfold fill_defaults.
  revert a; induction md as [|[attribute value] md IH]; intros a; cbn.
  - by destruct (a !! x).
  - rewrite IH. destruct (a !! attribute) as [w|] eqn:Ha.
    + case_bool_decide as Hx; [subst; by rewrite Ha | done].
    + case_bool_decide as Hx.
      * subst. by rewrite lookup_insert_eq, Ha.
      * by rewrite lookup_insert_ne.
Qed.

Lemma find_var_set_attrs (ds : xr.Dataset) (k : string)
    (a : gmap string string) (v : xr.DataArray) :
  xr.find_var k (xr.variables ds) = Some v →
  xr.find_var k (xr.variables (xr.set_attrs ds k a))
  = Some (xr.mkDataArray (xr.name v) (xr.coord v) (xr.dims v) (xr.values v) a).
Proof.
  unfold xr.set_attrs, xr.find_var. cbn.
  induction (xr.variables ds) as [|w vs IH]; cbn; [discriminate|].
  case_bool_decide as Hw; cbn.
  - intros [= ->]. by rewrite bool_decide_eq_true_2.
  - rewrite bool_decide_eq_false_2 by done. exact IH.
Qed.

(** C6: the attributes of [ds[key]] after the merge.  A label or a unit
    given by the caller is stored as [long_name] or [units] whatever was
    there; otherwise an attribute that the variable already has (the
    label and unit of the file format) is kept; the registry default
    only fills an attribute that is still missing. *)
Theorem metadata_merge_priority (ds : xr.Dataset) (key : string)
    (label unit : option string) (v : xr.DataArray) :
  xr.getitem ds key = Ok v →
  ∃ ds' v',
    _assign_metadata_for_key_to_xarray_dataset ds key label unit = Ok ds'
    ∧ xr.getitem ds' key = Ok v'
    ∧ xr.names ds' = xr.names ds
    ∧ ∀ a : string,
        xr.attrs v' !! a
        = match label, unit with
          | Some l, _ =>
              if truthy l && bool_decide (a = "long_name")
              then Some (stored_label l unit)
              else match unit with
                   | Some u =>
                       if truthy u && bool_decide (a = "units") then Some u
                       else match xr.attrs v !! a with
                            | Some x => Some x
                            | None => dict_get key metadata ≫= dict_get a
                            end
                   | None =>
                       match xr.attrs v !! a with
                       | Some x => Some x
                       | None => dict_get key metadata ≫= dict_get a
                       end
                   end
          | None, Some u =>
              if truthy u && bool_decide (a = "units") then Some u
              else match xr.attrs v !! a with
                   | Some x => Some x
                   | None => dict_get key metadata ≫= dict_get a
                   end
          | None, None =>
              match xr.attrs v !! a with
              | Some x => Some x
              | None => dict_get key metadata ≫= dict_get a
              end
          end.
Proof.
  intros Hv. unfold _assign_metadata_for_key_to_xarray_dataset.
  rewrite Hv. cbn.
  unfold xr.getitem in Hv.
  destruct (xr.find_var key (xr.variables ds)) as [v0|] eqn:Hf; [|discriminate].
  injection Hv as ->.
  eexists _, _. split; [reflexivity|]. split.
  { unfold xr.getitem. by erewrite find_var_set_attrs. }
  split.
  { unfold xr.names, xr.set_attrs. cbn. rewrite <- list_fmap_compose.
    apply list_fmap_ext. intros i w _. cbn. by case_bool_decide. }
  intros a. cbn.
  assert (Hreg : (match dict_get key metadata with
                  | Some md => fill_defaults md (xr.attrs v)
                  | None => xr.attrs v
                  end) !! a
                 = match xr.attrs v !! a with
                   | Some x => Some x
                   | None => dict_get key metadata ≫= dict_get a
                   end).
  { destruct (dict_get key metadata) as [md|]; cbn.
    - apply fill_defaults_lookup.
    - by destruct (xr.attrs v !! a). }
  destruct label as [l|], unit as [u|]; cbn;
    repeat match goal with
    | |- context [truthy ?s] => destruct (truthy s); cbn
    end;
    repeat case_bool_decide; subst; simplify_map_eq; try done;
    rewrite ?lookup_insert_ne by done; try exact Hreg.
Qed.

End metadata_merge.

(** The example of the specification: the label ["Temp"] wins over the
    registry default ["Temperature"]. *)
Lemma metadata_merge_priority_witness :
  let ds := xr.mkDataset [xr.mkDataArray "temperature" false ["time"] [] ∅] [] in
  ∃ ds' v',
    _assign_metadata_for_key_to_xarray_dataset (P := ctdparams.example)
      ds "temperature" (Some "Temp") None = Ok ds'
    ∧ xr.getitem ds' "temperature" = Ok v'
    ∧ xr.attrs v' !! "long_name" = Some "Temp"
    ∧ xr.attrs v' !! "units" = Some "degC".
Proof.
  intros ds.
  destruct (metadata_merge_priority (P := ctdparams.example) ds "temperature"
              (Some "Temp") None
              (xr.mkDataArray "temperature" false ["time"] [] ∅) eq_refl)
    as (ds' & v' & H1 & H2 & _ & H3).
  exists ds', v'. repeat split; [exact H1 | exact H2 | |].
  - rewrite H3. reflexivity.
  - rewrite H3. reflexivity.
Defined.

(** ** Datasets: what the operations keep *)

Open Scope list_scope.

Lemma names_set_attrs (ds : xr.Dataset) (k : string) (a : gmap string string) :
  xr.names (xr.set_attrs ds k a) = xr.names ds.
Proof.
  unfold xr.names, xr.set_attrs. cbn. rewrite <- list_fmap_compose.
  apply list_fmap_ext. intros i w _. cbn. by case_bool_decide.
Qed.

Lemma values_set_attrs (ds : xr.Dataset) (k : string) (a : gmap string string) :
  xr.values <$> xr.variables (xr.set_attrs ds k a)
  = xr.values <$> xr.variables ds.
Proof.
  unfold xr.set_attrs. cbn. rewrite <- list_fmap_compose.
  apply list_fmap_ext. intros i w _. cbn. by case_bool_decide.
Qed.

Lemma coord_set_attrs (ds : xr.Dataset) (k : string) (a : gmap string string) :
  xr.coord <$> xr.variables (xr.set_attrs ds k a)
  = xr.coord <$> xr.variables ds.
Proof.
  unfold xr.set_attrs. cbn. rewrite <- list_fmap_compose.
  apply list_fmap_ext. intros i w _. cbn. by case_bool_decide.
Qed.

Lemma find_var_Some (k : string) (vs : list xr.DataArray) (v : xr.DataArray) :
  xr.find_var k vs = Some v → v ∈ vs ∧ xr.name v = k.
Proof.
  unfold xr.find_var. intros H. apply find_some in H as [Hin Hk].
  apply bool_decide_eq_true in Hk. split; [by apply list_elem_of_In | done].
Qed.

Lemma find_var_None (k : string) (vs : list xr.DataArray) :
  xr.find_var k vs = None ↔ k ∉ xr.name <$> vs.
Proof.
  unfold xr.find_var. induction vs as [|w vs IH]; cbn.
  - split; [intros _; apply not_elem_of_nil | done].
  - case_bool_decide as Hw.
    + split; [discriminate | intros H; exfalso; apply H; subst; left].
    + rewrite IH, not_elem_of_cons. split; [by split | by intros [_ ?]].
Qed.

Lemma getitem_present (ds : xr.Dataset) (k : string) :
  k ∈ xr.names ds → ∃ v, xr.getitem ds k = Ok v.
Proof.
  intros H. unfold xr.getitem.
  destruct (xr.find_var k (xr.variables ds)) eqn:Hf; [eauto|].
  by apply find_var_None in Hf.
Qed.


(** A successful [rename_vars] renames each variable in place. *)
Lemma rename_vars_Ok (nd : gmap string string)
    (done vs out : list xr.DataArray) :
  xr.rename_vars nd done vs = Ok out →
  out = done ++ (xr.rename_var nd <$> vs).
Proof.
  revert done; induction vs as [|v vs IH]; intros done; cbn.
  - intros [= <-]. by rewrite app_nil_r.
  - case_bool_decide; [discriminate|].
    intros Hout%IH. by rewrite Hout, <- app_assoc.
Qed.

(** It succeeds exactly when the new names are pairwise different. *)
Lemma rename_vars_NoDup (nd : gmap string string)
    (done vs out : list xr.DataArray) :
  xr.rename_vars nd done vs = Ok out →
  NoDup (xr.name <$> done) → NoDup (xr.name <$> out).
Proof.
  revert done; induction vs as [|v vs IH]; intros done; cbn.
  - by intros [= <-].
  - case_bool_decide as Hin; [discriminate|].
    intros H Hdone. apply (IH _ H).
    rewrite fmap_app. cbn. apply NoDup_app. split; [done|].
    split; [|apply NoDup_singleton].
    intros x Hx Hx'. apply list_elem_of_singleton in Hx'. by subst.
Qed.

Lemma rename_vars_complete (nd : gmap string string)
    (done vs : list xr.DataArray) :
  NoDup (xr.name <$> (done ++ (xr.rename_var nd <$> vs))) →
  xr.rename_vars nd done vs = Ok (done ++ (xr.rename_var nd <$> vs)).
Proof.
  revert done; induction vs as [|v vs IH]; intros done; cbn.
  - by rewrite app_nil_r.
  - intros Hnd. rewrite bool_decide_eq_false_2.
    + rewrite (IH (done ++ [xr.rename_var nd v])); rewrite <- app_assoc; done.
    + rewrite fmap_app in Hnd. apply NoDup_app in Hnd as (_ & Hdisj & _).
      intros Hin. apply (Hdisj _ Hin). cbn. left.
Qed.

Lemma rename_Ok (ds ds' : xr.Dataset) (nd : gmap string string) :
  xr.rename ds nd = Ok ds' →
  xr.variables ds' = xr.rename_var nd <$> xr.variables ds
  ∧ NoDup (xr.names ds').
Proof.
  unfold xr.rename.
  destruct (forallb _ _); [|discriminate].
  intros H. apply bind_Ok in H as (vs & Hvs & [= <-]). cbn. split.
  - by apply rename_vars_Ok in Hvs.
  - unfold xr.names. cbn. eapply rename_vars_NoDup; [exact Hvs|]. constructor.
Qed.

Lemma rename_names (ds ds' : xr.Dataset) (nd : gmap string string) :
  xr.rename ds nd = Ok ds' →
  xr.names ds' = xr.rename_name nd <$> xr.names ds.
Proof.
  intros [H _]%rename_Ok. unfold xr.names. rewrite H.
  by rewrite <- !list_fmap_compose.
Qed.

(** Renaming with the empty dictionary changes nothing. *)
Lemma rename_empty (ds : xr.Dataset) :
  NoDup (xr.names ds) → xr.rename ds ∅ = Ok ds.
Proof.
  intros Hnd. unfold xr.rename. rewrite map_to_list_empty. cbn.
  assert (Hid : xr.rename_var ∅ <$> xr.variables ds = xr.variables ds).
  { rewrite <- (list_fmap_id (xr.variables ds)) at 2.
    apply list_fmap_ext. intros i [n c d v a] _.
    unfold xr.rename_var, xr.rename_name. cbn. f_equal.
    rewrite <- (list_fmap_id d) at 2.
    apply list_fmap_ext. intros j x _. by rewrite lookup_empty. }
  rewrite (rename_vars_complete ∅ [] (xr.variables ds)); cbn.
  - rewrite Hid. by destruct ds.
  - by rewrite Hid.
Qed.

Section metadata_for_all.
Context {P : Params}.

Lemma assign_metadata_Ok (ds ds' : xr.Dataset) (key : string)
    (label unit : option string) :
  _assign_metadata_for_key_to_xarray_dataset ds key label unit = Ok ds' →
  xr.names ds' = xr.names ds
  ∧ xr.values <$> xr.variables ds' = xr.values <$> xr.variables ds
  ∧ xr.coord <$> xr.variables ds' = xr.coord <$> xr.variables ds.
Proof.
  unfold _assign_metadata_for_key_to_xarray_dataset. intros H.
  apply bind_Ok in H as (v & _ & [= <-]).
  auto using names_set_attrs, values_set_attrs, coord_set_attrs.
Qed.

Lemma assign_metadata_present (ds : xr.Dataset) (key : string)
    (label unit : option string) :
  key ∈ xr.names ds →
  ∃ ds', _assign_metadata_for_key_to_xarray_dataset ds key label unit = Ok ds'.
Proof.
  intros Hk. destruct (getitem_present _ _ Hk) as [v Hv].
  unfold _assign_metadata_for_key_to_xarray_dataset. rewrite Hv. cbn. eauto.
Qed.

(** The final loop of every reader ends normally and keeps the names,
    the values and the kinds of the variables. *)
Lemma assign_metadata_for_all_Ok (ds : xr.Dataset) :
  ∃ ds', assign_metadata_for_all ds = Ok ds'
         ∧ xr.names ds' = xr.names ds
         ∧ xr.values <$> xr.variables ds' = xr.values <$> xr.variables ds
         ∧ xr.coord <$> xr.variables ds' = xr.coord <$> xr.variables ds.
Proof.
  unfold assign_metadata_for_all.
  assert (Hkeys : ∀ k, k ∈ xr.data_vars ds ++ xr.coords ds → k ∈ xr.names ds).
  { intros k [Hk|Hk]%elem_of_app; unfold xr.data_vars, xr.coords in Hk;
      apply list_elem_of_fmap in Hk as (v & -> & Hv);
      apply list_elem_of_filter in Hv as [_ Hv];
      unfold xr.names; by apply list_elem_of_fmap_2. }
  revert Hkeys. generalize (xr.data_vars ds ++ xr.coords ds). intros keys.
  cut (∀ ds0, xr.names ds0 = xr.names ds →
         (∀ k, k ∈ keys → k ∈ xr.names ds) →
         ∃ ds', foldM (fun ds key =>
                  _assign_metadata_for_key_to_xarray_dataset ds key None None)
                  ds0 keys = Ok ds'
                ∧ xr.names ds' = xr.names ds0
                ∧ xr.values <$> xr.variables ds' = xr.values <$> xr.variables ds0
                ∧ xr.coord <$> xr.variables ds' = xr.coord <$> xr.variables ds0).
  { intros H. by apply H. }
  induction keys as [|k keys IH]; intros ds0 Hn Hkeys.
  - cbn. eauto.
  - assert (Hk : k ∈ xr.names ds0) by (rewrite Hn; apply Hkeys; left).
    rewrite foldM_cons.
    destruct (assign_metadata_present ds0 k None None Hk) as [ds1 Hds1].
    rewrite Hds1. cbn.
    apply assign_metadata_Ok in Hds1 as (Hn1 & Hv1 & Hc1).
    destruct (IH ds1) as (ds' & -> & Hn' & Hv' & Hc').
    + by rewrite Hn1.
    + intros k' Hk'. apply Hkeys. by right.
    + exists ds'. split; [done|]. by rewrite Hn', Hv', Hc'.
Qed.

End metadata_for_all.

(** ** Renaming by the registry *)

Section renaming.

(** [{var.lower(): var for var in vars}] maps [x] to a variable whose
    lower-cased name is [x], when there is one. *)
Lemma ds_vars_lower_Some (vars : list string) (x var : string) :
  ds_vars_lower vars !! x = Some var → var ∈ vars ∧ lower var = x.
Proof.
  unfold ds_vars_lower.
  induction vars as [|v vars IH] using rev_ind; cbn.
  - by rewrite lookup_empty.
  - rewrite foldl_snoc. destruct (decide (lower v = x)) as [<-|Hne].
    + rewrite lookup_insert_eq. intros [= <-]. split; [|done].
      apply elem_of_app. right. left.
    + rewrite lookup_insert_ne by done. intros [H1 H2]%IH.
      split; [|done]. apply elem_of_app. by left.
Qed.

Lemma ds_vars_lower_is_Some (vars : list string) (x : string) :
  is_Some (ds_vars_lower vars !! x) ↔ ∃ v, v ∈ vars ∧ lower v = x.
Proof.
  split.
  - intros [var H]. exists var. by apply ds_vars_lower_Some.
  - unfold ds_vars_lower.
    induction vars as [|v vars IH] using rev_ind; intros (w & Hw & Hx).
    + by apply elem_of_nil in Hw.
    + rewrite foldl_snoc. destruct (decide (lower v = x)) as [<-|Hne].
      * rewrite lookup_insert_eq. eauto.
      * rewrite lookup_insert_ne by done. apply IH.
        exists w. split; [|done].
        apply elem_of_app in Hw as [?|Hw]; [done|].
        apply list_elem_of_singleton in Hw. congruence.
Qed.

Lemma first_alias_Some (vars : list string) (k : string)
    (aliases : list string) (alias : string) :
  first_alias vars k aliases = Some alias →
  alias ∈ aliases ∧ is_Some (ds_vars_lower vars !! lower alias) ∧ k ∉ vars.
Proof.
  unfold first_alias. intros [Hin Hc]%find_some.
  apply andb_true_iff in Hc as [H1 H2].
  apply bool_decide_eq_true in H1. apply negb_true_iff in H2.
  apply bool_decide_eq_false in H2. by rewrite list_elem_of_In.
Qed.

Lemma first_alias_None (vars : list string) (k : string)
    (aliases : list string) :
  first_alias vars k aliases = None ↔
  (k ∈ vars ∨ ∀ alias, alias ∈ aliases →
                ¬ is_Some (ds_vars_lower vars !! lower alias)).
Proof.
  unfold first_alias. split.
  - intros H. destruct (decide (k ∈ vars)) as [?|Hk]; [by left|right].
    intros alias Hin%list_elem_of_In Hs.
    pose proof (find_none _ _ H _ Hin) as Hc. cbn in Hc.
    rewrite (bool_decide_eq_true_2 _ Hs) in Hc.
    rewrite (bool_decide_eq_false_2 _ Hk) in Hc. discriminate.
  - intros H. destruct (List.find _ aliases) as [alias|] eqn:Hf; [|done].
    apply first_alias_Some in Hf as (Hin & Hs & Hk).
    destruct H as [?|H]; [done|]. by destruct (H alias).
Qed.

Lemma rename_dict_snoc (vars : list string) (ms : dict (list string))
    (entry : string * list string) :
  rename_dict vars (ms ++ [entry])
  = rename_step vars (rename_dict vars ms) entry.
Proof.
  unfold rename_dict. by rewrite foldl_snoc.
Qed.

(** An entry [var -> j] of the rename dictionary comes from an alias of
    [j] that matches [var], and [j] is not yet a variable. *)
Lemma rename_dict_Some (vars : list string) (ms : dict (list string))
    (var j : string) :
  rename_dict vars ms !! var = Some j →
  ∃ aliases alias,
    (j, aliases) ∈ ms ∧ alias ∈ aliases
    ∧ ds_vars_lower vars !! lower alias = Some var ∧ j ∉ vars.
Proof.
  induction ms as [|[k al] ms IH] using rev_ind.
  - unfold rename_dict. cbn. by rewrite lookup_empty.
  - rewrite rename_dict_snoc. unfold rename_step. cbn.
    assert (Hold : rename_dict vars ms !! var = Some j →
              ∃ aliases alias,
                (j, aliases) ∈ ms ++ [(k, al)] ∧ alias ∈ aliases
                ∧ ds_vars_lower vars !! lower alias = Some var ∧ j ∉ vars).
    { intros (aliases & alias & ? & ?)%IH. exists aliases, alias.
      split; [apply elem_of_app; by left | done]. }
    destruct (first_alias vars k al) as [alias|] eqn:Hfa; [|done].
    destruct (ds_vars_lower vars !! lower alias) as [var'|] eqn:Hl; [|done].
    destruct (decide (var' = var)) as [->|Hne].
    + rewrite lookup_insert_eq. intros [= <-].
      apply first_alias_Some in Hfa as (Hin & _ & Hk).
      exists al, alias. split; [apply elem_of_app; right; left | done].
    + by rewrite lookup_insert_ne.
Qed.

(** When aliases are disjoint, a key that is not a variable and has a
    matching alias ends up as the new name of a variable. *)
Lemma rename_dict_target (vars : list string) (ms : dict (list string))
    (k : string) (aliases : list string) (alias : string) :
  NoDup ms.*1 → aliases_disjoint ms →
  (k, aliases) ∈ ms → k ∉ vars → alias ∈ aliases →
  is_Some (ds_vars_lower vars !! lower alias) →
  ∃ var, var ∈ vars ∧ rename_dict vars ms !! var = Some k.
Proof.
  induction ms as [|[k' al'] ms IH] using rev_ind;
    intros Hnd Hdis Hin Hk Halias Hs.
  - by apply elem_of_nil in Hin.
  - rewrite rename_dict_snoc. unfold rename_step. cbn.
    rewrite fmap_app in Hnd. apply NoDup_app in Hnd as (Hnd & Hfresh & _).
    apply elem_of_app in Hin as [Hin|Hin].
    + destruct IH as (var & Hvar & Hrd); try done.
      { intros k1 al1 a1 k2 al2 a2 H1 ? H2 ? ?.
        eapply Hdis; [apply elem_of_app; left; exact H1 | done
                     | apply elem_of_app; left; exact H2 | done | done]. }
      exists var. split; [done|].
      destruct (first_alias vars k' al') as [alias'|] eqn:Hfa; [|done].
      destruct (ds_vars_lower vars !! lower alias') as [var'|] eqn:Hl; [|done].
      destruct (decide (var' = var)) as [->|Hne]; [|by rewrite lookup_insert_ne].
      exfalso.
      apply rename_dict_Some in Hrd as (al1 & a1 & Hin1 & Ha1 & Hl1 & _).
      apply ds_vars_lower_Some in Hl as [_ Hl].
      apply ds_vars_lower_Some in Hl1 as [_ Hl1].
      apply first_alias_Some in Hfa as (Hin' & _ & _).
      assert (k = k').
      { eapply (Hdis k al1 a1 k' al' alias');
          [apply elem_of_app; by left | done
          | apply elem_of_app; right; left | done | congruence]. }
      subst k'. apply (Hfresh k).
      * by apply (list_elem_of_fmap_2 fst) in Hin.
      * cbn. left.
    + apply list_elem_of_singleton in Hin. injection Hin as <- <-.
      destruct (first_alias vars k aliases) as [alias0|] eqn:Hfa.
      * apply first_alias_Some in Hfa as (_ & [var Hvar] & _).
        rewrite Hvar. exists var. rewrite lookup_insert_eq.
        split; [by apply ds_vars_lower_Some in Hvar as [? _] | done].
      * apply first_alias_None in Hfa as [?|Hfa]; [done|].
        by destruct (Hfa alias).
Qed.

(** Nothing is renamed when no key has a usable alias. *)
Lemma rename_dict_empty (vars : list string) (ms : dict (list string)) :
  (∀ k aliases, (k, aliases) ∈ ms → first_alias vars k aliases = None) →
  rename_dict vars ms = ∅.
Proof.
  induction ms as [|[k al] ms IH] using rev_ind; intros H; [done|].
  rewrite rename_dict_snoc. unfold rename_step. cbn.
  rewrite (H k al) by (apply elem_of_app; right; left).
  apply IH. intros k' al' Hin. apply H. apply elem_of_app. by left.
Qed.

(** A variable that is named by a canonical key keeps its name. *)
Lemma canonical_name_not_renamed (vars : list string)
    (ms : dict (list string)) (k : string) :
  keys_not_aliases ms → k ∈ ms.*1 → k ∈ vars →
  rename_dict vars ms !! k = None.
Proof.
  intros Hkna Hk Hv.
  destruct (rename_dict vars ms !! k) as [j|] eqn:Hrd; [|done].
  apply rename_dict_Some in Hrd as (al & a & Hin & Ha & Hl & Hj).
  apply ds_vars_lower_Some in Hl as [_ Hl].
  assert (j = k) by (eapply Hkna; eauto). by subst.
Qed.

(** The registry renaming of a list of names, and its idempotence. *)
Theorem registry_renaming_idempotent (vars : list string)
    (ms : dict (list string)) :
  NoDup ms.*1 → aliases_disjoint ms → keys_not_aliases ms →
  let vars' := xr.rename_name (rename_dict vars ms) <$> vars in
  rename_dict vars' ms = ∅.
Proof.
  intros Hnd Hdis Hkna vars'.
  apply rename_dict_empty. intros k aliases Hin.
  apply first_alias_None.
  destruct (decide (k ∈ vars')) as [?|Hk]; [by left|right].
  intros alias Halias [v' [Hv' Hlow]]%ds_vars_lower_is_Some.
  apply Hk. clear Hk.
  assert (Hkeys : k ∈ ms.*1) by by apply (list_elem_of_fmap_2 fst) in Hin.
  unfold vars' in Hv'.
  apply list_elem_of_fmap in Hv' as (v & -> & Hv).
  unfold xr.rename_name in Hlow.
  destruct (rename_dict vars ms !! v) as [j|] eqn:Hrd; cbn in Hlow.
  - (* [v] was renamed to the key [j], which matches an alias of [k] *)
    pose proof Hrd as Hrd'.
    apply rename_dict_Some in Hrd' as (alj & aj & Hinj & _ & _ & _).
    assert (k = j).
    { eapply (Hkna k aliases alias j); eauto.
      by apply (list_elem_of_fmap_2 fst) in Hinj. }
    subst j. apply list_elem_of_fmap. exists v.
    split; [|done]. unfold xr.rename_name. by rewrite Hrd.
  - (* [v] kept its name and matches an alias of [k] *)
    destruct (decide (k ∈ vars)) as [Hkv|Hkv].
    + apply list_elem_of_fmap. exists k. split; [|done].
      unfold xr.rename_name.
      by rewrite canonical_name_not_renamed.
    + destruct (rename_dict_target vars ms k aliases alias)
        as (var & Hvar & Hrdv); try done.
      { apply ds_vars_lower_is_Some. eauto. }
      apply list_elem_of_fmap. exists var. split; [|done].
      unfold xr.rename_name. by rewrite Hrdv.
Qed.

End renaming.

(** ** The generic post-processing pass *)

Section postprocessing.
Context {P : Params}.

Lemma rename_singleton_names (ds ds' : xr.Dataset) (value key : string) :
  xr.rename ds {[value := key]} = Ok ds' →
  xr.names ds' = (fun n => if decide (n = value) then key else n) <$> xr.names ds.
Proof.
  intros H%rename_names. rewrite H. apply list_fmap_ext.
  intros i n _. unfold xr.rename_name.
  destruct (decide (n = value)) as [->|Hne].
  - by rewrite lookup_singleton_eq.
  - by rewrite lookup_singleton_ne.
Qed.

(** After the caller mapping has been applied, no source name of the
    mapping names a variable. *)
Lemma apply_custom_mapping_sources (m : dict string) (K S : list string)
    (ds ds' : xr.Dataset) :
  (∀ k, k ∈ m.*1 → k ∈ K) →
  (∀ w, w ∈ S ++ m.*2 → w ∉ K) →
  (∀ w, w ∈ S → w ∉ xr.names ds) →
  apply_custom_mapping m ds = Ok ds' →
  ∀ w, w ∈ S ++ m.*2 → w ∉ xr.names ds'.
Proof.
  unfold apply_custom_mapping.
  revert S ds; induction m as [|[key value] m IH]; intros S ds HK HS Hds H.
  - cbn in *. injection H as <-. intros w Hw. rewrite app_nil_r in Hw. auto.
  - rewrite foldM_cons in H. apply bind_Ok in H as (ds1 & Hstep & H).
    cbn in HK, HS.
    assert (Hkey : key ∈ K) by (apply HK; left).
    assert (Hvalue : value ∉ K) by (apply HS, elem_of_app; right; left).
    assert (Hds1 : ∀ w, w ∈ S ++ [value] → w ∉ xr.names ds1).
    { intros w Hw Hin.
      destruct (xr.contains ds value) eqn:Hc.
      - apply rename_singleton_names in Hstep. rewrite Hstep in Hin.
        apply list_elem_of_fmap in Hin as (n & Hn & Hnin).
        destruct (decide (n = value)) as [->|Hne].
        + subst w. apply (HS key); [|done].
          apply elem_of_app in Hw as [Hw|Hw].
          * apply elem_of_app. by left.
          * apply list_elem_of_singleton in Hw. congruence.
        + subst w. apply elem_of_app in Hw as [Hw|Hw].
          * by apply (Hds n).
          * by apply list_elem_of_singleton in Hw.
      - injection Hstep as <-.
        apply elem_of_app in Hw as [Hw|Hw]; [by apply (Hds w)|].
        apply list_elem_of_singleton in Hw as ->.
        unfold xr.contains in Hc. by apply bool_decide_eq_false in Hc. }
    intros w Hw. apply (IH (S ++ [value]) ds1); try done.
    + intros k Hk. apply HK. by right.
    + intros w' Hw'. apply HS. rewrite <- app_assoc in Hw'. exact Hw'.
    + rewrite <- app_assoc. exact Hw.
Qed.

(** A mapping none of whose source names is a variable does nothing. *)
Lemma apply_custom_mapping_noop (m : dict string) (ds : xr.Dataset) :
  (∀ w, w ∈ m.*2 → w ∉ xr.names ds) →
  apply_custom_mapping m ds = Ok ds.
Proof.
  unfold apply_custom_mapping.
  induction m as [|[key value] m IH]; intros H; [done|].
  rewrite foldM_cons.
  assert (Hc : xr.contains ds value = false).
  { apply bool_decide_eq_false. apply H. left. }
  rewrite Hc. cbn. apply IH. intros w Hw. apply H. by right.
Qed.

(** The caller mapping leaves alone every name that is not one of its
    source names. *)
Lemma apply_custom_mapping_keeps (m : dict string) (ds ds' : xr.Dataset)
    (i : nat) (n : string) :
  n ∉ m.*2 →
  apply_custom_mapping m ds = Ok ds' →
  xr.names ds !! i = Some n → xr.names ds' !! i = Some n.
Proof.
  unfold apply_custom_mapping.
  revert ds; induction m as [|[key value] m IH]; intros ds Hn H Hi.
  - cbn in H. by injection H as <-.
  - rewrite foldM_cons in H. apply bind_Ok in H as (ds1 & Hstep & H).
    cbn in Hn. apply not_elem_of_cons in Hn as [Hne Hn].
    apply (IH ds1); [done | done |].
    destruct (xr.contains ds value).
    + apply rename_singleton_names in Hstep. rewrite Hstep.
      rewrite list_lookup_fmap, Hi. cbn. by rewrite decide_False.
    + by injection Hstep as <-.
Qed.

Lemma rename_parameters_names (ds ds' : xr.Dataset) :
  _rename_xarray_parameters ds = Ok ds' →
  xr.names ds'
  = xr.rename_name (rename_dict (xr.names ds) default_mappings) <$> xr.names ds
  ∧ NoDup (xr.names ds').
Proof.
  unfold _rename_xarray_parameters. intros H. split.
  - by apply rename_names.
  - by apply rename_Ok in H as [_ ?].
Qed.

(** A name produced by the registry renaming is an old name or a
    canonical key. *)
Lemma rename_parameters_new_names (ds ds' : xr.Dataset) (n : string) :
  _rename_xarray_parameters ds = Ok ds' →
  n ∈ xr.names ds' → n ∈ xr.names ds ∨ n ∈ default_mappings.*1.
Proof.
  intros [Hn _]%rename_parameters_names. rewrite Hn.
  intros (v & -> & Hv)%list_elem_of_fmap. unfold xr.rename_name.
  destruct (rename_dict _ _ !! v) as [j|] eqn:Hrd; cbn; [right | by left].
  apply rename_dict_Some in Hrd as (al & _ & Hin & _).
  by apply (list_elem_of_fmap_2 fst) in Hin.
Qed.

(** C8, as the code has it: when the source names of the caller
    mapping are neither target keys of the mapping nor canonical keys,
    and the registry shares no alias between two keys and has no key
    that is an alias of another key (both up to case), then a variable
    named by a canonical key keeps its name, and a second pass over the
    result of a first pass ends normally with the same variable names. *)
Theorem postprocessing_idempotent (mapping : option (dict string))
    (ds ds1 : xr.Dataset) :
  NoDup default_mappings.*1 →
  aliases_disjoint default_mappings →
  keys_not_aliases default_mappings →
  sources_fresh mapping default_mappings →
  _perform_default_postprocessing mapping ds = Ok ds1 →
  (∀ i k, k ∈ default_mappings.*1 →
          xr.names ds !! i = Some k → xr.names ds1 !! i = Some k)
  ∧ ∃ ds2, _perform_default_postprocessing mapping ds1 = Ok ds2
           ∧ xr.names ds2 = xr.names ds1.
Proof.
  intros Hnd Hdis Hkna Hfresh H.
  unfold _perform_default_postprocessing in H.
  apply bind_Ok in H as (dsa & Ha & H).
  apply bind_Ok in H as (dsb & Hb & Hc).
  destruct (assign_metadata_for_all_Ok dsb) as (ds1' & Hc' & Hn1 & _).
  rewrite Hc in Hc'. injection Hc' as <-.
  pose proof (rename_parameters_names _ _ Hb) as [Hnb Hndb].
  split.
  - (* canonical names stay *)
    intros i k Hk Hi. rewrite Hn1, Hnb.
    assert (Hia : xr.names dsa !! i = Some k).
    { destruct mapping as [m|]; [|by injection Ha as <-].
      eapply apply_custom_mapping_keeps; [|exact Ha|exact Hi].
      intros Hkm. by destruct (Hfresh k Hkm). }
    rewrite list_lookup_fmap, Hia. cbn. f_equal.
    unfold xr.rename_name. rewrite canonical_name_not_renamed; try done.
    by eapply list_elem_of_lookup_2.
  - (* the second pass *)
    assert (Hstep1 : match mapping with
                     | Some m => apply_custom_mapping m ds1
                     | None => Ok ds1
                     end = Ok ds1).
    { destruct mapping as [m|]; [|done].
      apply apply_custom_mapping_noop. intros w Hw.
      destruct (Hfresh w Hw) as [Hwk Hwr].
      rewrite Hn1. intros Hin.
      apply (rename_parameters_new_names _ _ _ Hb) in Hin as [Hin|Hin];
        [|done].
      revert Hin.
      apply (apply_custom_mapping_sources m (m.*1) [] ds dsa); try done.
      - intros w' Hw'. cbn in Hw'. by destruct (Hfresh w' Hw').
      - intros w' Hw'. by apply elem_of_nil in Hw'. }
    unfold _perform_default_postprocessing. rewrite Hstep1. cbn.
    unfold _rename_xarray_parameters.
    assert (Hrd : rename_dict (xr.names ds1) default_mappings = ∅).
    { rewrite Hn1, Hnb. by apply registry_renaming_idempotent. }
    rewrite Hrd, rename_empty by (by rewrite Hn1). cbn.
    destruct (assign_metadata_for_all_Ok ds1) as (ds2 & -> & Hn2 & _).
    eauto.
Qed.

End postprocessing.

(** *** The example registry satisfies the conditions *)

(** Case analysis on the membership of an item in a literal list. *)
Ltac split_elem H :=
  repeat (apply elem_of_cons in H as [H|H]);
  try (by apply elem_of_nil in H).

Lemma example_keys_NoDup :
  NoDup (default_mappings (Params := ctdparams.example)).*1.
Proof. apply (bool_decide_unpack _). by vm_compute. Qed.

Lemma example_aliases_disjoint :
  aliases_disjoint (default_mappings (Params := ctdparams.example)).
Proof.
  intros k1 al1 a1 k2 al2 a2 H1 Ha1 H2 Ha2 Hl. cbn in H1, H2.
  split_elem H1; injection H1 as -> ->; split_elem Ha1; subst a1;
    split_elem H2; injection H2 as -> ->; split_elem Ha2; subst a2;
    first [reflexivity | vm_compute in Hl; discriminate Hl].
Qed.

Lemma example_keys_not_aliases :
  keys_not_aliases (default_mappings (Params := ctdparams.example)).
Proof.
  intros k1 al1 a1 k2 H1 Ha1 H2 Hl. cbn in H1, H2.
  split_elem H1; injection H1 as -> ->; split_elem Ha1; subst a1;
    split_elem H2; subst k2;
    first [reflexivity | vm_compute in Hl; discriminate Hl].
Qed.

(** C8, counterexample: the caller maps [pressure] to the source name
    ["depth"] and [depth] to the source name ["z"].  The first pass
    renames [z] to [depth]; the second pass finds a variable [depth] and
    renames it to [pressure]. *)
Lemma postprocessing_twice_differs :
  let mapping := Some [("pressure", "depth"); ("depth", "z")] in
  let ds :=
    xr.mkDataset
      [xr.mkDataArray "time" true ["time"] [Datetime 0] ∅;
       xr.mkDataArray "z" false ["time"] [Float 1.5] ∅] [] in
  ∃ ds1 ds2,
    _perform_default_postprocessing (P := ctdparams.example) mapping ds
    = Ok ds1
    ∧ _perform_default_postprocessing (P := ctdparams.example) mapping ds1
      = Ok ds2
    ∧ xr.names ds1 = ["time"; "depth"]
    ∧ xr.names ds2 = ["time"; "pressure"]
    ∧ xr.names ds2 ≠ xr.names ds1.
Proof.
  intros mapping ds.
  destruct (_perform_default_postprocessing (P := ctdparams.example)
              mapping ds) as [ds1|e] eqn:H1;
    [|by vm_compute in H1].
  destruct (_perform_default_postprocessing (P := ctdparams.example)
              mapping ds1) as [ds2|e] eqn:H2.
  - exists ds1, ds2. rewrite H2.
    assert (Hn1 : xr.names ds1 = ["time"; "depth"]).
    { vm_compute in H1. injection H1 as <-. reflexivity. }
    assert (Hn2 : xr.names ds2 = ["time"; "pressure"]).
    { vm_compute in H1. injection H1 as <-.
      vm_compute in H2. injection H2 as <-. reflexivity. }
    split; [reflexivity|]. split; [reflexivity|].
    split; [exact Hn1|]. split; [exact Hn2|].
    rewrite Hn1, Hn2. discriminate.
  - exfalso. vm_compute in H1. injection H1 as <-. by vm_compute in H2.
Qed.

Lemma postprocessing_idempotent_witness :
  let mapping := Some [("temperature", "T1")] in
  let ds :=
    xr.mkDataset
      [xr.mkDataArray "time" true ["time"] [Datetime 0] ∅;
       xr.mkDataArray "T1" false ["time"] [Float 8.5] ∅;
       xr.mkDataArray "SAL00" false ["time"] [Float 35] ∅;
       xr.mkDataArray "pressure" false ["time"] [Float 1.5] ∅] [] in
  ∃ ds1,
    _perform_default_postprocessing (P := ctdparams.example) mapping ds
    = Ok ds1
    ∧ xr.names ds1 = ["time"; "temperature"; "salinity"; "pressure"]
    ∧ (∀ i k, k ∈ (default_mappings (Params := ctdparams.example)).*1 →
              xr.names ds !! i = Some k → xr.names ds1 !! i = Some k)
    ∧ ∃ ds2,
        _perform_default_postprocessing (P := ctdparams.example) mapping ds1
        = Ok ds2
        ∧ xr.names ds2 = xr.names ds1.
Proof.
  intros mapping ds.
  destruct (_perform_default_postprocessing (P := ctdparams.example)
              mapping ds) as [ds1|e] eqn:H1;
    [|by vm_compute in H1].
  exists ds1. split; [reflexivity|]. split.
  { vm_compute in H1. injection H1 as <-. reflexivity. }
  apply (postprocessing_idempotent (P := ctdparams.example) mapping ds ds1).
  - exact example_keys_NoDup.
  - exact example_aliases_disjoint.
  - exact example_keys_not_aliases.
  - intros value Hv. cbn in Hv. apply list_elem_of_singleton in Hv as ->.
    split; apply (bool_decide_unpack _); by vm_compute.
  - exact H1.
Defined.

(** ** The time coordinate of the RBR legacy reader *)

Lemma rename_values (ds ds' : xr.Dataset) (nd : gmap string string) :
  xr.rename ds nd = Ok ds' →
  xr.values <$> xr.variables ds' = xr.values <$> xr.variables ds
  ∧ xr.coord <$> xr.variables ds' = xr.coord <$> xr.variables ds.
Proof.
  intros [H _]%rename_Ok. rewrite H, <- !list_fmap_compose. done.
Qed.



Section postprocessing_values.
Context {P : Params}.

(** The post-processing pass renames and annotates: it keeps the values
    and the kinds of the variables, in their order. *)
Lemma postprocessing_values (mapping : option (dict string))
    (ds ds' : xr.Dataset) :
  _perform_default_postprocessing mapping ds = Ok ds' →
  xr.values <$> xr.variables ds' = xr.values <$> xr.variables ds
  ∧ xr.coord <$> xr.variables ds' = xr.coord <$> xr.variables ds.
Proof.
  unfold _perform_default_postprocessing. intros H.
  apply bind_Ok in H as (dsa & Ha & H).
  apply bind_Ok in H as (dsb & Hb & Hc).
  destruct (assign_metadata_for_all_Ok dsb) as (ds1' & Hc' & _ & Hv & Hco).
  rewrite Hc in Hc'. injection Hc' as <-.
  apply rename_values in Hb as [Hvb Hcb].
  rewrite Hv, Hco, Hvb, Hcb.
  destruct mapping as [m|]; [|by injection Ha as <-].
  unfold apply_custom_mapping in Ha.
  eapply (foldM_invariant
            (fun d => xr.values <$> xr.variables d = xr.values <$> xr.variables ds
                      ∧ xr.coord <$> xr.variables d
                        = xr.coord <$> xr.variables ds));
    [| |exact Ha]; [|done].
  intros x [key value] y _ [Hx1 Hx2] Hy. cbn beta iota in Hy.
  destruct (xr.contains x value).
  - apply rename_values in Hy as [-> ->]. done.
  - by injection Hy as <-.
Qed.

End postprocessing_values.



Section rsk.
Context {P : Params}.



End rsk.



(** ** The CNV reader *)

Lemma dict_set_mem {V : Type} (k k' : string) (v : V) (d : dict V) :
  k' ∈ (dict_set k v d).*1 ↔ k' = k ∨ k' ∈ d.*1.
Proof.
  induction d as [|[k0 v0] d IH]; cbn.
  - rewrite list_elem_of_singleton. split; [by left|].
    intros [?|H]; [done | by apply elem_of_nil in H].
  - case_bool_decide as Hk; cbn; rewrite !elem_of_cons.
    + subst. tauto.
    + rewrite IH. tauto.
Qed.



Section cnv.
Context {P : Params} {E : Externals}.

(** The dictionaries collected from the mapping have the keys of the
    mapping. *)
Lemma collect_keys (cnv : CnvReader.Cnv) (mapping : dict string)
    (c : CnvReader.Collected) :
  CnvReader.collect cnv mapping = Ok c →
  ∀ k, (k ∈ (CnvReader.xarray_data c).*1 ↔ k ∈ mapping.*1)
       ∧ (k ∈ (CnvReader.xarray_labels c).*1 ↔ k ∈ mapping.*1)
       ∧ (k ∈ (CnvReader.xarray_units c).*1 ↔ k ∈ mapping.*1).
Proof.
  unfold CnvReader.collect.
  cut (∀ c0, foldM (fun c '(k, v) =>
               d ← dict_getitem v (CnvReader.cnv_data cnv);
               l ← dict_getitem v (CnvReader.cnv_names cnv);
               u ← dict_getitem v (CnvReader.cnv_units cnv);
               Ok (CnvReader.mkCollected
                     (dict_set k d (CnvReader.xarray_data c))
                     (dict_set k l (CnvReader.xarray_labels c))
                     (dict_set k u (CnvReader.xarray_units c))
                     (Some (length d)))) c0 mapping = Ok c →
          ∀ k, (k ∈ (CnvReader.xarray_data c).*1
                ↔ k ∈ (CnvReader.xarray_data c0).*1 ∨ k ∈ mapping.*1)
               ∧ (k ∈ (CnvReader.xarray_labels c).*1
                  ↔ k ∈ (CnvReader.xarray_labels c0).*1 ∨ k ∈ mapping.*1)
               ∧ (k ∈ (CnvReader.xarray_units c).*1
                  ↔ k ∈ (CnvReader.xarray_units c0).*1 ∨ k ∈ mapping.*1)).
  { intros Hgen H k. destruct (Hgen _ H k) as (H1 & H2 & H3).
    cbn in H1, H2, H3. rewrite H1, H2, H3.
    repeat split; intros; try tauto;
      match goal with
      | H : _ ∨ _ |- _ => destruct H as [H|H]; [by apply elem_of_nil in H|done]
      end. }
  induction mapping as [|[k0 v0] mapping IH]; intros c0 H k.
  - cbn in H. injection H as <-. cbn.
    repeat split; intros; try tauto;
      match goal with
      | H : _ ∨ _ |- _ => destruct H as [H|H]; [done|by apply elem_of_nil in H]
      end.
  - rewrite foldM_cons in H. apply bind_Ok in H as (c1 & Hc1 & H).
    inv_ok Hc1. injection Hc1 as <-.
    destruct (IH _ H k) as (H1 & H2 & H3). cbn in H1, H2, H3.
    rewrite H1, H2, H3, !dict_set_mem. cbn. rewrite !elem_of_cons. tauto.
Qed.

Lemma collect_mem (cnv : CnvReader.Cnv) (mapping : dict string)
    (c : CnvReader.Collected) (k : string) :
  CnvReader.collect cnv mapping = Ok c →
  dict_mem k (CnvReader.xarray_data c) = dict_mem k mapping.
Proof.
  intros H. destruct (collect_keys _ _ _ H k) as [Hk _].
  unfold dict_mem. apply bool_decide_ext. exact Hk.
Qed.

(** The branch for seconds since 1970 reads the channel of seconds
    since 2000, which is absent when that branch is taken. *)
Lemma time_coords_seconds_since_1970 (cnv : CnvReader.Cnv)
    (c : CnvReader.Collected) (offset_datetime : Z) :
  dict_mem TIME_J (CnvReader.xarray_data c) = false →
  dict_mem TIME_Q (CnvReader.xarray_data c) = false →
  dict_mem TIME_N (CnvReader.xarray_data c) = true →
  CnvReader.time_coords cnv c offset_datetime = Raise (KeyError TIME_Q).
Proof.
  intros HJ HQ HN. unfold CnvReader.time_coords. rewrite HJ, HQ, HN.
  rewrite dict_getitem_missing; [done|]. by apply dict_mem_false.
Qed.

(** C3, on the code: when seconds since 1970 is the first time channel
    of the resolved mapping (no Julian days, no seconds since 2000), no
    time coordinate is built: the read never returns a dataset, and
    once the channels have been collected the time step raises
    [KeyError] for the key of seconds since 2000. *)
Theorem cnv_seconds_since_1970_is_not_decoded (cnv : CnvReader.Cnv)
    (mapping0 : dict string) :
  let mapping := (CnvReader.__read cnv mapping0).1 in
  dict_mem TIME_J mapping = false →
  dict_mem TIME_Q mapping = false →
  dict_mem TIME_N mapping = true →
  (∀ ds, (CnvReader.__read cnv mapping0).2 ≠ Ok ds)
  ∧ (∀ c offset_datetime,
       CnvReader.collect cnv mapping = Ok c →
       CnvReader.time_coords cnv c offset_datetime = Raise (KeyError TIME_Q)).
Proof.
  intros mapping HJ HQ HN.
  assert (Htime : ∀ c offset_datetime,
            CnvReader.collect cnv mapping = Ok c →
            CnvReader.time_coords cnv c offset_datetime
            = Raise (KeyError TIME_Q)).
  { intros c offset_datetime Hc.
    apply time_coords_seconds_since_1970;
      by rewrite (collect_mem _ _ _ _ Hc). }
  split; [|exact Htime].
  intros ds H. unfold CnvReader.__read in H. cbn in H.
  unfold CnvReader.build in H. apply bind_Ok in H as (ds0 & H & _).
  unfold CnvReader.assemble in H.
  apply bind_Ok in H as (? & _ & H).
  apply bind_Ok in H as (c & Hc & H).
  apply bind_Ok in H as (offset_datetime & _ & H).
  apply bind_Ok in H as (tc & Htc & _).
  unfold mapping, CnvReader.__read in Htime. cbn in Htime.
  rewrite (Htime c offset_datetime Hc) in Htc. discriminate.
Qed.

End cnv.

Lemma cnv_seconds_since_1970_is_not_decoded_witness :
  (CnvReader.__read (P := ctdparams.example) (E := example_externals)
     Examples.cnv_n []).1
  = [("pressure", "prDM"); ("timeN", "timeN")]
  ∧ (∀ ds, (CnvReader.__read (P := ctdparams.example)
              (E := example_externals) Examples.cnv_n []).2 ≠ Ok ds)
  ∧ (CnvReader.__read (P := ctdparams.example) (E := example_externals)
       Examples.cnv_n []).2 = Raise (KeyError "timeQ").
Proof.
  split; [reflexivity|]. split; [|by vm_compute].
  apply (cnv_seconds_since_1970_is_not_decoded (P := ctdparams.example)
           (E := example_externals) Examples.cnv_n []); reflexivity.
Defined.

(** ** The bad flag of the CNV reader *)

Lemma data_numeric_ext (l l' : list xr.DataArray) :
  xr.coord <$> l' = xr.coord <$> l →
  xr.values <$> l' = xr.values <$> l →
  data_numeric l → data_numeric l'.
Proof.
  unfold data_numeric.
  revert l'; induction l as [|v l IH]; intros [|v' l'] Hc Hv Hl;
    try discriminate; [constructor|].
  cbn in Hc, Hv. injection Hc as Hc1 Hc2. injection Hv as Hv1 Hv2.
  inversion Hl as [|? ? Hhead Htail]; subst.
  constructor; [|by apply IH]. rewrite Hc1, Hv1. exact Hhead.
Qed.

Lemma setitem_data_numeric (ds ds' : xr.Dataset) (k : string)
    (ds_dims : list string) (vals : list scalar) :
  Forall (fun x => is_str x = false) vals →
  data_numeric (xr.variables ds) →
  xr.setitem ds k ds_dims vals = Ok ds' →
  data_numeric (xr.variables ds').
Proof.
  intros Hvals Hds. unfold xr.setitem.
  destruct (forallb _ _); [|discriminate].
  intros [= <-]. cbn. unfold xr.replace_var, data_numeric in *. cbn.
  case_bool_decide.
  - apply Forall_fmap. eapply Forall_impl; [exact Hds|].
    intros w Hw. cbn. by case_bool_decide.
  - apply Forall_app. split; [done|]. by repeat constructor.
Qed.

Lemma Float_not_str (l : list float) :
  Forall (fun x => is_str x = false) (Float <$> l).
Proof. apply Forall_fmap. by apply Forall_true. Qed.

(** Comparing numbers with the text of the bad flag selects nothing. *)
Lemma where_ne_numeric (bad_flag : string) (vals : list scalar) :
  Forall (fun x => is_str x = false) vals →
  CnvReader.where_ne bad_flag vals = vals.
Proof.
  unfold CnvReader.where_ne. induction 1 as [|x vals Hx _ IH]; [done|].
  cbn. rewrite IH. by destruct x.
Qed.

Lemma replace_bad_flag_numeric (bad_flag : string) (ds : xr.Dataset) :
  data_numeric (xr.variables ds) →
  CnvReader.replace_bad_flag bad_flag ds = ds.
Proof.
  intros H. unfold CnvReader.replace_bad_flag. destruct ds as [vs a]. cbn in *.
  f_equal. induction H as [|v vs Hv _ IH]; [done|].
  rewrite fmap_cons, IH. f_equal.
  destruct v as [n c d vals at_].
  cbn [xr.coord xr.values xr.name xr.dims xr.attrs] in *.
  destruct c; [done|]. by rewrite where_ne_numeric by auto.
Qed.

Section cnv_bad_flag.
Context {P : Params} {E : Externals}.

Lemma assign_data_numeric (ds ds' : xr.Dataset) (key : string)
    (d : list float) :
  data_numeric (xr.variables ds) →
  _assign_data_for_key_to_xarray_dataset ds key (Float <$> d) = Ok ds' →
  data_numeric (xr.variables ds').
Proof.
  intros Hds. unfold _assign_data_for_key_to_xarray_dataset. intros H.
  apply bind_Ok in H as (ds1 & H1 & [= <-]).
  eapply data_numeric_ext;
    [apply coord_set_attrs | apply values_set_attrs |].
  eapply setitem_data_numeric; [apply Float_not_str | exact Hds | exact H1].
Qed.

(** Every data variable of an assembled CNV dataset is numeric. *)
Lemma assemble_data_numeric (cnv : CnvReader.Cnv) (mapping : dict string)
    (ds : xr.Dataset) :
  CnvReader.assemble cnv mapping = Ok ds → data_numeric (xr.variables ds).
Proof.
  unfold CnvReader.assemble. intros H.
  apply bind_Ok in H as (? & _ & H).
  apply bind_Ok in H as (c & _ & H).
  apply bind_Ok in H as (offset_datetime & _ & H).
  apply bind_Ok in H as (tc & _ & H).
  apply bind_Ok in H as (depth & _ & H).
  apply bind_Ok in H as (ts & _ & H).
  apply bind_Ok in H as (ds0 & Hds0 & H).
  apply bind_Ok in H as (ds1 & Hds1 & H).
  apply bind_Ok in H as (ds2 & Hds2 & H).
  (* the template has coordinates only *)
  assert (H0 : data_numeric (xr.variables ds0)).
  { unfold _get_xarray_dataset_template in Hds0.
    destruct depth as [depth_values|]; [|discriminate].
    destruct (_ && _); [discriminate|]. injection Hds0 as <-. cbn.
    repeat constructor; discriminate. }
  (* the derived variables are arrays of floats *)
  assert (H1 : data_numeric (xr.variables ds1)).
  { unfold CnvReader.derive in Hds1.
    destruct (dict_get TEMPERATURE (CnvReader.xarray_data c)) as [t|];
      [|by injection Hds1 as <-].
    destruct (dict_get PRESSURE (CnvReader.xarray_data c)) as [p|];
      [|by injection Hds1 as <-].
    destruct (dict_get SALINITY (CnvReader.xarray_data c)) as [s|];
      [|by injection Hds1 as <-].
    apply bind_Ok in Hds1 as (rho & _ & Hds1).
    apply bind_Ok in Hds1 as (dsr & Hdsr & Hds1).
    apply bind_Ok in Hds1 as (pt & _ & Hds1).
    eapply setitem_data_numeric; [apply Float_not_str | | exact Hds1].
    eapply setitem_data_numeric; [apply Float_not_str | exact H0 | exact Hdsr]. }
  (* the channels are arrays of floats *)
  assert (H2 : data_numeric (xr.variables ds2)).
  { unfold CnvReader.assign_parameters in Hds2.
    eapply (foldM_invariant (fun d => data_numeric (xr.variables d)));
      [| exact H1 | exact Hds2].
    intros d0 key y _ Hx Hy. cbn beta in Hy.
    apply bind_Ok in Hy as (d & _ & Hy).
    apply bind_Ok in Hy as (x1 & Hx1 & Hy).
    apply bind_Ok in Hy as (l & _ & Hy).
    apply bind_Ok in Hy as (u & _ & Hy).
    apply assign_metadata_Ok in Hy as (_ & Hv & Hc).
    eapply data_numeric_ext; [exact Hc | exact Hv |].
    by eapply assign_data_numeric. }
  destruct (assign_metadata_for_all_Ok ds2) as (ds' & H' & _ & Hv & Hc).
  rewrite H in H'. injection H' as <-.
  by eapply data_numeric_ext.
Qed.

(** C4, on the code: [__get_bad_flag] returns the text of the flag, and
    [ds[var] != bad_flag] compares numbers with that text, which is
    true everywhere.  So for every CNV file that declares a bad flag,
    the substitution step returns the assembled dataset as it is:
    no value is replaced by NaN. *)
Theorem cnv_bad_flag_replaces_nothing (cnv : CnvReader.Cnv)
    (mapping : dict string) (ds : xr.Dataset) (bad_flag : string) :
  CnvReader.__get_bad_flag (CnvReader.header cnv) = Some bad_flag →
  CnvReader.assemble cnv mapping = Ok ds →
  CnvReader.replace_bad_flag bad_flag ds = ds
  ∧ CnvReader.build cnv mapping = Ok ds.
Proof.
  intros Hflag Hds.
  assert (Hid : CnvReader.replace_bad_flag bad_flag ds = ds).
  { apply replace_bad_flag_numeric. by eapply assemble_data_numeric. }
  split; [exact Hid|].
  unfold CnvReader.build. rewrite Hds. cbn. by rewrite Hflag, Hid.
Qed.

End cnv_bad_flag.

(** The header declares the bad flag -9999 and the second pressure
    sample is -9999: it is still -9999 in the dataset of the reader. *)
Lemma cnv_bad_flag_replaces_nothing_witness :
  ∃ r ds pressure,
    CnvReader.__get_bad_flag (CnvReader.header Examples.cnv_a) = Some "-9999"
    ∧ (CnvReader.__init__ (P := ctdparams.example) (E := example_externals)
         "a.cnv" Examples.cnv_a None CnvReader.initial_store).2 = Ok r
    ∧ get_data r = Some ds
    ∧ xr.getitem ds "pressure" = Ok pressure
    ∧ xr.values pressure = [Float 1; Float (-9999)]
    ∧ CnvReader.replace_bad_flag "-9999" ds = ds.
Proof.
  pose (m := [("temperature", "t090C"); ("salinity", "sal00");
              ("pressure", "prDM"); ("timeJ", "timeJ")]).
  destruct (CnvReader.assemble (P := ctdparams.example)
              (E := example_externals) Examples.cnv_a m) as [ds|e] eqn:Hds;
    [|by vm_compute in Hds].
  destruct (cnv_bad_flag_replaces_nothing (P := ctdparams.example)
              (E := example_externals) Examples.cnv_a m ds "-9999"
              eq_refl Hds) as [Hid Hbuild].
  assert (Hinit :
    (CnvReader.__init__ (P := ctdparams.example) (E := example_externals)
       "a.cnv" Examples.cnv_a None CnvReader.initial_store).2
    = Ok (mkReader "a.cnv" (Some ds) (Some m))).
  { unfold CnvReader.__init__, CnvReader.__read.
    change (CnvReader.resolve_mapping _ _) with m. cbn.
    by rewrite Hbuild. }
  vm_compute in Hds. injection Hds as <-.
  eexists _, _, _. split; [reflexivity|]. split; [exact Hinit|].
  split; [reflexivity|]. split; [reflexivity|]. split; [reflexivity|].
  exact Hid.
Defined.

(** ** The default mapping of the CNV reader *)

Section cnv_store.
Context {P : Params} {E : Externals}.

Lemma dict_set_get_ne {V : Type} (k k' : string) (v : V) (d : dict V) :
  k ≠ k' → dict_get k' (dict_set k v d) = dict_get k' d.
Proof.
  intros Hne. induction d as [|[k0 v0] d IH]; cbn.
  - by rewrite bool_decide_eq_false_2.
  - case_bool_decide as Hk; cbn; [subst|].
    + by rewrite !bool_decide_eq_false_2.
    + by rewrite IH.
Qed.

(** Resolving the aliases never changes an entry that the mapping
    already has: what an earlier file has put there stays. *)
Lemma resolve_mapping_keeps (channel_names : list string)
    (mapping : dict string) (k : string) :
  k ∈ mapping.*1 →
  dict_get k (CnvReader.resolve_mapping channel_names mapping)
  = dict_get k mapping.
Proof.
  unfold CnvReader.resolve_mapping.
  revert mapping. induction default_mappings as [|[key values] ms IH];
    intros mapping Hk; [done|].
  cbn. destruct (dict_mem key mapping) eqn:Hmem; [by apply IH|].
  destruct (List.find _ values) as [value|]; [|by apply IH].
  rewrite IH.
  - apply dict_set_get_ne. intros ->. apply dict_mem_false in Hmem. done.
  - apply dict_set_mem. by right.
Qed.

(** Constructing a reader without a mapping writes the resolved
    mapping into the one default dictionary. *)
Lemma init_writes_default_mapping (input_file : string)
    (cnv : CnvReader.Cnv) (σ : CnvReader.Store) :
  (CnvReader.__init__ input_file cnv None σ).1 !! CnvReader.default_mapping
  = Some (CnvReader.resolve_mapping (omap id (CnvReader.channels cnv))
            (default [] (σ !! CnvReader.default_mapping))).
Proof.
  unfold CnvReader.__init__, CnvReader.__read.
  cbn [fst default from_option]. apply lookup_insert_eq.
Qed.

End cnv_store.

(** C9, on the code: the file b.cnv has no temperature channel.  Read
    first, it gives a dataset.  Read after a.cnv, whose temperature
    channel is [t090C], it raises [KeyError]: the default mapping is
    one dictionary for all the calls, and the first construction has
    left [temperature -> t090C] in it. *)
Theorem cnv_default_mapping_is_shared :
  let init := CnvReader.__init__ (P := ctdparams.example)
                (E := example_externals) in
  let after_a := init "a.cnv" Examples.cnv_a None CnvReader.initial_store in
  is_ok after_a.2 = true
  ∧ after_a.1 !! CnvReader.default_mapping
    = Some [("temperature", "t090C"); ("salinity", "sal00");
            ("pressure", "prDM"); ("timeJ", "timeJ")]
  ∧ is_ok (init "b.cnv" Examples.cnv_b None CnvReader.initial_store).2 = true
  ∧ (init "b.cnv" Examples.cnv_b None after_a.1).2
    = Raise (KeyError "t090C").
Proof.
  intros init after_a.
  split; [by vm_compute|]. split.
  { unfold after_a, init. rewrite init_writes_default_mapping. reflexivity. }
  split; by vm_compute.
Qed.

(** ** Derived quantities *)


Lemma dict_get_is_Some {V : Type} (k : string) (d : dict V) :
  is_Some (dict_get k d) ↔ k ∈ d.*1.
Proof.
  split.
  - intros [v Hv]. by eapply dict_get_Some_mem.
  - intros Hk. destruct (dict_get k d) eqn:Hg; [eauto|].
    by apply dict_get_None in Hg.
Qed.

Section derived.
Context {P : Params} {E : Externals}.





End derived.



(** ** Malformed timestamps *)

(** *** A change of the index values commutes with the operations that
    do not read them *)


Section index_values.
Variable f : list scalar → list scalar.
Hypothesis f_length : ∀ l, length (f l) = length l.

Lemma names_on_index (ds : xr.Dataset) :
  xr.names (on_index f ds) = xr.names ds.
Proof. unfold xr.names, on_index. cbn. by destruct (xr.variables ds). Qed.









End index_values.



Lemma dict_remove_not_mem {V : Type} (k : string) (d : dict V) :
  k ∉ (xr.dict_remove k d).*1.
Proof.
  induction d as [|[k' v] d IH]; cbn; [apply not_elem_of_nil|].
  case_bool_decide; [done|]. cbn. apply not_elem_of_cons. split; done.
Qed.



Lemma set_cell_keys (k : string) (i : nat) (x : scalar)
    (d : dict (list scalar)) :
  (set_cell k i x d).*1 = d.*1.
Proof.
  unfold set_cell. rewrite <- list_fmap_compose. apply list_fmap_ext.
  intros j [k' v] _. cbn. by case_bool_decide.
Qed.

Section index_values_readers.
Context {P : Params}.
Variable f : list scalar → list scalar.
Hypothesis f_length : ∀ l, length (f l) = length l.

Lemma index_named_on_index (n : string) (ds : xr.Dataset) :
  index_named n ds → index_named n (on_index f ds).
Proof. unfold index_named. by rewrite names_on_index. Qed.




End index_values_readers.







Lemma dict_getitem_get {V : Type} (k : string) (d : dict V) (v : V) :
  dict_getitem k d = Ok v → dict_get k d = Some v.
Proof.
  unfold dict_getitem. destruct (dict_get k d); [|discriminate].
  by intros [= <-].
Qed.

Section tob.
Context {P : Params} {E : Externals}.




End tob.


(** * Further properties of the readers *)

(** ** The registry renaming never fails *)

Section renaming_total.
Context {P : Params}.

Lemma rename_dict_injective (vars : list string) (ms : dict (list string))
    (v1 v2 j : string) :
  NoDup ms.*1 →
  rename_dict vars ms !! v1 = Some j → rename_dict vars ms !! v2 = Some j →
  v1 = v2.
Proof.
  induction ms as [|entry ms IH] using rev_ind; intros Hnd H1 H2.
  - unfold rename_dict in H1. cbn in H1. rewrite lookup_empty in H1. discriminate.
  - rewrite rename_dict_snoc in H1, H2.
    rewrite fmap_app in Hnd. apply NoDup_app in Hnd as (Hnd & Hfresh & _).
    destruct entry as [k aliases]. unfold rename_step in H1, H2.
    destruct (first_alias vars k aliases) as [alias|]; [|by apply IH].
    destruct (ds_vars_lower vars !! lower alias) as [var|]; [|by apply IH].
    assert (Hk : ∀ v, rename_dict vars ms !! v ≠ Some k).
    { intros v Hv. apply rename_dict_Some in Hv as (al & a & Hin & _).
      apply (Hfresh k); [|cbn; left].
      apply list_elem_of_fmap. by exists (k, al). }
    destruct (decide (var = v1)) as [E1|Hn1], (decide (var = v2)) as [E2|Hn2].
    + congruence.
    + subst var. rewrite lookup_insert_eq in H1. injection H1 as <-.
      rewrite lookup_insert_ne in H2 by done. by destruct (Hk v2).
    + subst var. rewrite lookup_insert_eq in H2. injection H2 as <-.
      rewrite lookup_insert_ne in H1 by done. by destruct (Hk v1).
    + rewrite lookup_insert_ne in H1, H2 by done. by apply IH.
Qed.

Lemma rename_dict_names_NoDup (vars : list string) (ms : dict (list string)) :
  NoDup ms.*1 → NoDup vars →
  NoDup (xr.rename_name (rename_dict vars ms) <$> vars).
Proof.
  intros Hms Hvars. apply NoDup_fmap_2_strong; [|done].
  intros x y Hx Hy. unfold xr.rename_name.
  destruct (rename_dict vars ms !! x) as [jx|] eqn:Ex,
           (rename_dict vars ms !! y) as [jy|] eqn:Ey; cbn; intros E.
  - subst jy. by eapply rename_dict_injective.
  - subst jx. apply rename_dict_Some in Ex as (? & ? & _ & _ & _ & Hn). done.
  - subst jy. apply rename_dict_Some in Ey as (? & ? & _ & _ & _ & Hn). done.
  - done.
Qed.

Lemma rename_dict_keys (vars : list string) (ms : dict (list string))
    (var : string) :
  is_Some (rename_dict vars ms !! var) → var ∈ vars.
Proof.
  intros [j Hj]. apply rename_dict_Some in Hj as (? & ? & _ & _ & Hl & _).
  by apply ds_vars_lower_Some in Hl as [? _].
Qed.

Lemma rename_parameters_total (ds : xr.Dataset) :
  NoDup (xr.names ds) → NoDup default_mappings.*1 →
  ∃ ds', _rename_xarray_parameters ds = Ok ds'
         ∧ xr.names ds'
           = xr.rename_name (rename_dict (xr.names ds) default_mappings)
               <$> xr.names ds.
Proof.
  intros Hnames Hkeys. unfold _rename_xarray_parameters, xr.rename.
  set (rd := rename_dict (xr.names ds) default_mappings).
  assert (Hall : forallb (fun k => xr.contains ds k
                                   || bool_decide (k ∈ xr.all_dims ds))
                   (map_to_list rd).*1 = true).
  { apply forallb_forall. intros k Hk. apply list_elem_of_In in Hk.
    apply list_elem_of_fmap in Hk as ([k' j] & -> & Hk).
    apply elem_of_map_to_list in Hk. cbn.
    apply orb_true_iff. left. unfold xr.contains.
    apply bool_decide_eq_true. apply (rename_dict_keys _ default_mappings).
    by exists j. }
  rewrite Hall.
  rewrite rename_vars_complete.
  - cbn. eexists. split; [reflexivity|]. unfold xr.names. cbn.
    rewrite <- !list_fmap_compose. reflexivity.
  - cbn. rewrite <- list_fmap_compose.
    pose proof (rename_dict_names_NoDup (xr.names ds) default_mappings
                  Hkeys Hnames) as Hnd.
    unfold xr.names in Hnd at 2. rewrite <- list_fmap_compose in Hnd.
    exact Hnd.
Qed.

(** On a dataset whose variable names are distinct, and with a registry
    whose keys are distinct, [_rename_xarray_parameters] never raises:
    the names it renames are variables of the dataset, and no two
    variables end up with one name.  The new names are the old ones
    passed through the rename dictionary, in the same order. *)
Theorem rename_parameters_never_raises (ds : xr.Dataset) :
  NoDup (xr.names ds) → NoDup default_mappings.*1 →
  ∃ ds', _rename_xarray_parameters ds = Ok ds'
         ∧ xr.names ds'
           = xr.rename_name (rename_dict (xr.names ds) default_mappings)
               <$> xr.names ds
         ∧ NoDup (xr.names ds')
         ∧ xr.values <$> xr.variables ds' = xr.values <$> xr.variables ds.
Proof.
  intros Hnames Hkeys.
  destruct (rename_parameters_total ds Hnames Hkeys) as (ds' & Hds' & Hn).
  exists ds'. split; [exact Hds'|]. split; [exact Hn|]. split.
  - destruct (rename_parameters_names _ _ Hds') as [_ Hnd]. exact Hnd.
  - exact (proj1 (rename_values _ _ _ Hds')).
Qed.

(** A variable whose name equals, up to case, an alias of the key [k] is
    found by [_rename_xarray_parameters]: when [k] is not yet the name of
    a variable (and no alias is shared by two keys), the renamed dataset
    has a variable named [k]. *)
Theorem alias_is_renamed_to_its_key (ds : xr.Dataset) (k : string)
    (aliases : list string) (alias var : string) :
  NoDup (xr.names ds) → NoDup default_mappings.*1 →
  aliases_disjoint default_mappings →
  (k, aliases) ∈ default_mappings → alias ∈ aliases →
  var ∈ xr.names ds → lower var = lower alias → k ∉ xr.names ds →
  ∃ ds', _rename_xarray_parameters ds = Ok ds'
         ∧ k ∈ xr.names ds' ∧ length (xr.names ds') = length (xr.names ds).
Proof.
  intros Hnames Hkeys Hdis Hin Hal Hvar Hlow Hk.
  destruct (rename_parameters_total ds Hnames Hkeys) as (ds' & Hds' & Hn).
  exists ds'. split; [exact Hds'|]. rewrite Hn. split.
  - destruct (rename_dict_target (xr.names ds) default_mappings k aliases alias)
      as (var' & Hvar' & Hrd); try done.
    { apply ds_vars_lower_is_Some. by exists var. }
    apply list_elem_of_fmap. exists var'. split; [|done].
    unfold xr.rename_name. by rewrite Hrd.
  - by rewrite length_fmap.
Qed.

End renaming_total.

Lemma rename_parameters_never_raises_witness :
  let ds := xr.mkDataset
              [xr.mkDataArray "time" true ["time"] [Datetime 0] ∅;
               xr.mkDataArray "T090C" false ["time"] [Float 8.5] ∅] [] in
  ∃ ds', _rename_xarray_parameters (P := ctdparams.example) ds = Ok ds'
         ∧ xr.names ds' = ["time"; "temperature"].
Proof.
  intros ds.
  destruct (rename_parameters_never_raises (P := ctdparams.example) ds)
    as (ds' & Hds' & Hn & _).
  - unfold ds, xr.names. cbn. apply (bool_decide_unpack _); vm_compute; exact I.
  - exact example_keys_NoDup.
  - exists ds'. split; [exact Hds'|]. rewrite Hn. vm_compute. reflexivity.
Defined.

Lemma alias_is_renamed_to_its_key_witness :
  let ds := xr.mkDataset
              [xr.mkDataArray "time" true ["time"] [Datetime 0] ∅;
               xr.mkDataArray "T090C" false ["time"] [Float 8.5] ∅] [] in
  ∃ ds', _rename_xarray_parameters (P := ctdparams.example) ds = Ok ds'
         ∧ "temperature" ∈ xr.names ds'.
Proof.
  intros ds.
  destruct (alias_is_renamed_to_its_key (P := ctdparams.example) ds
              "temperature" ["t090C"; "tv290C"] "t090C" "T090C")
    as (ds' & Hds' & Hk & _).
  - unfold ds, xr.names. cbn. apply (bool_decide_unpack _); vm_compute; exact I.
  - exact example_keys_NoDup.
  - exact example_aliases_disjoint.
  - cbn. left.
  - left.
  - unfold ds, xr.names. cbn. right. left.
  - vm_compute. reflexivity.
  - unfold ds, xr.names. cbn. apply (bool_decide_unpack _); vm_compute; exact I.
  - exists ds'. split; [exact Hds'|exact Hk].
Defined.

(** ** What the CNV reader needs *)

Section cnv_needs.
Context {P : Params} {E : Externals}.

(** Without a pressure entry in the resolved mapping the CNV reader
    never returns a dataset, also when the file has a depth channel:
    the depth array stays [None], and the dataset template cannot be
    built from it. *)
Theorem cnv_without_pressure_is_refused (cnv : CnvReader.Cnv)
    (mapping0 : dict string) :
  let mapping := (CnvReader.__read cnv mapping0).1 in
  dict_mem PRESSURE mapping = false →
  (∀ ds, (CnvReader.__read cnv mapping0).2 ≠ Ok ds)
  ∧ (∀ c, CnvReader.collect cnv mapping = Ok c →
          CnvReader.depth cnv c = Ok None).
Proof.
  intros mapping HP.
  assert (Hdepth : ∀ c, CnvReader.collect cnv mapping = Ok c →
                        CnvReader.depth cnv c = Ok None).
  { intros c Hc. unfold CnvReader.depth.
    rewrite <- (collect_mem _ _ _ PRESSURE Hc) in HP.
    apply dict_mem_false, dict_get_None in HP. by rewrite HP. }
  split; [|exact Hdepth].
  intros ds H. unfold CnvReader.__read in H. cbn in H.
  unfold CnvReader.build in H. apply bind_Ok in H as (ds0 & H & _).
  unfold CnvReader.assemble in H.
  apply bind_Ok in H as (? & _ & H).
  apply bind_Ok in H as (c & Hc & H).
  apply bind_Ok in H as (offset_datetime & _ & H).
  apply bind_Ok in H as (tc & _ & H).
  apply bind_Ok in H as (d & Hd & H).
  apply bind_Ok in H as (ts & _ & H).
  apply bind_Ok in H as (ds1 & Hds1 & _).
  unfold mapping, CnvReader.__read in Hdepth. cbn in Hdepth.
  rewrite (Hdepth c Hc) in Hd. injection Hd as <-.
  cbn in Hds1. discriminate.
Qed.

(** Without a time channel in the resolved mapping (Julian days,
    seconds since 2000, since 1970 or since the start) and without a
    non-zero scan interval in the header, the CNV reader never returns a
    dataset: no branch assigns the time coordinate. *)
Theorem cnv_without_time_information_is_refused (cnv : CnvReader.Cnv)
    (mapping0 : dict string) :
  let mapping := (CnvReader.__read cnv mapping0).1 in
  dict_mem TIME_J mapping = false →
  dict_mem TIME_Q mapping = false →
  dict_mem TIME_N mapping = false →
  dict_mem TIME_S mapping = false →
  (∀ t, CnvReader.__get_scan_interval_in_seconds (CnvReader.header cnv)
        = Ok (Some t) → PrimFloat.eqb t 0%float = true) →
  (∀ ds, (CnvReader.__read cnv mapping0).2 ≠ Ok ds)
  ∧ (∀ c offset_datetime ts,
       CnvReader.collect cnv mapping = Ok c →
       CnvReader.time_coords cnv c offset_datetime ≠ Ok (Some ts)).
Proof.
  intros mapping HJ HQ HN HS Hint.
  assert (Htime : ∀ c offset_datetime ts,
            CnvReader.collect cnv mapping = Ok c →
            CnvReader.time_coords cnv c offset_datetime ≠ Ok (Some ts)).
  { intros c offset_datetime ts Hc H. unfold CnvReader.time_coords in H.
    rewrite !(collect_mem _ _ _ _ Hc), HJ, HQ, HN, HS in H.
    apply bind_Ok in H as (td & Htd & H).
    destruct td as [t|]; [|discriminate].
    rewrite (Hint t Htd) in H. discriminate. }
  split; [|exact Htime].
  intros ds H. unfold CnvReader.__read in H. cbn in H.
  unfold CnvReader.build in H. apply bind_Ok in H as (ds0 & H & _).
  unfold CnvReader.assemble in H.
  apply bind_Ok in H as (? & _ & H).
  apply bind_Ok in H as (c & Hc & H).
  apply bind_Ok in H as (offset_datetime & _ & H).
  apply bind_Ok in H as (tc & Htc & H).
  apply bind_Ok in H as (d & _ & H).
  apply bind_Ok in H as (ts & Hts & _).
  destruct tc as [ts'|]; [|discriminate].
  unfold mapping, CnvReader.__read in Htime. cbn in Htime.
  exact (Htime c offset_datetime ts' Hc Htc).
Qed.

(** The lookups in the mapping that [__read] resolves: an entry of the
    caller is kept; a registry key that the caller does not give is
    mapped to the first of its aliases, in the order of the registry,
    that is a channel of the file, and is left out when none is; no
    other key is added. *)
Theorem resolve_mapping_lookup (channel_names : list string)
    (mapping : dict string) (k : string) :
  NoDup default_mappings.*1 →
  dict_get k (CnvReader.resolve_mapping channel_names mapping)
  = match dict_get k mapping with
    | Some v => Some v
    | None =>
        aliases ← dict_get k default_mappings;
        List.find (fun value => bool_decide (value ∈ channel_names)) aliases
    end.
Proof.
  unfold CnvReader.resolve_mapping.
  induction default_mappings as [|[key values] ms IH] using rev_ind;
    intros Hnd.
  - cbn. by destruct (dict_get k mapping).
  - rewrite foldl_app. cbn [foldl].
    rewrite fmap_app in Hnd. apply NoDup_app in Hnd as (Hnd & Hfresh & _).
    specialize (IH Hnd).
    set (m := foldl _ mapping ms) in *.
    assert (Hget : dict_get k (ms ++ [(key, values)])
                   = match dict_get k ms with
                     | Some al => Some al
                     | None => if bool_decide (k = key) then Some values
                               else None
                     end).
    { clear. induction ms as [|[k' v'] ms IHms]; cbn.
      - done.
      - by destruct (bool_decide (k = k')). }
    rewrite Hget.
    assert (Hkey : dict_get key ms = None).
    { apply dict_get_None. intros Hin. apply (Hfresh key Hin). cbn. left. }
    destruct (dict_mem key m) eqn:Hmem.
    + rewrite IH. destruct (dict_get k mapping) as [v|] eqn:Ek; [done|].
      destruct (dict_get k ms) as [al|] eqn:Eal; [done|]. cbn.
      case_bool_decide as Hk; [|done]. subst k.
      apply dict_mem_true, dict_get_is_Some in Hmem as [x Hx].
      rewrite IH in Hx. discriminate.
    + apply dict_mem_false, dict_get_None in Hmem.
      destruct (List.find _ values) as [value|] eqn:Efind.
      * destruct (decide (k = key)) as [->|Hne].
        -- rewrite IH in Hmem.
           destruct (dict_get key mapping); [discriminate|].
           rewrite Hkey. cbn. rewrite bool_decide_eq_true_2 by done.
           cbn. rewrite Efind.
           clear. induction m as [|[k' v'] m IHm]; cbn.
           ++ by rewrite bool_decide_eq_true_2.
           ++ case_bool_decide; cbn; [by rewrite bool_decide_eq_true_2|].
              rewrite bool_decide_eq_false_2 by done. exact IHm.
        -- rewrite dict_set_get_ne by done. rewrite IH.
           destruct (dict_get k mapping); [done|].
           destruct (dict_get k ms); [done|]. cbn.
           by rewrite bool_decide_eq_false_2.
      * rewrite IH. destruct (dict_get k mapping) as [v|] eqn:Ek; [done|].
        destruct (dict_get k ms) as [al|] eqn:Eal; [done|]. cbn.
        case_bool_decide as Hk; [|done]. subst k. cbn. by rewrite Efind.
Qed.

End cnv_needs.

Lemma cnv_without_pressure_is_refused_witness :
  (CnvReader.__read (P := ctdparams.example) (E := example_externals)
     Examples.cnv_depth_only []).1
  = [("timeJ", "timeJ"); ("depth", "depSM")]
  ∧ (∀ ds, (CnvReader.__read (P := ctdparams.example)
              (E := example_externals) Examples.cnv_depth_only []).2 ≠ Ok ds).
Proof.
  split; [reflexivity|].
  apply (cnv_without_pressure_is_refused (P := ctdparams.example)
           (E := example_externals) Examples.cnv_depth_only []); reflexivity.
Defined.

Lemma cnv_without_time_information_is_refused_witness :
  (CnvReader.__read (P := ctdparams.example) (E := example_externals)
     Examples.cnv_no_time []).1
  = [("pressure", "prDM")]
  ∧ (∀ ds, (CnvReader.__read (P := ctdparams.example)
              (E := example_externals) Examples.cnv_no_time []).2 ≠ Ok ds).
Proof.
  split; [reflexivity|].
  apply (cnv_without_time_information_is_refused (P := ctdparams.example)
           (E := example_externals) Examples.cnv_no_time []);
    try reflexivity.
  intros t Ht. vm_compute in Ht. discriminate.
Defined.

Lemma resolve_mapping_lookup_witness :
  dict_get "pressure"
    (CnvReader.resolve_mapping (P := ctdparams.example)
       ["prdM"; "timeJ"; "prDM"] [("timeJ", "scan")])
  = Some "prDM"
  ∧ dict_get "timeJ"
      (CnvReader.resolve_mapping (P := ctdparams.example)
         ["prdM"; "timeJ"; "prDM"] [("timeJ", "scan")])
    = Some "scan".
Proof.
  split.
  - rewrite (resolve_mapping_lookup (P := ctdparams.example));
      [reflexivity|exact example_keys_NoDup].
  - rewrite (resolve_mapping_lookup (P := ctdparams.example));
      [reflexivity|exact example_keys_NoDup].
Defined.

(** ** The columns of the CSV reader *)

Lemma dict_set_keys_fresh {V : Type} (k : string) (v : V) (d : dict V) :
  k ∉ d.*1 → (dict_set k v d).*1 = d.*1 ++ [k].
Proof.
  induction d as [|[k' v'] d IH]; cbn; intros H; [done|].
  apply not_elem_of_cons in H as [Hne Hd].
  rewrite bool_decide_eq_false_2 by done. cbn. f_equal. by apply IH.
Qed.

Lemma dict_set_NoDup {V : Type} (k : string) (v : V) (d : dict V) :
  NoDup d.*1 → NoDup (dict_set k v d).*1.
Proof.
  intros Hd. destruct (decide (k ∈ d.*1)) as [Hk|Hk].
  - by rewrite dict_set_keys.
  - rewrite dict_set_keys_fresh by done.
    apply NoDup_app. split; [done|]. split; [|apply NoDup_singleton].
    intros x Hx Hx'. apply list_elem_of_singleton in Hx'. by subst.
Qed.

Lemma dict_get_set_eq {V : Type} (k : string) (v : V) (d : dict V) :
  dict_get k (dict_set k v d) = Some v.
Proof.
  induction d as [|[k' v'] d IH]; cbn.
  - by rewrite bool_decide_eq_true_2.
  - case_bool_decide as Hk; cbn.
    + by rewrite bool_decide_eq_true_2.
    + by rewrite bool_decide_eq_false_2.
Qed.

(** A loop over distinct keys, seen from one of them: [I] holds until
    the turn of [k], [J] from then on. *)
Lemma foldM_at {A B : Type} (f : A → B → result A) (I J : A → Prop)
    (l : list B) (k : B) (a a' : A) :
  NoDup l → k ∈ l →
  (∀ x b y, b ≠ k → I x → f x b = Ok y → I y) →
  (∀ x y, I x → f x k = Ok y → J y) →
  (∀ x b y, b ≠ k → J x → f x b = Ok y → J y) →
  I a → foldM f a l = Ok a' → J a'.
Proof.
  intros Hnd Hk HI Hstep HJ Ha H.
  apply list_elem_of_split in Hk as (l1 & l2 & ->).
  apply NoDup_app in Hnd as (_ & Hl1 & Hl2).
  apply NoDup_cons in Hl2 as [Hl2 _].
  rewrite foldM_app in H. apply bind_Ok in H as (a1 & H1 & H).
  rewrite foldM_cons in H. apply bind_Ok in H as (a2 & H2 & H).
  eapply (foldM_invariant J); [| |exact H].
  - intros x b y Hb. apply HJ. intros ->. done.
  - eapply Hstep; [|exact H2].
    eapply (foldM_invariant I); [| exact Ha |exact H1].
    intros x b y Hb. apply HI. intros ->. apply (Hl1 k Hb). left.
Qed.

Section csv_columns.
Context {P : Params} {E : Externals}.

Lemma columns_of_rows_NoDup (rows : list (dict string)) :
  NoDup (CsvReader.columns_of_rows rows).*1.
Proof.
  unfold CsvReader.columns_of_rows.
  apply (foldl_invariant (fun d : dict (list scalar) => NoDup d.*1));
    [|constructor].
  intros d row _ Hd.
  apply (foldl_invariant (fun d : dict (list scalar) => NoDup d.*1)); [|done].
  intros d' [key value] _ Hd'. by apply dict_set_NoDup.
Qed.

(** The [DictReader] gives text only. *)
Lemma columns_of_rows_text (rows : list (dict string)) :
  Forall (fun kv => Forall (fun x => is_str x = true) kv.2)
    (CsvReader.columns_of_rows rows).
Proof.
  unfold CsvReader.columns_of_rows.
  apply (foldl_invariant
           (fun d : dict (list scalar) =>
              Forall (fun kv => Forall (fun x => is_str x = true) kv.2) d));
    [|constructor].
  intros d row _ Hd.
  apply (foldl_invariant
           (fun d : dict (list scalar) =>
              Forall (fun kv => Forall (fun x => is_str x = true) kv.2) d));
    [|done].
  intros d' [key value] _ Hd'.
  apply (dict_set_Forall (fun col => Forall (fun x => is_str x = true) col));
    [|done].
  apply Forall_app. split; [|by repeat constructor].
  destruct (dict_get key d') as [col|] eqn:Hg; cbn; [|constructor].
  by eapply (dict_get_Forall
               (fun col => Forall (fun x => is_str x = true) col)).
Qed.

(** A file without a [time] column, and so a file without any row, is
    refused with the [KeyError] of the lookup [data[TIME]]: the
    validation before it accepts the columns. *)
Theorem csv_without_time_column (input_file : string)
    (rows : list (dict string)) :
  TIME ≠ "" → DEPTH ≠ "" →
  dict_mem TIME (CsvReader.columns_of_rows rows) = false →
  CsvReader.__init__ input_file rows = Raise (KeyError TIME).
Proof.
  intros HT HD Hmem.
  unfold CsvReader.__init__, CsvReader.__read, CsvReader.convert_columns.
  rewrite validate_never_raises by done. cbn [mbind result_bind].
  rewrite dict_getitem_missing; [done|]. by apply dict_mem_false.
Qed.

(** What the first half of [__read] does to the columns of the file:
    the [time] column is parsed, a column named by a registry key is
    converted to floats, and every other column is kept as the text
    that the file holds. *)
Theorem csv_column_conversion (rows : list (dict string))
    (data : dict (list scalar)) (k : string) (raw : list scalar) :
  CsvReader.convert_columns rows = Ok data →
  dict_get k (CsvReader.columns_of_rows rows) = Some raw →
  ∃ col,
    dict_get k data = Some col
    ∧ length col = length raw
    ∧ (k = TIME → mapM CsvReader.parse_time raw = Ok col)
    ∧ (k ≠ TIME → dict_mem k default_mappings = true →
       mapM CsvReader.to_float raw = Ok col)
    ∧ (k ≠ TIME → dict_mem k default_mappings = false →
       col = raw ∧ Forall (fun x => is_str x = true) col).
Proof.
  intros H Hraw.
  pose proof (columns_of_rows_NoDup rows) as Hnd.
  pose proof (columns_of_rows_text rows) as Htext.
  unfold CsvReader.convert_columns in H.
  apply bind_Ok in H as (checked & _ & H).
  apply bind_Ok in H as (timestamps & Hts & H).
  apply bind_Ok in H as (times & Htimes & H).
  set (d0 := dict_set TIME times (CsvReader.columns_of_rows rows)) in *.
  assert (HT : TIME ∈ (CsvReader.columns_of_rows rows).*1)
    by by eapply dict_getitem_Ok.
  assert (Hd0 : d0.*1 = (CsvReader.columns_of_rows rows).*1)
    by by apply dict_set_keys.
  assert (Hk : k ∈ d0.*1).
  { rewrite Hd0. by eapply dict_get_Some_mem. }
  rewrite <- Hd0 in Hnd.
  destruct (decide (k = TIME)) as [->|Hne].
  - (* the time column *)
    apply dict_getitem_get in Hts. rewrite Hraw in Hts. injection Hts as <-.
    exists times. split.
    + eapply (foldM_invariant
                (fun d : dict (list scalar) => dict_get TIME d = Some times));
        [| |exact H].
      * intros x key y _ Hx Hy. cbn beta in Hy.
        destruct (decide (key = TIME)) as [->|Hkey].
        -- rewrite bool_decide_eq_true_2 in Hy by done. cbn in Hy.
           by injection Hy as <-.
        -- destruct (negb (bool_decide (key = TIME))
                     && dict_mem key default_mappings).
           ++ inv_ok Hy. injection Hy as <-.
              by rewrite dict_set_get_ne.
           ++ by injection Hy as <-.
      * apply dict_get_set_eq.
    + split; [by eapply mapM_Ok_length|]. split; [done|]. split; done.
  - destruct (dict_mem k default_mappings) eqn:Hreg.
    + (* a registry key *)
      assert (HJ : ∃ col, dict_get k data = Some col
                          ∧ mapM CsvReader.to_float raw = Ok col).
      { eapply (foldM_at _
                  (fun d : dict (list scalar) => dict_get k d = Some raw)
                  (fun d : dict (list scalar) =>
                     ∃ col, dict_get k d = Some col
                            ∧ mapM CsvReader.to_float raw = Ok col));
          [exact Hnd | exact Hk | | | | |exact H].
        - intros x key y Hkey Hx Hy. cbn beta in Hy.
          destruct (negb (bool_decide (key = TIME))
                    && dict_mem key default_mappings).
          + inv_ok Hy. injection Hy as <-. by rewrite dict_set_get_ne.
          + by injection Hy as <-.
        - intros x y Hx Hy. cbn beta in Hy.
          rewrite bool_decide_eq_false_2, Hreg in Hy by done. cbn in Hy.
          apply bind_Ok in Hy as (col0 & Hcol0 & Hy).
          apply bind_Ok in Hy as (col & Hcol & Hy). injection Hy as <-.
          apply dict_getitem_get in Hcol0. rewrite Hx in Hcol0.
          injection Hcol0 as <-.
          exists col. split; [apply dict_get_set_eq | done].
        - intros x key y Hkey (col & Hx & Hcol) Hy. cbn beta in Hy.
          exists col. split; [|done].
          destruct (negb (bool_decide (key = TIME))
                    && dict_mem key default_mappings).
          + inv_ok Hy. injection Hy as <-. by rewrite dict_set_get_ne.
          + by injection Hy as <-.
        - unfold d0. rewrite dict_set_get_ne by done. exact Hraw. }
      destruct HJ as (col & Hcol & Hconv). exists col.
      split; [done|]. split; [by eapply mapM_Ok_length|].
      split; [done|]. split; [done|]. intros _ ?. discriminate.
    + (* any other column *)
      exists raw. split.
      * eapply (foldM_invariant
                  (fun d : dict (list scalar) => dict_get k d = Some raw));
          [| |exact H].
        -- intros x key y _ Hx Hy. cbn beta in Hy.
           destruct (decide (key = k)) as [->|Hkey].
           ++ rewrite Hreg, andb_false_r in Hy. by injection Hy as <-.
           ++ destruct (negb (bool_decide (key = TIME))
                        && dict_mem key default_mappings).
              ** inv_ok Hy. injection Hy as <-. by rewrite dict_set_get_ne.
              ** by injection Hy as <-.
        -- unfold d0. rewrite dict_set_get_ne by done. exact Hraw.
      * split; [done|]. split; [done|]. split; [intros _ ?; discriminate|].
        intros _ _. split; [done|].
        by eapply (dict_get_Forall
                     (fun col => Forall (fun x => is_str x = true) col)).
Qed.

End csv_columns.

(** *** One variable of a dataset through assignments to the others *)

Lemma find_var_app (k : string) (l1 l2 : list xr.DataArray) :
  xr.find_var k (l1 ++ l2)
  = match xr.find_var k l1 with
    | Some v => Some v
    | None => xr.find_var k l2
    end.
Proof.
  unfold xr.find_var. induction l1 as [|w l1 IH]; cbn; [done|].
  by case_bool_decide.
Qed.

Lemma find_var_replace_other (k k' : string) (new : xr.DataArray)
    (vs : list xr.DataArray) :
  xr.name new = k' → k ≠ k' →
  xr.find_var k
    ((fun w => if bool_decide (xr.name w = k') then new else w) <$> vs)
  = xr.find_var k vs.
Proof.
  intros Hnew Hne. unfold xr.find_var.
  induction vs as [|w vs IH]; cbn; [done|].
  destruct (decide (xr.name w = k')) as [Hw|Hw].
  - rewrite (bool_decide_eq_true_2 _ Hw).
    rewrite !bool_decide_eq_false_2 by congruence. exact IH.
  - rewrite (bool_decide_eq_false_2 _ Hw).
    case_bool_decide; [done|exact IH].
Qed.

Lemma find_var_replace_self (k : string) (new : xr.DataArray)
    (vs : list xr.DataArray) :
  xr.name new = k → k ∈ xr.name <$> vs →
  xr.find_var k
    ((fun w => if bool_decide (xr.name w = k) then new else w) <$> vs)
  = Some new.
Proof.
  intros Hnew. unfold xr.find_var.
  induction vs as [|w vs IH]; cbn; intros Hk; [by apply elem_of_nil in Hk|].
  destruct (decide (xr.name w = k)) as [Hw|Hw].
  - rewrite (bool_decide_eq_true_2 _ Hw). by rewrite bool_decide_eq_true_2.
  - rewrite (bool_decide_eq_false_2 _ Hw).
    rewrite bool_decide_eq_false_2 by done. apply IH.
    apply elem_of_cons in Hk as [?|?]; [congruence|done].
Qed.

Lemma setitem_find_other (ds ds' : xr.Dataset) (k k' : string)
    (ds_dims : list string) (vals : list scalar) :
  k ≠ k' →
  xr.setitem ds k' ds_dims vals = Ok ds' →
  xr.find_var k (xr.variables ds') = xr.find_var k (xr.variables ds).
Proof.
  intros Hne. unfold xr.setitem. destruct (forallb _ _); [|discriminate].
  intros [= <-]. cbn [xr.variables]. unfold xr.replace_var. cbn [xr.name].
  case_bool_decide as Hk.
  - by apply find_var_replace_other.
  - rewrite find_var_app. destruct (xr.find_var k (xr.variables ds)); [done|].
    unfold xr.find_var. cbn. by rewrite bool_decide_eq_false_2.
Qed.

Lemma setitem_find_self (ds ds' : xr.Dataset) (k : string)
    (ds_dims : list string) (vals : list scalar) :
  xr.setitem ds k ds_dims vals = Ok ds' →
  ∃ v, xr.find_var k (xr.variables ds') = Some v
       ∧ xr.values v = vals ∧ xr.dims v = ds_dims.
Proof.
  unfold xr.setitem. destruct (forallb _ _); [|discriminate].
  intros [= <-]. cbn [xr.variables]. unfold xr.replace_var. cbn [xr.name].
  case_bool_decide as Hk.
  - eexists. split; [by apply find_var_replace_self|]. done.
  - eexists. rewrite find_var_app.
    apply find_var_None in Hk. rewrite Hk.
    unfold xr.find_var. cbn. rewrite bool_decide_eq_true_2 by done. done.
Qed.

Lemma set_attrs_find (ds : xr.Dataset) (k k' : string)
    (a : gmap string string) (v : xr.DataArray) :
  xr.find_var k (xr.variables ds) = Some v →
  ∃ v', xr.find_var k (xr.variables (xr.set_attrs ds k' a)) = Some v'
        ∧ xr.values v' = xr.values v ∧ xr.dims v' = xr.dims v.
Proof.
  unfold xr.set_attrs, xr.find_var. cbn.
  induction (xr.variables ds) as [|w vs IH]; cbn; [discriminate|].
  destruct (decide (xr.name w = k)) as [Hw|Hw].
  - rewrite (bool_decide_eq_true_2 (xr.name w = k) Hw). intros [= <-].
    destruct (decide (xr.name w = k')) as [Hw'|Hw'].
    + rewrite (bool_decide_eq_true_2 _ Hw'). cbn.
      rewrite bool_decide_eq_true_2 by done. eauto.
    + rewrite (bool_decide_eq_false_2 _ Hw').
      rewrite bool_decide_eq_true_2 by done. eauto.
  - rewrite (bool_decide_eq_false_2 (xr.name w = k) Hw). intros H.
    destruct (decide (xr.name w = k')) as [Hw'|Hw'].
    + rewrite (bool_decide_eq_true_2 _ Hw'). cbn.
      rewrite bool_decide_eq_false_2 by done. by apply IH.
    + rewrite (bool_decide_eq_false_2 _ Hw').
      rewrite bool_decide_eq_false_2 by done. by apply IH.
Qed.

Section csv_variables.
Context {P : Params} {E : Externals}.

Lemma assign_metadata_find (ds ds' : xr.Dataset) (k key : string)
    (label unit : option string) (v : xr.DataArray) :
  _assign_metadata_for_key_to_xarray_dataset ds key label unit = Ok ds' →
  xr.find_var k (xr.variables ds) = Some v →
  ∃ v', xr.find_var k (xr.variables ds') = Some v'
        ∧ xr.values v' = xr.values v ∧ xr.dims v' = xr.dims v.
Proof.
  unfold _assign_metadata_for_key_to_xarray_dataset. intros H Hv.
  apply bind_Ok in H as (w & _ & H). injection H as <-.
  by apply set_attrs_find.
Qed.

(** A CSV file that is read gives one variable for every column, along
    the [time] dimension, with the values of the converted column. *)
Theorem csv_columns_become_variables (self : Reader)
    (rows : list (dict string)) (r : Reader) :
  CsvReader.__read self rows = Ok r →
  ∃ data ds,
    CsvReader.convert_columns rows = Ok data
    ∧ get_data r = Some ds
    ∧ ∀ k col, dict_get k data = Some col →
        ∃ v, xr.getitem ds k = Ok v
             ∧ xr.values v = col ∧ xr.dims v = [TIME].
Proof.
  unfold CsvReader.__read. intros H.
  apply bind_Ok in H as (data & Hdata & H).
  apply bind_Ok in H as (ds & Hds & H). injection H as <-.
  exists data, ds. split; [done|]. split; [done|].
  intros k col Hcol.
  assert (Hnd : NoDup data.*1).
  { destruct (convert_columns_keys _ _ Hdata) as [_ ->].
    apply columns_of_rows_NoDup. }
  unfold CsvReader.create_dataset in Hds.
  apply bind_Ok in Hds as (time_array & _ & Hds).
  apply bind_Ok in Hds as (depth_array & _ & Hds).
  apply bind_Ok in Hds as (latitudes & _ & Hds).
  apply bind_Ok in Hds as (latitude & _ & Hds).
  apply bind_Ok in Hds as (longitudes & _ & Hds).
  apply bind_Ok in Hds as (longitude & _ & Hds).
  apply bind_Ok in Hds as (ds0 & _ & Hds).
  cut (∃ v, xr.find_var k (xr.variables ds) = Some v
            ∧ xr.values v = col ∧ xr.dims v = [TIME]).
  { intros (v & Hv & ?). exists v. unfold xr.getitem. by rewrite Hv. }
  eapply (foldM_at _ (fun _ => True)
            (fun ds : xr.Dataset =>
               ∃ v, xr.find_var k (xr.variables ds) = Some v
                    ∧ xr.values v = col ∧ xr.dims v = [TIME]));
    [exact Hnd | by eapply dict_get_Some_mem | | | | exact I | exact Hds].
  - done.
  - intros x y _ Hy. cbn beta in Hy.
    apply bind_Ok in Hy as (col' & Hcol' & Hy).
    apply dict_getitem_get in Hcol'. rewrite Hcol in Hcol'.
    injection Hcol' as <-.
    apply bind_Ok in Hy as (x1 & Hx1 & Hy).
    unfold _assign_data_for_key_to_xarray_dataset in Hx1.
    apply bind_Ok in Hx1 as (x0 & Hx0 & Hx1). injection Hx1 as <-.
    destruct (setitem_find_self _ _ _ _ _ Hx0) as (v0 & Hv0 & Hval0 & Hdim0).
    destruct (set_attrs_find x0 k k ∅ v0 Hv0) as (v1 & Hv1 & Hval1 & Hdim1).
    destruct (assign_metadata_find _ _ k _ _ _ v1 Hy Hv1)
      as (v2 & Hv2 & Hval2 & Hdim2).
    exists v2. split; [done|]. split; congruence.
  - intros x b y Hb (v & Hv & Hval & Hdim) Hy. cbn beta in Hy.
    apply bind_Ok in Hy as (col' & _ & Hy).
    apply bind_Ok in Hy as (x1 & Hx1 & Hy).
    unfold _assign_data_for_key_to_xarray_dataset in Hx1.
    apply bind_Ok in Hx1 as (x0 & Hx0 & Hx1). injection Hx1 as <-.
    assert (Hv0 : xr.find_var k (xr.variables x0) = Some v).
    { rewrite (setitem_find_other _ _ k b _ _ (not_eq_sym Hb) Hx0). exact Hv. }
    destruct (set_attrs_find x0 k b ∅ v Hv0) as (v1 & Hv1 & Hval1 & Hdim1).
    destruct (assign_metadata_find _ _ k _ _ _ v1 Hy Hv1)
      as (v2 & Hv2 & Hval2 & Hdim2).
    exists v2. split; [done|]. split; congruence.
Qed.

End csv_variables.

Lemma csv_without_time_column_witness :
  CsvReader.__init__ (P := ctdparams.example) (E := example_externals)
    "empty.csv" [] = Raise (KeyError "time").
Proof.
  apply (csv_without_time_column (P := ctdparams.example)
           (E := example_externals) "empty.csv" []); [done|done|reflexivity].
Defined.

Lemma csv_column_conversion_witness :
  let rows := [[("time", "2020-01-01 00:00:00.0"); ("depth", "-1.0");
                ("latitude", "54"); ("longitude", "8"); ("station", "A7")]] in
  ∃ data col,
    CsvReader.convert_columns (P := ctdparams.example)
      (E := example_externals) rows = Ok data
    ∧ dict_get "station" data = Some col
    ∧ col = [Str "A7"].
Proof.
  intros rows.
  destruct (CsvReader.convert_columns (P := ctdparams.example)
              (E := example_externals) rows) as [data|e] eqn:Hdata;
    [|vm_compute in Hdata; discriminate].
  destruct (csv_column_conversion (P := ctdparams.example)
              (E := example_externals) rows data "station" [Str "A7"] Hdata)
    as (col & Hcol & _ & _ & _ & Hraw); [reflexivity|].
  exists data, col. split; [reflexivity|]. split; [exact Hcol|].
  apply Hraw; [done|reflexivity].
Defined.

Lemma csv_columns_become_variables_witness :
  let rows := [[("time", "2020-01-01 00:00:00.0"); ("depth", "-1.0");
                ("latitude", "54"); ("longitude", "8"); ("station", "A7")]] in
  ∃ r data ds,
    CsvReader.__read (P := ctdparams.example) (E := example_externals)
      (mkReader "ctd.csv" None None) rows = Ok r
    ∧ CsvReader.convert_columns (P := ctdparams.example)
        (E := example_externals) rows = Ok data
    ∧ get_data r = Some ds
    ∧ ∃ v, xr.getitem ds "station" = Ok v ∧ xr.values v = [Str "A7"].
Proof.
  intros rows.
  destruct (CsvReader.__read (P := ctdparams.example) (E := example_externals)
              (mkReader "ctd.csv" None None) rows) as [r|e] eqn:Hr;
    [|vm_compute in Hr; discriminate].
  destruct (csv_columns_become_variables (P := ctdparams.example)
              (E := example_externals) _ rows r Hr)
    as (data & ds & Hdata & Hds & Hvars).
  exists r, data, ds. split; [reflexivity|]. split; [exact Hdata|].
  split; [exact Hds|].
  destruct (Hvars "station" [Str "A7"]) as (v & Hv & Hval & _).
  - assert (Hd : CsvReader.convert_columns (P := ctdparams.example)
                   (E := example_externals) rows
                 = Ok [("time", [Datetime 0]); ("depth", [Float 0]);
                       ("latitude", [Float 0]); ("longitude", [Float 0]);
                       ("station", [Str "A7"])])
      by (vm_compute; reflexivity).
    rewrite Hd in Hdata. injection Hdata as <-. reflexivity.
  - exists v. split; [exact Hv|exact Hval].
Defined.

(** ** The dataset of a data frame *)

Lemma setitem_fresh (vs : list xr.DataArray) (a : dict scalar) (c d : string)
    (vals : list scalar) (ds : xr.Dataset) :
  c ∉ xr.name <$> vs → c ≠ d →
  xr.setitem (xr.mkDataset vs a) c [d] vals = Ok ds →
  ds = xr.mkDataset (vs ++ [xr.mkDataArray c false [d] vals ∅]) a.
Proof.
  intros Hc Hcd. unfold xr.setitem. destruct (forallb _ _); [|discriminate].
  intros [= <-]. cbn [xr.variables xr.ds_attrs]. f_equal.
  unfold xr.replace_var. cbn [xr.name].
  rewrite bool_decide_eq_false_2 by done.
  apply find_var_None in Hc. rewrite Hc. cbn.
  rewrite bool_decide_eq_false_2; [done|]. intros [= ->]. done.
Qed.

(** A frame whose column names are distinct and differ from the name of
    the index gives the index coordinate followed by one data variable
    for each column, in the order of the columns, all along the index. *)
Lemma from_dataframe_variables (df : xr.DataFrame) (ds : xr.Dataset) :
  default "index" (xr.index_name df) ∉ (xr.columns df).*1 →
  xr.from_dataframe df = Ok ds →
  let d := default "index" (xr.index_name df) in
  xr.variables ds
  = xr.mkDataArray d true [d] (xr.index df) ∅
    :: ((fun '(c, vals) => xr.mkDataArray c false [d] vals ∅)
          <$> xr.columns df).
Proof.
  intros Hidx. unfold xr.from_dataframe.
  case_bool_decide as Hnd; [|discriminate].
  set (d := default "index" (xr.index_name df)) in *.
  cut (∀ cols (vs : list xr.DataArray) (a : dict scalar),
         NoDup cols.*1 → d ∉ cols.*1 →
         (∀ c, c ∈ cols.*1 → c ∉ xr.name <$> vs) →
         foldM (fun ds '(c, vals) => xr.setitem ds c [d] vals)
           (xr.mkDataset vs a) cols = Ok ds →
         xr.variables ds
         = vs ++ ((fun '(c, vals) => xr.mkDataArray c false [d] vals ∅)
                    <$> cols)).
  { intros Hgen H. cbv zeta.
    rewrite (Hgen (xr.columns df)
               [xr.mkDataArray d true [d] (xr.index df) ∅] [] Hnd Hidx);
      [done| |exact H].
    intros c Hc Hc'. cbn in Hc'. apply list_elem_of_singleton in Hc'.
    by subst c. }
  clear. induction cols as [|[c vals] cols IH]; intros vs a Hnd Hd Hfresh H.
  - cbn in H. injection H as <-. cbn. by rewrite app_nil_r.
  - rewrite foldM_cons in H. apply bind_Ok in H as (ds1 & H1 & H).
    cbn in Hnd, Hd. apply NoDup_cons in Hnd as [Hc Hnd].
    apply not_elem_of_cons in Hd as [Hcd Hd].
    apply setitem_fresh in H1; [|apply Hfresh; cbn; left|done].
    subst ds1. apply IH in H; [|done|done|clear IH H].
    + rewrite H. cbn. by rewrite <- app_assoc.
    + intros c' Hc'. rewrite fmap_app. cbn.
      intros [Hin|Hin%list_elem_of_singleton]%elem_of_app.
      * apply (Hfresh c'); [cbn; by right|done].
      * by subst c'.
Qed.

Lemma all_dims_set_attrs (ds : xr.Dataset) (k : string)
    (a : gmap string string) :
  xr.all_dims (xr.set_attrs ds k a) = xr.all_dims ds.
Proof.
  unfold xr.all_dims, xr.set_attrs. cbn.
  induction (xr.variables ds) as [|w vs IH]; [done|].
  cbn. rewrite IH. by case_bool_decide.
Qed.

(** ** The header and the columns of a TOB file *)

Section tob_file.
Context {P : Params} {E : Externals}.

Lemma assign_units_shape (column_names : list string)
    (units : list (option string)) (ds ds' : xr.Dataset) :
  TobReader.assign_units column_names units ds = Ok ds' →
  xr.names ds' = xr.names ds ∧ xr.all_dims ds' = xr.all_dims ds.
Proof.
  unfold TobReader.assign_units. intros H.
  eapply (foldM_invariant
            (fun x : xr.Dataset =>
               xr.names x = xr.names ds ∧ xr.all_dims x = xr.all_dims ds));
    [|done|exact H].
  intros x [index name] y _ [Hn Hd] Hy. cbn beta iota in Hy.
  destruct (xr.contains x name); [|by injection Hy as <-].
  apply bind_Ok in Hy as (u & _ & Hy).
  destruct u as [u'|]; [|by injection Hy as <-].
  destruct (truthy u'); [|by injection Hy as <-].
  unfold xr.setattr in Hy. apply bind_Ok in Hy as (v & _ & Hy).
  injection Hy as <-. by rewrite names_set_attrs, all_dims_set_attrs.
Qed.

(** A TOB file without a line that starts with ["; Datasets"] is
    refused with the [ValueError] of the reader. *)
Theorem tob_without_header_line (self : Reader) (file : TobReader.TobFile) :
  Forall (fun line => startswith "; Datasets" line = false)
    (TobReader.lines file) →
  TobReader.__read self file
  = Raise (ValueError "Line with column names not found in the file.").
Proof.
  intros Hno. unfold TobReader.__read.
  assert (Hh : TobReader.header_line_index (TobReader.lines file) = None).
  { unfold TobReader.header_line_index.
    replace (list_find _ (TobReader.lines file)) with
      (@None (nat * string)); [done|].
    symmetry. apply list_find_None. eapply Forall_impl; [exact Hno|].
    cbn. intros line Hl. by rewrite Hl. }
  by rewrite Hh.
Qed.

(** When the line of the column names is the last line of a TOB file,
    the line of the units is missing: the reader raises [IndexError]. *)
Theorem tob_header_line_is_last (self : Reader) (file : TobReader.TobFile)
    (before : list string) (header_line : string) :
  TobReader.lines file = before ++ [header_line] →
  Forall (fun line => startswith "; Datasets" line = false) before →
  startswith "; Datasets" header_line = true →
  TobReader.__read self file = Raise IndexError.
Proof.
  intros Hlines Hno Hyes. unfold TobReader.__read.
  assert (Hh : TobReader.header_line_index (TobReader.lines file)
               = Some (length before)).
  { unfold TobReader.header_line_index.
    replace (list_find _ (TobReader.lines file)) with
      (Some (length before, header_line)); [done|].
    symmetry. apply list_find_Some. rewrite Hlines.
    split; [by rewrite lookup_app_r, Nat.sub_diag by lia|].
    split; [done|].
    intros j y Hj Hlt. rewrite lookup_app_l in Hj by done.
    rewrite Forall_lookup in Hno. by rewrite (Hno j y Hj). }
  assert (H0 : (before ++ [header_line]) !! length before = Some header_line)
    by by rewrite lookup_app_r, Nat.sub_diag by lia.
  assert (H1 : (before ++ [header_line]) !! (length before + 1) = None).
  { apply lookup_ge_None_2. rewrite length_app. cbn. lia. }
  rewrite Hh. unfold list_getitem. rewrite Hlines, H0. cbn.
  by rewrite H1.
Qed.

(** The TOB reader renames eight columns of the instrument; a file
    whose table lacks one of them is never read. *)
Theorem tob_requires_instrument_columns (self : Reader)
    (file : TobReader.TobFile) (k : string) :
  k ∈ ["SALIN"; "Temp"; "Cond"; "Press"; "SOUND"; "Vbatt"; "SIGMA";
       "Datasets"] →
  k ≠ TIME →
  (∀ skiprows names data,
     TobReader.read_csv file skiprows names TIME = Ok data →
     k ∉ (xr.columns data).*1) →
  ∀ r, TobReader.__read self file ≠ Ok r.
Proof.
  intros Hk HkT Hcols r H. unfold TobReader.__read in H.
  destruct (TobReader.header_line_index (TobReader.lines file)) as [h|];
    [|discriminate].
  apply bind_Ok in H as (header_line & _ & H).
  apply bind_Ok in H as (units_line & _ & H).
  apply bind_Ok in H as (data & Hdata & H).
  apply bind_Ok in H as (df & Hdf & H).
  apply bind_Ok in H as (ds1 & Hds1 & H).
  apply bind_Ok in H as (ds2 & Hds2 & H).
  apply bind_Ok in H as (ds3 & Hds3 & _).
  specialize (Hcols _ _ _ Hdata).
  unfold xr.set_index in Hdf. apply bind_Ok in Hdf as (idx & _ & Hdf).
  injection Hdf as <-.
  apply from_dataframe_variables in Hds1 as Hvs;
    [|apply dict_remove_not_mem].
  cbn in Hvs.
  destruct (assign_units_shape _ _ _ _ Hds2) as [Hn2 Hd2].
  assert (Hkn : k ∉ xr.names ds2).
  { rewrite Hn2. unfold xr.names. rewrite Hvs. cbn.
    apply not_elem_of_cons. split; [done|].
    rewrite <- list_fmap_compose. intros Hin.
    apply list_elem_of_fmap in Hin as ([c vals] & -> & Hin). cbn in *.
    apply Hcols. clear -Hin.
    induction (xr.columns data) as [|[c' v'] cols IH]; cbn in *.
    - by apply elem_of_nil in Hin.
    - case_bool_decide.
      + right. by apply IH.
      + apply elem_of_cons in Hin as [[= -> ->]|Hin]; [left|right; by apply IH]. }
  assert (Hkd : k ∉ xr.all_dims ds2).
  { rewrite Hd2. unfold xr.all_dims. rewrite Hvs. cbn.
    apply not_elem_of_cons. split; [done|].
    intros Hin. apply list_elem_of_bind in Hin as (w & Hw & Hin).
    apply list_elem_of_fmap in Hin as ([c vals] & -> & _). cbn in Hw.
    apply list_elem_of_singleton in Hw. exact (HkT Hw). }
  assert (Hkey : k ∈ (map_to_list TobReader.renames).*1).
  { assert (is_Some (TobReader.renames !! k)) as [x Hx].
    { apply elem_of_cons in Hk as [->|Hk]; [by exists SALINITY|].
      apply elem_of_cons in Hk as [->|Hk]; [by exists TEMPERATURE|].
      apply elem_of_cons in Hk as [->|Hk]; [by exists CONDUCTIVITY|].
      apply elem_of_cons in Hk as [->|Hk]; [by exists PRESSURE|].
      apply elem_of_cons in Hk as [->|Hk]; [by exists SPEED_OF_SOUND|].
      apply elem_of_cons in Hk as [->|Hk];
        [by exists POWER_SUPPLY_INPUT_VOLTAGE|].
      apply elem_of_cons in Hk as [->|Hk]; [by exists "sigma"|].
      apply elem_of_cons in Hk as [->|Hk]; [by exists "sample"|].
      inversion Hk. }
    apply list_elem_of_fmap. exists (k, x). split; [done|].
    by apply elem_of_map_to_list. }
  unfold xr.rename in Hds3. revert Hkey Hds3.
  generalize ((map_to_list TobReader.renames).*1). intros keys Hkey Hds3.
  destruct (forallb _ keys) eqn:Hall; [|discriminate].
  rewrite forallb_forall in Hall.
  apply list_elem_of_In in Hkey. specialize (Hall _ Hkey).
  apply orb_true_iff in Hall as [Hc|Hd].
  - unfold xr.contains in Hc. by apply bool_decide_eq_true in Hc.
  - by apply bool_decide_eq_true in Hd.
Qed.

End tob_file.

(** ** The Nortek reader *)


Section nortek.
Context {P : Params}.


End nortek.


(** *** The header file *)

Lemma read_header_lines_before (lines rest : list string) :
  Forall (fun line => strip line ≠ "Data file format") lines →
  NortekAsciiHeader.read_header_lines false (lines ++ rest)
  = NortekAsciiHeader.read_header_lines false rest.
Proof.
  induction 1 as [|line lines Hl _ IH]; [done|].
  cbn. by rewrite bool_decide_eq_false_2.
Qed.

Lemma read_header_lines_body (body rest : list string) :
  Forall (fun line => strip line ≠ "") body →
  (rest = [] ∨ ∃ blank after, rest = blank :: after ∧ strip blank = "") →
  NortekAsciiHeader.read_header_lines true (body ++ rest)
  = mapM NortekAsciiHeader.parse_header_line
      (filter (fun line => strip line ≠ "Data file format"
                           ∧ startswith "---" line = false
                           ∧ startswith "[" line = false) body).
Proof.
  intros Hbody Hrest. induction Hbody as [|line body Hl _ IH].
  - cbn. destruct Hrest as [->|(blank & after & -> & Hb)]; [done|].
    cbn [NortekAsciiHeader.read_header_lines]. rewrite Hb. reflexivity.
  - cbn [app NortekAsciiHeader.read_header_lines]. rewrite filter_cons.
    case_bool_decide as Hm.
    + rewrite decide_False by (intros [Hx _]; exact (Hx Hm)). exact IH.
    + rewrite (bool_decide_eq_false_2 (strip line = "")) by done.
      unfold truthy. rewrite (bool_decide_eq_false_2 (strip line = "")) by done.
      cbn [negb andb].
      destruct (startswith "---" line) eqn:H1; cbn [negb andb].
      { rewrite decide_False by (intros (_ & Hx & _); discriminate). exact IH. }
      destruct (startswith "[" line) eqn:H2; cbn [negb andb].
      { rewrite decide_False by (intros (_ & _ & Hx); discriminate). exact IH. }
      rewrite decide_True by done. rewrite IH. reflexivity.
Qed.

(** What [__read_header] reads: nothing from a file without the line
    ["Data file format"]; otherwise the lines after the first such line,
    up to the first blank line or to the end of the file, without the
    rules ([---]), the bracketed lines and repetitions of the marker.
    Whatever precedes the marker or follows the blank line is ignored. *)
Theorem nortek_header_section (before body rest : list string)
    (marker : string) :
  Forall (fun line => strip line ≠ "Data file format") before →
  strip marker = "Data file format" →
  Forall (fun line => strip line ≠ "") body →
  (rest = [] ∨ ∃ blank after, rest = blank :: after ∧ strip blank = "") →
  NortekAsciiHeader.__read_header before = Ok []
  ∧ NortekAsciiHeader.__read_header (before ++ marker :: body ++ rest)
    = mapM NortekAsciiHeader.parse_header_line
        (filter (fun line => strip line ≠ "Data file format"
                             ∧ startswith "---" line = false
                             ∧ startswith "[" line = false) body).
Proof.
  intros Hbefore Hmarker Hbody Hrest.
  unfold NortekAsciiHeader.__read_header. split.
  - rewrite <- (app_nil_r before). by rewrite read_header_lines_before.
  - rewrite read_header_lines_before by done.
    cbn [NortekAsciiHeader.read_header_lines].
    rewrite bool_decide_eq_true_2 by done.
    by apply read_header_lines_body.
Qed.

Lemma nortek_header_section_witness :
  NortekAsciiHeader.__read_header Examples.nortek_hdr
  = Ok [("1", "Month", "1-12"); ("2", "Day", "1-31");
        ("3", "Year", "unknown"); ("4", "Hour", "0-23");
        ("5", "Minute", "0-59"); ("6", "Second", "0-59");
        ("7", "Pressure", "dbar")].
Proof.
  destruct (nortek_header_section
              (take 1 Examples.nortek_hdr)
              (take 9 (drop 2 Examples.nortek_hdr))
              (drop 11 Examples.nortek_hdr)
              ("Data file format" ++ Examples.nl)) as [_ H].
  - repeat constructor. vm_compute. discriminate.
  - vm_compute. reflexivity.
  - repeat constructor; vm_compute; discriminate.
  - right. eexists _, _. split; [reflexivity|]. vm_compute. reflexivity.
  - etransitivity; [exact H|]. vm_compute. reflexivity.
Defined.

(** *** The names of the columns *)

Lemma unique_columns_invariant (columns : list string) :
  let st := foldl NortekAsciiHeader.unique_step (∅, []) columns in
  length st.2 = length columns
  ∧ (∀ c, st.1 !! c
          = match length (filter (eq c) columns) with
            | 0 => None
            | S n => Some n
            end)
  ∧ ∀ i col, columns !! i = Some col →
      st.2 !! i
      = Some match length (filter (eq col) (take i columns)) with
             | 0 => col
             | S n => (col ++ "_" ++ pretty (S n))%string
             end.
Proof.
  induction columns as [|c columns IH] using rev_ind.
  - cbn. split; [done|]. split; [intros c; apply lookup_empty|]. done.
  - cbv zeta in *. rewrite foldl_app. cbn [foldl].
    destruct (foldl NortekAsciiHeader.unique_step (∅, []) columns)
      as [seen out] eqn:Est.
    cbn [fst snd] in IH. destruct IH as (Hlen & Hseen & Hout).
    assert (Hnew :
      ∀ (seen' : gmap string nat) (name : string),
        (∀ c', seen' !! c'
               = match length (filter (eq c') (columns ++ [c])) with
                 | 0 => None
                 | S n => Some n
                 end) →
        name = match length (filter (eq c) columns) with
               | 0 => c
               | S n => (c ++ "_" ++ pretty (S n))%string
               end →
        length (out ++ [name]) = length (columns ++ [c])
        ∧ (∀ c', seen' !! c'
                 = match length (filter (eq c') (columns ++ [c])) with
                   | 0 => None
                   | S n => Some n
                   end)
        ∧ ∀ i col, (columns ++ [c]) !! i = Some col →
            (out ++ [name]) !! i
            = Some match length (filter (eq col) (take i (columns ++ [c])))
                   with
                   | 0 => col
                   | S n => (col ++ "_" ++ pretty (S n))%string
                   end).
    { intros seen' name Hseen' ->. split; [by rewrite !length_app, Hlen|].
      split; [exact Hseen'|]. intros i col Hi.
      destruct (decide (i < length columns)) as [Hlt|Hge].
      - rewrite lookup_app_l in Hi by done.
        rewrite lookup_app_l by lia. rewrite take_app_le by lia.
        by apply Hout.
      - apply lookup_lt_Some in Hi as Hi'. rewrite length_app in Hi'.
        cbn in Hi'. assert (i = length columns) as -> by lia.
        rewrite lookup_app_r in Hi by lia. rewrite Nat.sub_diag in Hi.
        injection Hi as <-.
        rewrite lookup_app_r by lia. rewrite Hlen, Nat.sub_diag.
        rewrite take_app_length. reflexivity. }
    unfold NortekAsciiHeader.unique_step. rewrite Hseen.
    assert (Hcount : ∀ c', length (filter (eq c') (columns ++ [c]))
                           = length (filter (eq c') columns)
                             + (if decide (c' = c) then 1 else 0)).
    { intros c'. rewrite filter_app, length_app. f_equal.
      rewrite filter_cons, filter_nil. by destruct (decide (c' = c)). }
    destruct (length (filter (eq c) columns)) as [|n] eqn:Ec; cbn [fst snd].
    + apply Hnew; [|done]. intros c'. rewrite Hcount.
      destruct (decide (c' = c)) as [->|Hne].
      * rewrite lookup_insert_eq, Ec. reflexivity.
      * rewrite lookup_insert_ne by done. rewrite Hseen, Nat.add_0_r. done.
    + apply Hnew; [|done]. intros c'. rewrite Hcount.
      destruct (decide (c' = c)) as [->|Hne].
      * rewrite lookup_insert_eq, Ec. cbn. f_equal. lia.
      * rewrite lookup_insert_ne by done. rewrite Hseen, Nat.add_0_r. done.
Qed.

(** The names that [__parse_data] gives to the columns: the first
    occurrence of a name is kept, and the occurrence that has [n]
    earlier occurrences, [n > 0], becomes [name_n].  The number of
    names is unchanged. *)
Theorem nortek_column_names (columns : list string) :
  length (NortekAsciiHeader.unique_columns columns) = length columns
  ∧ ∀ i col, columns !! i = Some col →
      NortekAsciiHeader.unique_columns columns !! i
      = Some match length (filter (eq col) (take i columns)) with
             | 0 => col
             | S n => (col ++ "_" ++ pretty (S n))%string
             end.
Proof.
  destruct (unique_columns_invariant columns) as (Hlen & _ & Hout).
  split; [exact Hlen|exact Hout].
Qed.

(** ** The RBR ASCII reader *)

Lemma dict_remove_keys {V : Type} (k : string) (d : dict V) :
  (xr.dict_remove k d).*1 = filter (fun c => c ≠ k) d.*1.
Proof.
  induction d as [|[k' v] d IH]; [done|].
  cbn [xr.dict_remove]. rewrite (fmap_cons fst), filter_cons. cbn [fst].
  case_bool_decide as Hk.
  - subst k'. by rewrite decide_False by (intros Hx; by apply Hx).
  - rewrite decide_True by congruence. rewrite fmap_cons. cbn [fst].
    by rewrite IH.
Qed.


Lemma start_data_index_blank_last (before : list string) (blank : string) :
  Forall (fun line => strip line ≠ "") before → strip blank = "" →
  RbrAsciiReader.start_data_index (before ++ [blank]) = length before + 1.
Proof.
  intros Hno Hb. unfold RbrAsciiReader.start_data_index.
  replace (list_find _ (before ++ [blank])) with
    (Some (length before, blank)); [done|].
  symmetry. apply list_find_Some.
  split; [by rewrite lookup_app_r, Nat.sub_diag by lia|].
  split; [done|].
  intros j y Hj Hlt. rewrite lookup_app_l in Hj by done.
  rewrite Forall_lookup in Hno. by apply (Hno j y).
Qed.

Section rbr.
Context {P : Params}.

(** The RBR ASCII reader takes the column names from the line after the
    first blank line.  An empty file, and a file whose first blank line
    is its last line, have no such line: the reader raises
    [IndexError]. *)
Theorem rbr_without_header_line (dat_file_path : string)
    (file : RbrAsciiReader.RbrFile) :
  (RbrAsciiReader.lines file = []
   ∨ ∃ before blank,
       RbrAsciiReader.lines file = before ++ [blank]
       ∧ Forall (fun line => strip line ≠ "") before
       ∧ strip blank = "") →
  RbrAsciiReader.__read dat_file_path file = Raise IndexError.
Proof.
  unfold RbrAsciiReader.__read, RbrAsciiReader.__parse_data.
  intros [Hl|(before & blank & Hl & Hno & Hb)]; rewrite Hl.
  - reflexivity.
  - rewrite start_data_index_blank_last by done.
    unfold list_getitem. rewrite lookup_ge_None_2; [done|].
    rewrite length_app. cbn. lia.
Qed.


End rbr.

(** ** The closing metadata loop and the post-processing pass *)

Lemma set_attrs_find_other (ds : xr.Dataset) (k k' : string)
    (a : gmap string string) :
  k ≠ k' →
  xr.find_var k (xr.variables (xr.set_attrs ds k' a))
  = xr.find_var k (xr.variables ds).
Proof.
  intros Hne. unfold xr.set_attrs, xr.find_var. cbn.
  induction (xr.variables ds) as [|w vs IH]; cbn; [done|].
  destruct (decide (xr.name w = k')) as [Hw|Hw].
  - rewrite (bool_decide_eq_true_2 _ Hw). cbn.
    rewrite !bool_decide_eq_false_2 by congruence. exact IH.
  - rewrite (bool_decide_eq_false_2 _ Hw).
    case_bool_decide; [done|exact IH].
Qed.

(** A loop seen from one of its keys, which may come more than once:
    [I] holds until the first turn of [k], [J] from then on. *)
Lemma foldM_reach {A B : Type} `{EqDecision B} (f : A → B → result A)
    (I J : A → Prop) (l : list B) (k : B) (a a' : A) :
  k ∈ l →
  (∀ x b y, b ≠ k → I x → f x b = Ok y → I y) →
  (∀ x y, I x → f x k = Ok y → J y) →
  (∀ x b y, J x → f x b = Ok y → J y) →
  I a → foldM f a l = Ok a' → J a'.
Proof.
  intros Hk HI Hstep HJ. revert a.
  induction l as [|b l IH]; intros a Ha H; [by apply elem_of_nil in Hk|].
  rewrite foldM_cons in H. apply bind_Ok in H as (a1 & H1 & H).
  destruct (decide (b = k)) as [->|Hb].
  - eapply (foldM_invariant J); [| |exact H].
    + intros x b y _. apply HJ.
    + by eapply Hstep.
  - apply elem_of_cons in Hk as [?|Hk]; [congruence|].
    eapply IH; [done| |exact H]. by eapply HI.
Qed.

Section metadata_loop.
Context {P : Params}.

Lemma assign_metadata_for_all_getitem (ds : xr.Dataset) :
  ∃ ds',
    assign_metadata_for_all ds = Ok ds'
    ∧ xr.names ds' = xr.names ds
    ∧ ∀ k v, xr.getitem ds k = Ok v →
        ∃ v', xr.getitem ds' k = Ok v'
              ∧ xr.values v' = xr.values v ∧ xr.dims v' = xr.dims v
              ∧ xr.coord v' = xr.coord v
              ∧ ∀ a, xr.attrs v' !! a
                     = match xr.attrs v !! a with
                       | Some x => Some x
                       | None => dict_get k metadata ≫= dict_get a
                       end.
Proof.
  destruct (assign_metadata_for_all_Ok ds) as (ds' & Hds' & Hn & _).
  exists ds'. split; [exact Hds'|]. split; [exact Hn|].
  intros k v Hv.
  assert (Hfind : xr.find_var k (xr.variables ds) = Some v).
  { unfold xr.getitem in Hv.
    destruct (xr.find_var k (xr.variables ds)); [congruence|discriminate]. }
  destruct (find_var_Some _ _ _ Hfind) as [Hin Hname].
  unfold assign_metadata_for_all in Hds'.
  assert (Hk : k ∈ xr.data_vars ds ++ xr.coords ds).
  { apply elem_of_app. unfold xr.data_vars, xr.coords.
    destruct (xr.coord v) eqn:Hc; [right|left];
      apply list_elem_of_fmap; exists v; (split; [done|]);
      by apply list_elem_of_filter. }
  cut (∃ v', xr.find_var k (xr.variables ds') = Some v'
             ∧ xr.values v' = xr.values v ∧ xr.dims v' = xr.dims v
             ∧ xr.coord v' = xr.coord v
             ∧ ∀ a, xr.attrs v' !! a
                    = match xr.attrs v !! a with
                      | Some x => Some x
                      | None => dict_get k metadata ≫= dict_get a
                      end).
  { intros (v' & Hv' & ?). exists v'. unfold xr.getitem. by rewrite Hv'. }
  eapply (foldM_reach (B := string) _
            (fun x : xr.Dataset => xr.find_var k (xr.variables x) = Some v)
            (fun x : xr.Dataset =>
               ∃ v', xr.find_var k (xr.variables x) = Some v'
                     ∧ xr.values v' = xr.values v ∧ xr.dims v' = xr.dims v
                     ∧ xr.coord v' = xr.coord v
                     ∧ ∀ a, xr.attrs v' !! a
                            = match xr.attrs v !! a with
                              | Some x => Some x
                              | None => dict_get k metadata ≫= dict_get a
                              end));
    [exact Hk | | | | exact Hfind | exact Hds'].
  - intros x b y Hb Hx Hy. cbn beta in Hy.
    unfold _assign_metadata_for_key_to_xarray_dataset in Hy.
    apply bind_Ok in Hy as (w & _ & Hy). injection Hy as <-.
    rewrite set_attrs_find_other by done. exact Hx.
  - intros x y Hx Hy. cbn beta in Hy.
    unfold _assign_metadata_for_key_to_xarray_dataset in Hy.
    apply bind_Ok in Hy as (w & Hw & Hy). injection Hy as <-.
    unfold xr.getitem in Hw. rewrite Hx in Hw. injection Hw as <-.
    eexists. split; [by apply find_var_set_attrs|]. cbn.
    split; [done|]. split; [done|]. split; [done|]. intros a.
    destruct (dict_get k metadata) as [md|]; cbn.
    + apply fill_defaults_lookup.
    + by destruct (xr.attrs v !! a).
  - intros x b y (v' & Hv' & Hval & Hdim & Hc & Hattrs) Hy. cbn beta in Hy.
    unfold _assign_metadata_for_key_to_xarray_dataset in Hy.
    apply bind_Ok in Hy as (w & Hw & Hy). injection Hy as <-.
    destruct (decide (b = k)) as [->|Hb].
    + unfold xr.getitem in Hw. rewrite Hv' in Hw. injection Hw as <-.
      eexists. split; [by apply find_var_set_attrs|]. cbn.
      split; [done|]. split; [done|]. split; [done|]. intros a.
      destruct (dict_get k metadata) as [md|] eqn:Hmd; cbn.
      * rewrite fill_defaults_lookup, Hattrs. cbn.
        by destruct (xr.attrs v !! a), (dict_get a md).
      * rewrite Hattrs. by destruct (xr.attrs v !! a).
    + exists v'. rewrite set_attrs_find_other by done. done.
Qed.

(** The loop that ends every reader never raises, keeps the names of
    the variables, and for every variable keeps the values, the
    dimensions and the kind; each attribute that the variable had is
    kept, and each attribute that it lacked is filled from the registry
    entry of its name, when there is one. *)
Theorem metadata_loop_fills_defaults (ds : xr.Dataset) :
  ∃ ds',
    assign_metadata_for_all ds = Ok ds'
    ∧ xr.names ds' = xr.names ds
    ∧ ∀ k v, xr.getitem ds k = Ok v →
        ∃ v', xr.getitem ds' k = Ok v'
              ∧ xr.values v' = xr.values v ∧ xr.dims v' = xr.dims v
              ∧ xr.coord v' = xr.coord v
              ∧ ∀ a, xr.attrs v' !! a
                     = match xr.attrs v !! a with
                       | Some x => Some x
                       | None => dict_get k metadata ≫= dict_get a
                       end.
Proof. exact (assign_metadata_for_all_getitem ds). Qed.

(** The generic post-processing pass renames and annotates only: when
    it returns, the dataset has as many variables as before, in the
    same order, each with the values and the kind (coordinate or data
    variable) that it had. *)
Theorem postprocessing_keeps_values (mapping : option (dict string))
    (ds ds' : xr.Dataset) :
  _perform_default_postprocessing mapping ds = Ok ds' →
  length (xr.variables ds') = length (xr.variables ds)
  ∧ ∀ i v, xr.variables ds !! i = Some v →
      ∃ v', xr.variables ds' !! i = Some v'
            ∧ xr.values v' = xr.values v ∧ xr.coord v' = xr.coord v.
Proof.
  intros H. destruct (postprocessing_values _ _ _ H) as [Hv Hc].
  split.
  - by rewrite <- (length_fmap xr.values), Hv, length_fmap.
  - intros i v Hi.
    assert (Hi' : (xr.values <$> xr.variables ds') !! i = Some (xr.values v))
      by by rewrite Hv, list_lookup_fmap, Hi.
    rewrite list_lookup_fmap in Hi'.
    destruct (xr.variables ds' !! i) as [v'|] eqn:Hv'; [|discriminate].
    exists v'. split; [done|]. split; [by injection Hi'|].
    assert (Hci : (xr.coord <$> xr.variables ds') !! i = Some (xr.coord v))
      by by rewrite Hc, list_lookup_fmap, Hi.
    rewrite list_lookup_fmap, Hv' in Hci. by injection Hci.
Qed.

(** The entries of the caller's mapping whose source name is not a
    variable of the dataset are skipped without an error: when no source
    name is a variable, the mapping loop returns the dataset as it
    is. *)
Theorem custom_mapping_skips_absent_sources (m : dict string)
    (ds : xr.Dataset) :
  (∀ source, source ∈ m.*2 → source ∉ xr.names ds) →
  apply_custom_mapping m ds = Ok ds.
Proof. apply apply_custom_mapping_noop. Qed.

End metadata_loop.

Lemma postprocessing_keeps_values_witness :
  let ds :=
    xr.mkDataset
      [xr.mkDataArray "time" true ["time"] [Datetime 0] ∅;
       xr.mkDataArray "T1" false ["time"] [Float 8.5] ∅] [] in
  ∃ ds' v',
    _perform_default_postprocessing (P := ctdparams.example)
      (Some [("temperature", "T1")]) ds = Ok ds'
    ∧ xr.variables ds' !! 1 = Some v'
    ∧ xr.name v' = "temperature" ∧ xr.values v' = [Float 8.5].
Proof.
  intros ds.
  destruct (_perform_default_postprocessing (P := ctdparams.example)
              (Some [("temperature", "T1")]) ds) as [ds'|e] eqn:Hds';
    [|vm_compute in Hds'; discriminate].
  destruct (postprocessing_keeps_values (P := ctdparams.example) _ _ _ Hds')
    as [_ Hvars].
  destruct (Hvars 1 (xr.mkDataArray "T1" false ["time"] [Float 8.5] ∅))
    as (v' & Hv' & Hval & _); [reflexivity|].
  exists ds', v'. split; [reflexivity|]. split; [exact Hv'|].
  split; [|exact Hval].
  assert (Hn : xr.names ds' = ["time"; "temperature"]).
  { assert (Hc : match _perform_default_postprocessing
                         (P := ctdparams.example)
                         (Some [("temperature", "T1")]) ds with
                 | Ok x => xr.names x
                 | Raise _ => []
                 end = ["time"; "temperature"]) by (vm_compute; reflexivity).
    by rewrite Hds' in Hc. }
  assert (Hn1 : xr.names ds' !! 1 = Some (xr.name v')).
  { unfold xr.names. by rewrite list_lookup_fmap, Hv'. }
  rewrite Hn in Hn1. by injection Hn1.
Defined.

Lemma custom_mapping_skips_absent_sources_witness :
  let ds := xr.mkDataset
              [xr.mkDataArray "time" true ["time"] [Datetime 0] ∅] [] in
  apply_custom_mapping [("temperature", "T1")] ds = Ok ds.
Proof.
  intros ds. apply custom_mapping_skips_absent_sources.
  intros source Hs Hin. cbn in Hs, Hin.
  apply list_elem_of_singleton in Hs, Hin. subst source. discriminate.
Defined.

(** ** Examples for the file readers *)

Lemma tob_without_header_line_witness :
  TobReader.__read (P := ctdparams.example) (E := example_externals)
    (mkReader "cast.tob" None (Some []))
    (TobReader.mkTobFile [("; Sea & Sun Technology" ++ Examples.nl)%string]
       (TobReader.read_csv Examples.tob))
  = Raise (ValueError "Line with column names not found in the file.").
Proof.
  apply (tob_without_header_line (P := ctdparams.example)
           (E := example_externals)).
  repeat constructor.
Defined.

Lemma tob_header_line_is_last_witness :
  TobReader.__read (P := ctdparams.example) (E := example_externals)
    (mkReader "cast.tob" None (Some []))
    (TobReader.mkTobFile (take 2 (TobReader.lines Examples.tob))
       (TobReader.read_csv Examples.tob))
  = Raise IndexError.
Proof.
  apply (tob_header_line_is_last (P := ctdparams.example)
           (E := example_externals) _ _
           (take 1 (TobReader.lines Examples.tob))
           ("; Datasets  IntD  IntT  Press  Temp  Cond  SALIN  SOUND  Vbatt  SIGMA"
              ++ Examples.nl)%string).
  - reflexivity.
  - repeat constructor.
  - reflexivity.
Defined.

Lemma tob_requires_instrument_columns_witness :
  (∀ r, TobReader.__read (P := ctdparams.example) (E := example_externals)
          (mkReader "cast.tob" None (Some [])) Examples.tob_without_sigma
        ≠ Ok r)
  ∧ TobReader.__read (P := ctdparams.example) (E := example_externals)
      (mkReader "cast.tob" None (Some [])) Examples.tob_without_sigma
    = Raise (ValueError "cannot rename: not a variable or dimension").
Proof.
  split; [|vm_compute; reflexivity].
  apply (tob_requires_instrument_columns (P := ctdparams.example)
           (E := example_externals) _ _ "SIGMA").
  - repeat first [left | right].
  - discriminate.
  - intros skiprows names data [= <-]. cbn.
    apply (bool_decide_unpack _). vm_compute. exact I.
Defined.

Lemma rbr_without_header_line_witness :
  RbrAsciiReader.__read (P := ctdparams.example) "cast.dat"
    (RbrAsciiReader.mkRbrFile
       (take 3 (RbrAsciiReader.lines Examples.rbr))
       (RbrAsciiReader.read_csv Examples.rbr)
       (RbrAsciiReader.to_datetime Examples.rbr))
  = Raise IndexError.
Proof.
  apply (rbr_without_header_line (P := ctdparams.example)).
  right. exists (take 2 (RbrAsciiReader.lines Examples.rbr)), Examples.nl.
  split; [reflexivity|]. split; [|reflexivity].
  repeat constructor; vm_compute; discriminate.
Defined.


(** ** The channels of a CNV file *)

Section cnv_channels.
Context {P : Params} {E : Externals}.

(** What the first loop of [__read] collects for the key [k] of the
    mapping: the data, the label and the unit of its channel. *)
Lemma collect_lookup (cnv : CnvReader.Cnv) (mapping : dict string)
    (c : CnvReader.Collected) (k ch : string) :
  NoDup mapping.*1 → dict_get k mapping = Some ch →
  CnvReader.collect cnv mapping = Ok c →
  ∃ d l u,
    dict_get ch (CnvReader.cnv_data cnv) = Some d
    ∧ dict_get ch (CnvReader.cnv_names cnv) = Some l
    ∧ dict_get ch (CnvReader.cnv_units cnv) = Some u
    ∧ dict_get k (CnvReader.xarray_data c) = Some d
    ∧ dict_get k (CnvReader.xarray_labels c) = Some l
    ∧ dict_get k (CnvReader.xarray_units c) = Some u.
Proof.
  unfold CnvReader.collect. generalize (CnvReader.mkCollected [] [] [] None).
  induction mapping as [|[k0 v0] mapping IH]; intros c0 Hnd Hk H;
    [discriminate|].
  cbn in Hnd. apply NoDup_cons in Hnd as [Hk0 Hnd].
  rewrite foldM_cons in H. apply bind_Ok in H as (c1 & Hc1 & H).
  cbn in Hk. case_bool_decide as Hkk.
  - subst k0. injection Hk as <-.
    apply bind_Ok in Hc1 as (d & Hd & Hc1).
    apply bind_Ok in Hc1 as (l & Hl & Hc1).
    apply bind_Ok in Hc1 as (u & Hu & Hc1). injection Hc1 as <-.
    apply dict_getitem_get in Hd, Hl, Hu.
    exists d, l, u. split; [done|]. split; [done|]. split; [done|].
    eapply (foldM_invariant
              (fun c : CnvReader.Collected =>
                 dict_get k (CnvReader.xarray_data c) = Some d
                 ∧ dict_get k (CnvReader.xarray_labels c) = Some l
                 ∧ dict_get k (CnvReader.xarray_units c) = Some u));
      [| |exact H].
    + intros x [k' v'] y Hin (Hx1 & Hx2 & Hx3) Hy. cbn beta iota in Hy.
      assert (Hne : k' ≠ k).
      { intros ->. apply Hk0. by apply (list_elem_of_fmap_2 fst) in Hin. }
      apply bind_Ok in Hy as (d' & _ & Hy).
      apply bind_Ok in Hy as (l' & _ & Hy).
      apply bind_Ok in Hy as (u' & _ & Hy). injection Hy as <-. cbn.
      by rewrite !dict_set_get_ne.
    + cbn. by rewrite !dict_get_set_eq.
  - by eapply IH.
Qed.

(** Every entry of the resolved mapping gives a variable of the CNV
    dataset: the variable named by the key holds the samples of the
    mapped channel along the time dimension, its [units] attribute is
    the unit of the channel, and its [long_name] is the label of the
    channel without the bracketed unit. *)
Theorem cnv_channels_become_variables (cnv : CnvReader.Cnv)
    (mapping : dict string) (ds : xr.Dataset) (k ch : string) :
  NoDup mapping.*1 → dict_get k mapping = Some ch →
  CnvReader.build cnv mapping = Ok ds →
  ∃ v d l u,
    xr.getitem ds k = Ok v
    ∧ dict_get ch (CnvReader.cnv_data cnv) = Some d
    ∧ dict_get ch (CnvReader.cnv_names cnv) = Some l
    ∧ dict_get ch (CnvReader.cnv_units cnv) = Some u
    ∧ xr.values v = Float <$> d ∧ xr.dims v = [TIME]
    ∧ (u ≠ "" → xr.attrs v !! "units" = Some u)
    ∧ (l ≠ "" → xr.attrs v !! "long_name" = Some (stored_label l (Some u))).
Proof.
  intros Hnd Hk H. unfold CnvReader.build in H.
  apply bind_Ok in H as (ds0 & H0 & H).
  assert (ds = ds0) as ->.
  { injection H as <-. destruct (CnvReader.__get_bad_flag _); [|done].
    apply replace_bad_flag_numeric. by eapply assemble_data_numeric. }
  clear H. unfold CnvReader.assemble in H0.
  apply bind_Ok in H0 as (checked & _ & H0).
  apply bind_Ok in H0 as (c & Hc & H0).
  apply bind_Ok in H0 as (offset_datetime & _ & H0).
  apply bind_Ok in H0 as (tc & _ & H0).
  apply bind_Ok in H0 as (depth & _ & H0).
  apply bind_Ok in H0 as (ts & _ & H0).
  apply bind_Ok in H0 as (ds1 & _ & H0).
  apply bind_Ok in H0 as (ds2 & _ & H0).
  apply bind_Ok in H0 as (ds3 & Hds3 & H0).
  destruct (collect_lookup _ _ _ _ _ Hnd Hk Hc)
    as (d & l & u & Hd & Hl & Hu & Hxd & Hxl & Hxu).
  assert (H3 : ∃ v, xr.find_var k (xr.variables ds3) = Some v
                    ∧ xr.values v = Float <$> d ∧ xr.dims v = [TIME]
                    ∧ (u ≠ "" → xr.attrs v !! "units" = Some u)
                    ∧ (l ≠ "" → xr.attrs v !! "long_name"
                                = Some (stored_label l (Some u)))).
  { unfold CnvReader.assign_parameters in Hds3.
    eapply (foldM_reach (B := string) _ (fun _ => True)
              (fun x : xr.Dataset =>
                 ∃ v, xr.find_var k (xr.variables x) = Some v
                      ∧ xr.values v = Float <$> d ∧ xr.dims v = [TIME]
                      ∧ (u ≠ "" → xr.attrs v !! "units" = Some u)
                      ∧ (l ≠ "" → xr.attrs v !! "long_name"
                                  = Some (stored_label l (Some u)))));
      [exact (dict_get_Some_mem _ _ _ Hk) | | | | exact I | exact Hds3].
    - done.
    - intros x y _ Hy. cbn beta in Hy.
      apply bind_Ok in Hy as (d' & Hd' & Hy).
      apply dict_getitem_get in Hd'. rewrite Hxd in Hd'. injection Hd' as <-.
      apply bind_Ok in Hy as (x1 & Hx1 & Hy).
      apply bind_Ok in Hy as (l' & Hl' & Hy).
      apply dict_getitem_get in Hl'. rewrite Hxl in Hl'. injection Hl' as <-.
      apply bind_Ok in Hy as (u' & Hu' & Hy).
      apply dict_getitem_get in Hu'. rewrite Hxu in Hu'. injection Hu' as <-.
      unfold _assign_data_for_key_to_xarray_dataset in Hx1.
      apply bind_Ok in Hx1 as (x0 & Hx0 & Hx1). injection Hx1 as <-.
      destruct (setitem_find_self _ _ _ _ _ Hx0) as (v0 & Hv0 & Hval0 & Hdim0).
      pose proof (find_var_set_attrs x0 k ∅ v0 Hv0) as Hv1.
      unfold _assign_metadata_for_key_to_xarray_dataset in Hy.
      apply bind_Ok in Hy as (w & Hw & Hy). injection Hy as <-.
      unfold xr.getitem in Hw. rewrite Hv1 in Hw. injection Hw as <-.
      eexists. split; [by apply find_var_set_attrs|].
      cbn [xr.values xr.dims xr.attrs].
      split; [done|]. split; [done|]. unfold truthy. split.
      + intros Hne. rewrite (bool_decide_eq_false_2 (u = "")) by done.
        cbn [negb]. destruct (negb (bool_decide (l = ""))).
        * rewrite lookup_insert_ne by done. apply lookup_insert_eq.
        * apply lookup_insert_eq.
      + intros Hne. rewrite (bool_decide_eq_false_2 (l = "")) by done.
        cbn [negb]. apply lookup_insert_eq.
    - intros x b y (v & Hv & Hval & Hdim & Hunits & Hlabel) Hy.
      cbn beta in Hy.
      destruct (decide (b = k)) as [->|Hb].
      + apply bind_Ok in Hy as (d' & Hd' & Hy).
        apply dict_getitem_get in Hd'. rewrite Hxd in Hd'.
        injection Hd' as <-.
        apply bind_Ok in Hy as (x1 & Hx1 & Hy).
        apply bind_Ok in Hy as (l' & Hl' & Hy).
        apply dict_getitem_get in Hl'. rewrite Hxl in Hl'.
        injection Hl' as <-.
        apply bind_Ok in Hy as (u' & Hu' & Hy).
        apply dict_getitem_get in Hu'. rewrite Hxu in Hu'.
        injection Hu' as <-.
        unfold _assign_data_for_key_to_xarray_dataset in Hx1.
        apply bind_Ok in Hx1 as (x0 & Hx0 & Hx1). injection Hx1 as <-.
        destruct (setitem_find_self _ _ _ _ _ Hx0)
          as (v0 & Hv0 & Hval0 & Hdim0).
        pose proof (find_var_set_attrs x0 k ∅ v0 Hv0) as Hv1.
        unfold _assign_metadata_for_key_to_xarray_dataset in Hy.
        apply bind_Ok in Hy as (w & Hw & Hy). injection Hy as <-.
        unfold xr.getitem in Hw. rewrite Hv1 in Hw. injection Hw as <-.
        eexists. split; [by apply find_var_set_attrs|].
        cbn [xr.values xr.dims xr.attrs].
        split; [done|]. split; [done|]. unfold truthy. split.
        * intros Hne. rewrite (bool_decide_eq_false_2 (u = "")) by done.
          cbn [negb]. destruct (negb (bool_decide (l = ""))).
          -- rewrite lookup_insert_ne by done. apply lookup_insert_eq.
          -- apply lookup_insert_eq.
        * intros Hne. rewrite (bool_decide_eq_false_2 (l = "")) by done.
          cbn [negb]. apply lookup_insert_eq.
      + apply bind_Ok in Hy as (d' & _ & Hy).
        apply bind_Ok in Hy as (x1 & Hx1 & Hy).
        apply bind_Ok in Hy as (l' & _ & Hy).
        apply bind_Ok in Hy as (u' & _ & Hy).
        unfold _assign_data_for_key_to_xarray_dataset in Hx1.
        apply bind_Ok in Hx1 as (x0 & Hx0 & Hx1). injection Hx1 as <-.
        unfold _assign_metadata_for_key_to_xarray_dataset in Hy.
        apply bind_Ok in Hy as (w & _ & Hy). injection Hy as <-.
        exists v. split; [|done].
        rewrite !set_attrs_find_other by done.
        by rewrite (setitem_find_other _ _ k b _ _ (not_eq_sym Hb) Hx0). }
  destruct H3 as (v & Hv & Hval & Hdim & Hunits & Hlabel).
  destruct (assign_metadata_for_all_getitem ds3) as (ds' & Hds' & _ & Hall).
  rewrite Hds' in H0. injection H0 as <-.
  destruct (Hall k v) as (v' & Hv' & Hval' & Hdim' & _ & Hattrs).
  { unfold xr.getitem. by rewrite Hv. }
  exists v', d, l, u. split; [done|]. split; [done|]. split; [done|].
  split; [done|]. split; [congruence|]. split; [congruence|]. split.
  - intros Hne. by rewrite Hattrs, (Hunits Hne).
  - intros Hne. by rewrite Hattrs, (Hlabel Hne).
Qed.

End cnv_channels.

Lemma cnv_channels_become_variables_witness :
  ∃ ds v,
    CnvReader.build (P := ctdparams.example) (E := example_externals)
      Examples.cnv_b [("pressure", "prDM"); ("timeJ", "timeJ")] = Ok ds
    ∧ xr.getitem ds "pressure" = Ok v
    ∧ xr.values v = [Float 1; Float 2]
    ∧ xr.attrs v !! "units" = Some "db"
    ∧ xr.attrs v !! "long_name" = Some "Pressure, Digiquartz".
Proof.
  destruct (CnvReader.build (P := ctdparams.example) (E := example_externals)
              Examples.cnv_b [("pressure", "prDM"); ("timeJ", "timeJ")])
    as [ds|e] eqn:Hds; [|vm_compute in Hds; discriminate].
  destruct (cnv_channels_become_variables (P := ctdparams.example)
              (E := example_externals) Examples.cnv_b
              [("pressure", "prDM"); ("timeJ", "timeJ")] ds
              "pressure" "prDM")
    as (v & d & l & u & Hv & Hd & Hl & Hu & Hval & _ & Hunits & Hlabel).
  - apply (bool_decide_unpack _). vm_compute. exact I.
  - reflexivity.
  - exact Hds.
  - cbn in Hd, Hl, Hu. injection Hd as <-. injection Hl as <-.
    injection Hu as <-.
    exists ds, v. split; [reflexivity|]. split; [exact Hv|].
    split; [exact Hval|]. split; [by apply Hunits|].
    rewrite Hlabel by done. vm_compute. reflexivity.
Defined.

(** ** The channels of an RBR legacy file *)






Section rsk_channels.
Context {P : Params}.




End rsk_channels.

(** ** The units of the Nortek reader *)

Lemma setattr_lookup (ds ds' : xr.Dataset) (k a x : string) :
  xr.setattr ds k a x = Ok ds' →
  ∃ v, xr.find_var k (xr.variables ds') = Some v
       ∧ xr.attrs v !! a = Some x.
Proof.
  unfold xr.setattr, xr.getitem. intros H.
  destruct (xr.find_var k (xr.variables ds)) as [v|] eqn:Hv; [|discriminate].
  injection H as <-. eexists. split; [by apply find_var_set_attrs|].
  cbn. apply lookup_insert_eq.
Qed.

Lemma setattr_find_other (ds ds' : xr.Dataset) (k k' a x : string) :
  k ≠ k' →
  xr.setattr ds k' a x = Ok ds' →
  xr.find_var k (xr.variables ds') = xr.find_var k (xr.variables ds).
Proof.
  intros Hne. unfold xr.setattr. intros H.
  apply bind_Ok in H as (v & _ & H). injection H as <-.
  by apply set_attrs_find_other.
Qed.

Section nortek_units.
Context {P : Params}.

Lemma rename_columns_keys (cols : dict (list scalar)) :
  (NortekAsciiReader.rename_columns cols).*1
  = (fun c => default c (dict_get c rename_list)) <$> cols.*1.
Proof.
  unfold NortekAsciiReader.rename_columns.
  rewrite <- !list_fmap_compose. apply list_fmap_ext. by intros i [c vals] _.
Qed.

(** The loop over the headers, from the dataset of the frame. *)
Lemma nortek_read_Ok (dat_file_path : string)
    (headers : list (string * string * string)) (df : xr.DataFrame)
    (r : Reader) :
  NortekAsciiReader.__read dat_file_path headers df = Ok r →
  ∃ df' ds1 ds2 ds,
    xr.from_dataframe df' = Ok ds1
    ∧ xr.index_name df' = Some "time"
    ∧ (xr.columns df').*1
      = (fun c => default c (dict_get c rename_list))
          <$> filter (fun c => c ≠ "time") (xr.columns df).*1
    ∧ foldM (fun ds '(_, variable, unit) =>
               let variable :=
                 default variable (dict_get variable rename_list) in
               xr.setattr ds variable "unit" unit) ds1 headers = Ok ds2
    ∧ assign_metadata_for_all ds2 = Ok ds
    ∧ get_data r = Some ds.
Proof.
  unfold NortekAsciiReader.__read, NortekAsciiReader.__create_xarray_dataset.
  intros H. apply bind_Ok in H as (ds & H & Hr). injection Hr as <-.
  apply bind_Ok in H as (ys & _ & H).
  apply bind_Ok in H as (ms & _ & H).
  apply bind_Ok in H as (days & _ & H).
  apply bind_Ok in H as (hs & _ & H).
  apply bind_Ok in H as (mis & _ & H).
  apply bind_Ok in H as (ss & _ & H).
  apply bind_Ok in H as (times & _ & H).
  apply bind_Ok in H as (df1 & Hdf1 & H).
  apply bind_Ok in H as (ds1 & Hds1 & H).
  apply bind_Ok in H as (ds2 & Hds2 & H).
  unfold xr.set_index in Hdf1. apply bind_Ok in Hdf1 as (idx & _ & Hdf1).
  injection Hdf1 as <-. cbn [xr.index_name xr.index xr.columns] in *.
  eexists _, ds1, ds2, ds. split; [exact Hds1|]. split; [reflexivity|].
  split; [|done].
  cbn [xr.columns]. rewrite rename_columns_keys. f_equal.
  rewrite dict_remove_keys.
  destruct (decide ("time" ∈ (xr.columns df).*1)) as [Hin|Hin].
  - by rewrite dict_set_keys.
  - rewrite dict_set_keys_fresh by done.
    rewrite filter_app, filter_cons, filter_nil.
    rewrite decide_False by (intros Hx; by apply Hx).
    by rewrite app_nil_r.
Qed.

(** The Nortek reader stores the unit of a header line in the attribute
    [unit] of the variable that the line names, after [rename_list]:
    when the file is read, the variable has the unit of the last header
    line with its name. *)
Theorem nortek_units_are_attributes (dat_file_path : string)
    (headers before after : list (string * string * string))
    (number variable unit : string) (df : xr.DataFrame) (r : Reader) :
  headers = before ++ (number, variable, unit) :: after →
  Forall (fun '(_, variable', _) =>
            default variable' (dict_get variable' rename_list)
            ≠ default variable (dict_get variable rename_list)) after →
  NortekAsciiReader.__read dat_file_path headers df = Ok r →
  ∃ ds v,
    get_data r = Some ds
    ∧ xr.getitem ds (default variable (dict_get variable rename_list)) = Ok v
    ∧ xr.attrs v !! "unit" = Some unit.
Proof.
  intros -> Hafter H.
  apply nortek_read_Ok in H
    as (df' & ds1 & ds2 & ds & _ & _ & _ & Hds2 & Hds & Hr).
  set (k := default variable (dict_get variable rename_list)) in *.
  rewrite foldM_app in Hds2. apply bind_Ok in Hds2 as (dsb & _ & Hds2).
  rewrite foldM_cons in Hds2. apply bind_Ok in Hds2 as (dsc & Hdsc & Hds2).
  cbn beta iota zeta in Hdsc. fold k in Hdsc.
  assert (H2 : ∃ v, xr.find_var k (xr.variables ds2) = Some v
                    ∧ xr.attrs v !! "unit" = Some unit).
  { eapply (foldM_invariant
              (fun d : xr.Dataset =>
                 ∃ v, xr.find_var k (xr.variables d) = Some v
                      ∧ xr.attrs v !! "unit" = Some unit));
      [| |exact Hds2].
    - intros x [[n' variable'] unit'] y Hin (v & Hv & Hu) Hy.
      cbn beta iota zeta in Hy.
      rewrite Forall_forall in Hafter. specialize (Hafter _ Hin).
      cbn in Hafter. exists v. split; [|done].
      by rewrite (setattr_find_other _ _ k _ _ _ (not_eq_sym Hafter) Hy).
    - by eapply setattr_lookup. }
  destruct H2 as (v & Hv & Hu).
  destruct (assign_metadata_for_all_getitem ds2) as (ds' & Hds' & _ & Hall).
  rewrite Hds in Hds'. injection Hds' as <-.
  destruct (Hall k v) as (v' & Hv' & _ & _ & _ & Hattrs).
  { unfold xr.getitem. by rewrite Hv. }
  exists ds, v'. split; [done|]. split; [done|]. by rewrite Hattrs, Hu.
Qed.


End nortek_units.

Lemma nortek_units_are_attributes_witness :
  ∃ r ds v,
    NortekAsciiReader.__read (P := ctdparams.example) "cast.dat"
      Examples.nortek_headers Examples.nortek_frame_valid = Ok r
    ∧ get_data r = Some ds
    ∧ xr.getitem ds "pressure" = Ok v
    ∧ xr.attrs v !! "unit" = Some "dbar"
    ∧ xr.attrs v !! "units" = Some "dbar".
Proof.
  destruct (NortekAsciiReader.__read (P := ctdparams.example) "cast.dat"
              Examples.nortek_headers Examples.nortek_frame_valid)
    as [r|e] eqn:Hr; [|vm_compute in Hr; discriminate].
  destruct (nortek_units_are_attributes (P := ctdparams.example) "cast.dat"
              Examples.nortek_headers (take 6 Examples.nortek_headers) []
              "7" "Pressure" "dbar" Examples.nortek_frame_valid r)
    as (ds & v & Hds & Hv & Hu); [reflexivity|constructor|exact Hr|].
  change (xr.getitem ds "pressure" = Ok v) in Hv.
  exists r, ds, v. split; [reflexivity|]. split; [exact Hds|].
  split; [exact Hv|]. split; [exact Hu|].
  assert (Hc : match NortekAsciiReader.__read (P := ctdparams.example)
                       "cast.dat" Examples.nortek_headers
                       Examples.nortek_frame_valid with
               | Ok r' =>
                   match get_data r' with
                   | Some ds' =>
                       match xr.getitem ds' "pressure" with
                       | Ok v' => xr.attrs v' !! "units"
                       | Raise _ => None
                       end
                   | None => None
                   end
               | Raise _ => None
               end = Some "dbar") by (vm_compute; reflexivity).
  rewrite Hr, Hds, Hv in Hc. exact Hc.
Defined.


(** ** The header parser of the Nortek reader never fails *)

Lemma chars_rev_app (s1 s2 : string) :
  list_ascii_of_string (String.rev_app s1 s2)
  = rev (list_ascii_of_string s1) ++ list_ascii_of_string s2.
Proof.
  revert s2. induction s1 as [|a s1 IH]; intros s2; [done|].
  cbn. rewrite IH. cbn. by rewrite <- app_assoc.
Qed.

Lemma chars_rev (s : string) :
  list_ascii_of_string (String.rev s) = rev (list_ascii_of_string s).
Proof. unfold String.rev. by rewrite chars_rev_app, app_nil_r. Qed.

Lemma chars_app (s1 s2 : string) :
  list_ascii_of_string (s1 ++ s2)%string
  = list_ascii_of_string s1 ++ list_ascii_of_string s2.
Proof. induction s1 as [|a s1 IH]; [done|]. simpl. f_equal. exact IH. Qed.

Lemma nonspace_rev (s : string) :
  Exists (fun a => isspace a = false) (list_ascii_of_string s) →
  Exists (fun a => isspace a = false) (list_ascii_of_string (String.rev s)).
Proof.
  rewrite chars_rev, !Exists_exists. intros (a & Ha & Hs).
  exists a. split; [|done].
  apply list_elem_of_In, in_rev. rewrite rev_involutive.
  by apply list_elem_of_In.
Qed.

Lemma lstrip_nonspace (s : string) :
  lstrip s ≠ "" →
  Exists (fun a => isspace a = false) (list_ascii_of_string (lstrip s)).
Proof.
  induction s as [|a s IH]; cbn; [done|].
  destruct (isspace a) eqn:Ha; [exact IH|].
  intros _. cbn. by apply Exists_cons_hd.
Qed.

Lemma strip_nonspace (s : string) :
  strip s ≠ "" →
  Exists (fun a => isspace a = false) (list_ascii_of_string (strip s)).
Proof.
  unfold strip, rstrip. intros H. apply nonspace_rev, lstrip_nonspace.
  intros Ht. by rewrite Ht in H.
Qed.

Lemma split_go_acc (acc s : string) : acc ≠ "" → split_go acc s ≠ [].
Proof.
  revert acc. induction s as [|a s IH]; intros acc Hacc; cbn.
  - by destruct acc.
  - destruct (isspace a); [by destruct acc|]. by apply IH.
Qed.

Lemma split_go_nonspace (acc s : string) :
  Exists (fun a => isspace a = false) (list_ascii_of_string s) →
  split_go acc s ≠ [].
Proof.
  revert acc. induction s as [|a s IH]; intros acc H; cbn in *.
  - by apply Exists_nil in H.
  - destruct (isspace a) eqn:Ha.
    + apply Exists_cons in H as [H|H]; [congruence|].
      destruct acc; [by apply IH|done].
    + by apply split_go_acc.
Qed.

Lemma re_split_go_nonempty (field ws s : string) :
  re_split_go field ws s ≠ [].
Proof.
  revert field ws. induction s as [|a s IH]; intros field ws;
    cbn [re_split_go].
  - by destruct (2 <=? String.length ws)%nat.
  - destruct (isspace a); [apply IH|].
    destruct (2 <=? String.length ws)%nat; [done|apply IH].
Qed.

Lemma re_split_go_single (field ws s p : string) :
  Exists (fun a => isspace a = false) (list_ascii_of_string field)
  ∨ Exists (fun a => isspace a = false) (list_ascii_of_string s) →
  re_split_go field ws s = [p] →
  Exists (fun a => isspace a = false) (list_ascii_of_string p).
Proof.
  revert field ws. induction s as [|a s IH]; intros field ws H;
    cbn [re_split_go].
  - destruct (2 <=? String.length ws)%nat; [discriminate|].
    intros [= <-]. destruct H as [H|H]; [|by apply Exists_nil in H].
    apply nonspace_rev. rewrite chars_app. apply Exists_app. by right.
  - destruct (isspace a) eqn:Ha.
    + apply IH. destruct H as [H|H]; [by left|]. right.
      cbn in H. apply Exists_cons in H as [H|H]; [congruence|done].
    + destruct (2 <=? String.length ws)%nat.
      * intros Hp. injection Hp as _ Hp.
        by apply re_split_go_nonempty in Hp.
      * apply IH. left. cbn. by apply Exists_cons_hd.
Qed.

Lemma parse_header_line_Ok (line : string) :
  strip line ≠ "" →
  ∃ header, NortekAsciiHeader.parse_header_line line = Ok header.
Proof.
  intros Hline. unfold NortekAsciiHeader.parse_header_line.
  unfold re_split_spaces.
  pose proof (re_split_go_nonempty "" "" (strip line)) as Hne.
  destruct (re_split_go "" "" (strip line)) as [|p parts] eqn:Hparts; [done|].
  destruct parts as [|q parts].
  - cbn. apply re_split_go_single in Hparts; [|right; by apply strip_nonspace].
    pose proof (split_go_nonspace "" p Hparts) as Hsplit. unfold split.
    destruct (split_go "" p); [done|]. cbn. eauto.
  - cbn [length Nat.leb list_getitem lookup list_lookup mbind result_bind].
    unfold list_last.
    destruct (last (p :: q :: parts)) as [last_part|] eqn:Hlast.
    + cbn. destruct (startswith "(" last_part && endswith ")" last_part); eauto.
    + by apply last_None in Hlast.
Qed.

Lemma read_header_lines_Ok (capture : bool) (lines : list string) :
  ∃ headers,
    NortekAsciiHeader.read_header_lines capture lines = Ok headers
    ∧ (length headers ≤ length lines)%nat.
Proof.
  revert capture. induction lines as [|line lines IH]; intros capture.
  - exists []. done.
  - cbn [NortekAsciiHeader.read_header_lines length].
    case_bool_decide as Hm.
    { destruct (IH true) as (hs & -> & Hlen). exists hs. split; [done|lia]. }
    destruct capture.
    2:{ destruct (IH false) as (hs & -> & Hlen). exists hs. split; [done|lia]. }
    case_bool_decide as Hb; [exists []; split; [done|cbn; lia]|].
    destruct (IH true) as (hs & Hhs & Hlen).
    destruct (truthy (strip line) && negb (startswith "---" line)
              && negb (startswith "[" line)).
    + destruct (parse_header_line_Ok line Hb) as [h ->].
      rewrite Hhs. cbn. exists (h :: hs). split; [done|cbn; lia].
    + rewrite Hhs. exists hs. split; [done|lia].
Qed.

(** [__read_header] returns for every header file: whatever the lines
    are, no line makes the parser raise ([parts[0]], [parts[-1]] and
    [parts[0].split()[0]] always exist), and there are at most as many
    headers as lines. *)
Theorem nortek_header_never_raises (lines : list string) :
  ∃ headers,
    NortekAsciiHeader.__read_header lines = Ok headers
    ∧ (length headers ≤ length lines)%nat.
Proof. apply read_header_lines_Ok. Qed.

(** ** A mapping that names an absent channel *)

Section cnv_absent_channel.
Context {P : Params} {E : Externals}.

Lemma collect_absent_channel (cnv : CnvReader.Cnv) (mapping : dict string)
    (k ch : string) :
  (k, ch) ∈ mapping → ch ∉ (CnvReader.cnv_data cnv).*1 →
  ∃ ch', ch' ∈ mapping.*2
         ∧ CnvReader.collect cnv mapping = Raise (KeyError ch').
Proof.
  unfold CnvReader.collect. generalize (CnvReader.mkCollected [] [] [] None).
  induction mapping as [|[k0 v0] mapping IH]; intros c0 Hin Hch;
    [by apply elem_of_nil in Hin|].
  rewrite foldM_cons. cbn [fmap list_fmap snd].
  assert (Hstep :
    (∃ c1, (d ← dict_getitem v0 (CnvReader.cnv_data cnv);
            l ← dict_getitem v0 (CnvReader.cnv_names cnv);
            u ← dict_getitem v0 (CnvReader.cnv_units cnv);
            Ok (CnvReader.mkCollected
                  (dict_set k0 d (CnvReader.xarray_data c0))
                  (dict_set k0 l (CnvReader.xarray_labels c0))
                  (dict_set k0 u (CnvReader.xarray_units c0))
                  (Some (length d)))) = Ok c1
           ∧ v0 ∈ (CnvReader.cnv_data cnv).*1)
    ∨ (d ← dict_getitem v0 (CnvReader.cnv_data cnv);
       l ← dict_getitem v0 (CnvReader.cnv_names cnv);
       u ← dict_getitem v0 (CnvReader.cnv_units cnv);
       Ok (CnvReader.mkCollected
             (dict_set k0 d (CnvReader.xarray_data c0))
             (dict_set k0 l (CnvReader.xarray_labels c0))
             (dict_set k0 u (CnvReader.xarray_units c0))
             (Some (length d)))) = Raise (KeyError v0)).
  { unfold dict_getitem.
    destruct (dict_get v0 (CnvReader.cnv_data cnv)) as [d|] eqn:Hd;
      [|by right].
    destruct (dict_get v0 (CnvReader.cnv_names cnv)) as [l|]; [|by right].
    destruct (dict_get v0 (CnvReader.cnv_units cnv)) as [u|]; [|by right].
    left. eexists. split; [reflexivity|]. by eapply dict_get_Some_mem. }
  destruct Hstep as [(c1 & Hc1 & Hv0)|Hraise].
  - cbn beta iota. rewrite Hc1. cbn [mbind result_bind].
    apply elem_of_cons in Hin as [[= -> ->]|Hin]; [done|].
    destruct (IH c1 Hin Hch) as (ch' & Hch' & Hfold).
    exists ch'. split; [by right|exact Hfold].
  - cbn beta iota. rewrite Hraise. exists v0. split; [left|done].
Qed.

(** An entry of the mapping that names a channel which the file does
    not have makes the CNV reader fail: once the mapping has passed the
    validation, the read raises the [KeyError] of a mapped channel name,
    and no dataset is returned. *)
Theorem cnv_mapped_channel_must_exist (cnv : CnvReader.Cnv)
    (mapping : dict string) (k ch : string) :
  (k, ch) ∈ mapping → ch ∉ (CnvReader.cnv_data cnv).*1 →
  _validate_necessary_parameters (fun k => dict_mem k mapping) "mapping data"
  = Ok () →
  ∃ ch', ch' ∈ mapping.*2
         ∧ CnvReader.build cnv mapping = Raise (KeyError ch').
Proof.
  intros Hin Hch Hvalid.
  destruct (collect_absent_channel cnv mapping k ch Hin Hch)
    as (ch' & Hch' & Hcollect).
  exists ch'. split; [done|].
  unfold CnvReader.build, CnvReader.assemble.
  by rewrite Hvalid, Hcollect.
Qed.

End cnv_absent_channel.

Lemma cnv_mapped_channel_must_exist_witness :
  ∃ ch', ch' ∈ ["prDM"; "t090C"]
         ∧ CnvReader.build (P := ctdparams.example) (E := example_externals)
             Examples.cnv_b [("pressure", "prDM"); ("temperature", "t090C")]
           = Raise (KeyError ch').
Proof.
  apply (cnv_mapped_channel_must_exist (P := ctdparams.example)
           (E := example_externals) Examples.cnv_b
           [("pressure", "prDM"); ("temperature", "t090C")]
           "temperature" "t090C").
  - right. left.
  - apply (bool_decide_unpack _). vm_compute. exact I.
  - reflexivity.
Defined.

(** ** The depth of the TOB reader *)

Lemma setattr_find_self (ds ds' : xr.Dataset) (k a x : string)
    (v : xr.DataArray) :
  xr.find_var k (xr.variables ds) = Some v →
  xr.setattr ds k a x = Ok ds' →
  xr.find_var k (xr.variables ds')
  = Some (xr.mkDataArray (xr.name v) (xr.coord v) (xr.dims v) (xr.values v)
            (<[a := x]> (xr.attrs v))).
Proof.
  intros Hv. unfold xr.setattr, xr.getitem. rewrite Hv. cbn.
  intros [= <-]. by apply find_var_set_attrs.
Qed.

Section tob_depth.
Context {P : Params} {E : Externals}.

(** The depth of a TOB dataset is computed from its pressure for the
    fixed latitude 53.8187, whatever the position of the cast: the
    variable [depth] holds [gsw.z_from_p] of the values of the variable
    [pressure], and its unit is ["m"]. *)
Theorem tob_depth_from_pressure (self : Reader) (file : TobReader.TobFile)
    (r : Reader) :
  TIME ≠ "pressure" → TIME ≠ "depth" →
  TobReader.__read self file = Ok r →
  ∃ ds pressure depth d,
    get_data r = Some ds
    ∧ xr.getitem ds "pressure" = Ok pressure
    ∧ xr.getitem ds "depth" = Ok depth
    ∧ gsw_z_from_p (xr.values pressure) (Float 53.8187) = Ok d
    ∧ xr.values depth = Float <$> d
    ∧ xr.dims depth = ["time"]
    ∧ xr.attrs depth !! "units" = Some "m".
Proof.
  intros HTp HTd H. unfold TobReader.__read in H.
  destruct (TobReader.header_line_index (TobReader.lines file)) as [h|];
    [|discriminate].
  apply bind_Ok in H as (header_line & _ & H).
  apply bind_Ok in H as (units_line & _ & H).
  apply bind_Ok in H as (frame & _ & H).
  apply bind_Ok in H as (df & _ & H).
  apply bind_Ok in H as (ds1 & _ & H).
  apply bind_Ok in H as (ds2 & _ & H).
  apply bind_Ok in H as (ds3 & _ & H).
  apply bind_Ok in H as (pressure & Hp & H).
  apply bind_Ok in H as (d & Hd & H).
  apply bind_Ok in H as (ds4 & Hds4 & H).
  apply bind_Ok in H as (ds5 & Hds5 & H).
  apply bind_Ok in H as (t & _ & H).
  apply bind_Ok in H as (ds6 & Hds6 & H).
  apply bind_Ok in H as (ds7 & Hds7 & H).
  injection H as <-. cbn [get_data data].
  assert (Hp3 : xr.find_var "pressure" (xr.variables ds3) = Some pressure).
  { unfold xr.getitem in Hp.
    destruct (xr.find_var "pressure" (xr.variables ds3));
      [congruence|discriminate]. }
  (* the pressure *)
  assert (Hp6 : xr.find_var "pressure" (xr.variables ds6) = Some pressure).
  { rewrite (setitem_find_other _ _ "pressure" TIME _ _ (not_eq_sym HTp) Hds6).
    rewrite (setattr_find_other _ _ "pressure" "depth" _ _ ltac:(done) Hds5).
    by rewrite (setitem_find_other _ _ "pressure" "depth" _ _
                  ltac:(done) Hds4). }
  (* the depth *)
  destruct (setitem_find_self _ _ _ _ _ Hds4) as (v4 & Hv4 & Hval4 & Hdim4).
  pose proof (setattr_find_self _ _ _ _ _ _ Hv4 Hds5) as Hv5.
  assert (Hv6 : xr.find_var "depth" (xr.variables ds6)
                = Some (xr.mkDataArray (xr.name v4) (xr.coord v4) (xr.dims v4)
                          (xr.values v4) (<["units" := "m"]> (xr.attrs v4)))).
  { by rewrite (setitem_find_other _ _ "depth" TIME _ _ (not_eq_sym HTd) Hds6). }
  destruct (assign_metadata_for_all_getitem ds6) as (ds' & Hds' & _ & Hall).
  rewrite Hds7 in Hds'. injection Hds' as <-.
  destruct (Hall "pressure" pressure) as (p' & Hp' & Hpval & _).
  { unfold xr.getitem. by rewrite Hp6. }
  destruct (Hall "depth" _ ltac:(unfold xr.getitem; by rewrite Hv6))
    as (d' & Hd' & Hdval & Hddim & _ & Hdattrs).
  cbn [xr.values xr.dims xr.attrs] in Hdval, Hddim, Hdattrs.
  exists ds7, p', d', d. split; [done|]. split; [done|]. split; [done|].
  split; [by rewrite Hpval|]. split; [congruence|]. split; [congruence|].
  rewrite Hdattrs. by rewrite lookup_insert_eq.
Qed.

End tob_depth.

Lemma tob_depth_from_pressure_witness :
  ∃ r ds depth,
    TobReader.__read (P := ctdparams.example) (E := example_externals)
      (mkReader "cast.tob" None (Some [])) Examples.tob = Ok r
    ∧ get_data r = Some ds
    ∧ xr.getitem ds "depth" = Ok depth
    ∧ xr.values depth = [Float (-1); Float (-2)]
    ∧ xr.attrs depth !! "units" = Some "m".
Proof.
  destruct (TobReader.__read (P := ctdparams.example) (E := example_externals)
              (mkReader "cast.tob" None (Some [])) Examples.tob)
    as [r|e] eqn:Hr; [|vm_compute in Hr; discriminate].
  destruct (tob_depth_from_pressure (P := ctdparams.example)
              (E := example_externals)
              (mkReader "cast.tob" None (Some [])) Examples.tob r)
    as (ds & p & depth & d & Hds & Hp & Hdepth & Hd & Hval & _ & Hu);
    [discriminate|discriminate|exact Hr|].
  exists r, ds, depth. split; [reflexivity|]. split; [exact Hds|].
  split; [exact Hdepth|]. split; [|exact Hu].
  rewrite Hval.
  assert (Hc : match TobReader.__read (P := ctdparams.example)
                       (E := example_externals)
                       (mkReader "cast.tob" None (Some [])) Examples.tob with
               | Ok r' =>
                   match get_data r' with
                   | Some ds' =>
                       match xr.getitem ds' "pressure" with
                       | Ok v' => xr.values v'
                       | Raise _ => []
                       end
                   | None => []
                   end
               | Raise _ => []
               end = [Float 1; Float 2]) by (vm_compute; reflexivity).
  rewrite Hr, Hds, Hp in Hc. rewrite Hc in Hd. cbn in Hd.
  injection Hd as <-. reflexivity.
Defined.


(** ** The unit in the label of a channel *)

Lemma string_chars_inj (s1 s2 : string) :
  list_ascii_of_string s1 = list_ascii_of_string s2 → s1 = s2.
Proof.
  intros H. rewrite <- (string_of_list_ascii_of_string s1),
    <- (string_of_list_ascii_of_string s2). by rewrite H.
Qed.

Lemma string_rev_app (s1 s2 : string) :
  String.rev (s1 ++ s2)%string = (String.rev s2 ++ String.rev s1)%string.
Proof.
  apply string_chars_inj.
  by rewrite chars_rev, !chars_app, !chars_rev, rev_app_distr.
Qed.

Lemma string_rev_involutive (s : string) : String.rev (String.rev s) = s.
Proof. apply string_chars_inj. by rewrite !chars_rev, rev_involutive. Qed.

Lemma string_app_cons (a : ascii) (s1 s2 : string) :
  (String a s1 ++ s2)%string = String a (s1 ++ s2)%string.
Proof. reflexivity. Qed.

Lemma string_app_nil_r (s : string) : (s ++ "")%string = s.
Proof.
  induction s as [|a s IH]; [done|]. by rewrite string_app_cons, IH.
Qed.

Lemma string_app_assoc (s1 s2 s3 : string) :
  ((s1 ++ s2) ++ s3)%string = (s1 ++ s2 ++ s3)%string.
Proof.
  induction s1 as [|a s1 IH]; [done|]. by rewrite !string_app_cons, IH.
Qed.

Lemma lstrip_app_space (s : string) :
  lstrip (s ++ " ")%string
  = match lstrip s with
    | "" => ""
    | t => (t ++ " ")%string
    end.
Proof.
  induction s as [|a s IH]; [done|].
  rewrite string_app_cons. cbn [lstrip].
  destruct (isspace a); [exact IH|done].
Qed.

Lemma rstrip_app_space (s : string) : rstrip (s ++ " ")%string = rstrip s.
Proof. unfold rstrip. by rewrite string_rev_app. Qed.

Lemma strip_app_space (s : string) : strip (s ++ " ")%string = strip s.
Proof.
  unfold strip. rewrite lstrip_app_space.
  destruct (lstrip s) as [|a t] eqn:Ht; [done|].
  by rewrite rstrip_app_space.
Qed.

Lemma replace_go_skip (old new skipped rest : string) :
  replace_go old new (String.length skipped) (skipped ++ rest)%string
  = replace_go old new 0 rest.
Proof.
  induction skipped as [|a skipped IH]; [done|].
  rewrite string_app_cons. cbn [String.length replace_go]. exact IH.
Qed.

Lemma prefix_app (s rest : string) : String.prefix s (s ++ rest)%string = true.
Proof.
  induction s as [|a s IH]; [by destruct rest|].
  rewrite string_app_cons. cbn [String.prefix].
  destruct (ascii_dec a a); [exact IH|done].
Qed.

Lemma replace_go_before (c : ascii) (old' new before rest : string) :
  c ∉ list_ascii_of_string before →
  replace_go (String c old') new 0 (before ++ rest)%string
  = (before ++ replace_go (String c old') new 0 rest)%string.
Proof.
  induction before as [|a before IH]; [done|].
  cbn [list_ascii_of_string]. intros [Hca Hc]%not_elem_of_cons.
  rewrite !string_app_cons. cbn [replace_go String.prefix].
  destruct (ascii_dec c a) as [->|_]; [done|].
  f_equal. by apply IH.
Qed.

Lemma replace_go_match (c : ascii) (old' new rest : string) :
  replace_go (String c old') new 0 (String c old' ++ rest)%string
  = (new ++ replace_go (String c old') new 0 rest)%string.
Proof.
  rewrite string_app_cons. cbn [replace_go String.prefix String.length].
  destruct (ascii_dec c c) as [_|]; [|done].
  rewrite prefix_app. f_equal.
  replace (S (String.length old') - 1) with (String.length old') by lia.
  apply replace_go_skip.
Qed.

(** When the label of a channel ends with its unit in brackets, as in
    ["Pressure, Digiquartz [db]"], the label that is stored as
    [long_name] is the text before the unit, stripped. *)
Theorem label_unit_is_removed (name unit : string) :
  unit ≠ "" →
  "["%char ∉ list_ascii_of_string name →
  stored_label (name ++ " [" ++ unit ++ "]")%string (Some unit) = strip name.
Proof.
  intros Hunit Hname. unfold stored_label, truthy.
  rewrite bool_decide_eq_false_2 by done. cbn [negb].
  change (strip (replace_go (String "["%char (unit ++ "]")) "" 0
                   (name ++ String " "%char (String "["%char (unit ++ "]"))))
          = strip name).
  assert (Hsplit : (name ++ String " "%char (String "["%char (unit ++ "]")))%string
                   = ((name ++ " ")
                        ++ String "["%char (unit ++ "]") ++ "")%string).
  { by rewrite string_app_nil_r, string_app_assoc. }
  rewrite Hsplit, replace_go_before, replace_go_match.
  - cbn [replace_go]. by rewrite !string_app_nil_r, strip_app_space.
  - rewrite chars_app. cbn. rewrite elem_of_app, elem_of_cons.
    intros [?|[?|?%elem_of_nil]]; [done|discriminate|done].
Qed.

(** ** One entry of the caller's mapping *)

Lemma rename_vars_conflict (nd : gmap string string)
    (done vs : list xr.DataArray) :
  NoDup (xr.name <$> done) →
  ¬ NoDup (xr.name <$> (done ++ (xr.rename_var nd <$> vs))) →
  xr.rename_vars nd done vs = Raise (ValueError "the new name conflicts").
Proof.
  revert done. induction vs as [|v vs IH]; intros done Hdone Hdup; cbn.
  - destruct Hdup. by rewrite app_nil_r.
  - case_bool_decide as Hin; [done|].
    apply IH.
    + rewrite fmap_app. apply NoDup_app. split; [done|].
      split; [|apply NoDup_singleton].
      intros x Hx Hx'. cbn in Hx'. apply list_elem_of_singleton in Hx'.
      by subst x.
    + by rewrite <- app_assoc.
Qed.

Lemma rename_singleton_keys (ds : xr.Dataset) (value key : string) :
  value ∈ xr.names ds →
  forallb (fun k => xr.contains ds k || bool_decide (k ∈ xr.all_dims ds))
    (map_to_list ({[value := key]} : gmap string string)).*1 = true.
Proof.
  intros Hv. rewrite map_to_list_singleton. cbn.
  unfold xr.contains. by rewrite bool_decide_eq_true_2.
Qed.

Lemma rename_singleton_name (value key n : string) :
  xr.rename_name {[value := key]} n = if decide (n = value) then key else n.
Proof.
  unfold xr.rename_name. destruct (decide (n = value)) as [->|Hne].
  - by rewrite lookup_singleton_eq.
  - by rewrite lookup_singleton_ne.
Qed.

Lemma renamed_names (nd : gmap string string) (vs : list xr.DataArray) :
  xr.name <$> (xr.rename_var nd <$> vs) = xr.rename_name nd <$> (xr.name <$> vs).
Proof. rewrite <- !list_fmap_compose. by apply list_fmap_ext. Qed.

(** An entry [key: source] of the caller's mapping whose source is a
    variable renames it: when [key] names no variable yet, the mapping
    loop returns the dataset in which the variable [source] is named
    [key], with the other names, the order and the values unchanged. *)
Theorem custom_mapping_renames_source (key source : string)
    (ds : xr.Dataset) :
  NoDup (xr.names ds) → source ∈ xr.names ds → key ∉ xr.names ds →
  ∃ ds',
    apply_custom_mapping [(key, source)] ds = Ok ds'
    ∧ xr.names ds'
      = (fun n => if decide (n = source) then key else n) <$> xr.names ds
    ∧ xr.values <$> xr.variables ds' = xr.values <$> xr.variables ds.
Proof.
  intros Hnd Hsource Hkey.
  unfold apply_custom_mapping. cbn [foldM].
  unfold xr.contains. rewrite bool_decide_eq_true_2 by done.
  assert (Hrename : ∃ ds', xr.rename ds {[source := key]} = Ok ds').
  { unfold xr.rename. rewrite rename_singleton_keys by done.
    rewrite rename_vars_complete; [cbn; eauto|].
    cbn [app]. rewrite renamed_names.
    apply NoDup_fmap_2_strong; [|exact Hnd].
    intros x y Hx Hy. rewrite !rename_singleton_name.
    destruct (decide (x = source)), (decide (y = source));
      intros Hxy; [congruence| | |done].
    - subst y. done.
    - subst x. done. }
  destruct Hrename as [ds' Hds']. rewrite Hds'. cbn [mbind result_bind].
  exists ds'. split; [done|]. split.
  - by apply rename_singleton_names.
  - by apply rename_values in Hds' as [? _].
Qed.

(** An entry [key: source] of the caller's mapping whose source is a
    variable, while [key] already names another variable, makes the
    post-processing fail: the rename raises [ValueError], whatever the
    rest of the mapping is. *)
Theorem custom_mapping_conflict (key source : string) (rest : dict string)
    (ds : xr.Dataset) :
  source ∈ xr.names ds → key ∈ xr.names ds → key ≠ source →
  apply_custom_mapping ((key, source) :: rest) ds
  = Raise (ValueError "the new name conflicts").
Proof.
  intros Hsource Hkey Hne.
  unfold apply_custom_mapping. rewrite foldM_cons. cbn beta iota.
  unfold xr.contains. rewrite bool_decide_eq_true_2 by done.
  unfold xr.rename. rewrite rename_singleton_keys by done.
  rewrite rename_vars_conflict; [done|constructor|].
  cbn [app]. rewrite renamed_names. fold (xr.names ds).
  intros Hnd.
  apply list_elem_of_lookup in Hsource as [i Hi].
  apply list_elem_of_lookup in Hkey as [j Hj].
  assert (i = j) as ->; [|congruence].
  eapply NoDup_lookup; [exact Hnd| |].
  - rewrite list_lookup_fmap, Hi. cbn. rewrite rename_singleton_name.
    by rewrite decide_True.
  - rewrite list_lookup_fmap, Hj. cbn. rewrite rename_singleton_name.
    by rewrite decide_False.
Qed.

Lemma custom_mapping_renames_source_witness :
  let ds := xr.mkDataset
              [xr.mkDataArray "time" true ["time"] [Datetime 0] ∅;
               xr.mkDataArray "z" false ["time"] [Float 1.5] ∅] [] in
  ∃ ds', apply_custom_mapping [("depth", "z")] ds = Ok ds'
         ∧ xr.names ds' = ["time"; "depth"].
Proof.
  intros ds.
  destruct (custom_mapping_renames_source "depth" "z" ds)
    as (ds' & Hds' & Hn & _).
  - apply (bool_decide_unpack _). vm_compute. exact I.
  - right. left.
  - apply (bool_decide_unpack _). vm_compute. exact I.
  - exists ds'. split; [exact Hds'|]. rewrite Hn. reflexivity.
Defined.

Lemma custom_mapping_conflict_witness :
  let ds := xr.mkDataset
              [xr.mkDataArray "time" true ["time"] [Datetime 0] ∅;
               xr.mkDataArray "z" false ["time"] [Float 1.5] ∅;
               xr.mkDataArray "depth" false ["time"] [Float 2.5] ∅] [] in
  apply_custom_mapping [("depth", "z")] ds
  = Raise (ValueError "the new name conflicts").
Proof.
  intros ds. apply custom_mapping_conflict.
  - right. left.
  - right. right. left.
  - discriminate.
Defined.

Lemma label_unit_is_removed_witness :
  stored_label "Pressure, Digiquartz [db]" (Some "db")
  = "Pressure, Digiquartz".
Proof.
  refine (eq_trans (label_unit_is_removed "Pressure, Digiquartz" "db" _ _) _).
  - discriminate.
  - apply (bool_decide_unpack _). vm_compute. exact I.
  - vm_compute. reflexivity.
Defined.
